(** * folder2LLM: extraction dispatch, sanitisation and output-path mapping

    A shallow embedding of the three conversion scripts of the repository
    ([files_2_text.py], [files_2_zip.py], [raw_text_2_utf8.py]) together
    with the parts of the Python runtime they call ([str] methods,
    [posixpath], [logging]), and the properties of the specification that
    are stated about them.

    Python strings are sequences of Unicode code points and are modelled as
    lists of [N].  The Unicode Character Database (normalisation, the
    printable property outside ASCII, lower-casing) is not reproduced: it is
    a parameter, [UnicodeData].  The third-party parsers (python-docx,
    PyMuPDF, PyPDF2, openpyxl, odfpy, json) and the file system are
    parameters as well, collected in [World]. *)

From Stdlib Require Import NArith ZArith List String Ascii Bool Lia.
From Stdlib Require Import DecimalString.
From stdpp Require Import base decidable option list strings gmap.

Set Warnings "-register-all".

Abbreviation char := N.
Abbreviation text := (list N).

(** ** Python [str] *)

Module Py.

(** An ASCII literal of the source, as a sequence of code points. *)
Definition lit (s : string) : text :=
  (λ a, N_of_ascii a) <$> list_ascii_of_string s.

Definition LF : char := 10%N.
Definition CR : char := 13%N.
Definition TAB : char := 9%N.
Definition SPACE : char := 32%N.

(** [str.isspace] on one code point: the characters whose bidirectional
    class is WS, B or S, or whose general category is Zs.  This is the
    table CPython generates into [_PyUnicode_IsWhitespace]. *)
Definition isspace (c : char) : bool :=
  ((9 <=? c) && (c <=? 13) || (28 <=? c) && (c <=? 32)
   || (c =? 133) || (c =? 160) || (c =? 5760)
   || (8192 <=? c) && (c <=? 8202)
   || (c =? 8232) || (c =? 8233) || (c =? 8239) || (c =? 8287)
   || (c =? 12288))%N.

(** [str.lstrip()], [str.rstrip()] and [str.strip()] without argument. *)
Fixpoint lstrip (s : text) : text :=
  match s with
  | c :: s' => if isspace c then lstrip s' else s
  | [] => []
  end.

Definition rstrip (s : text) : text := reverse (lstrip (reverse s)).

Definition strip (s : text) : text := rstrip (lstrip s).

(** [sep.join(parts)]. *)
Fixpoint join (sep : text) (parts : list text) : text :=
  match parts with
  | [] => []
  | [p] => p
  | p :: ps => p ++ sep ++ join sep ps
  end.

(** [s.split(c)] for a one-character separator: never the empty list. *)
Fixpoint split (c : char) (s : text) : list text :=
  match s with
  | [] => [[]]
  | x :: s' =>
      if (x =? c)%N then [] :: split c s'
      else match split c s' with
           | w :: ws => (x :: w) :: ws
           | [] => [[x]]
           end
  end.

(** [s.rfind(c)]: the highest index of [c] in [s], or [-1]. *)
Fixpoint rfind (c : char) (s : text) : Z :=
  match s with
  | [] => (-1)%Z
  | x :: s' =>
      let r := rfind c s' in
      if (0 <=? r)%Z then (r + 1)%Z
      else if (x =? c)%N then 0%Z else (-1)%Z
  end.

(** [s.startswith(p)] and [s.endswith(p)]. *)
Fixpoint startswith (s p : text) {struct p} : bool :=
  match p, s with
  | [], _ => true
  | c :: p', x :: s' => (x =? c)%N && startswith s' p'
  | _ :: _, [] => false
  end.

Definition endswith (s p : text) : bool :=
  startswith (reverse s) (reverse p).

(** Slices [s[:i]], [s[i:]] and [s[i:j]] for indices that are not
    negative (the only ones the modelled code uses). *)
Definition upto (i : Z) (s : text) : text := take (Z.to_nat i) s.
Definition from (i : Z) (s : text) : text := drop (Z.to_nat i) s.
Definition slice (i j : Z) (s : text) : text := upto (j - i) (from i s).

(** [str(n)] for an integer. *)
Definition str_of_Z (z : Z) : text :=
  lit (NilEmpty.string_of_int (Z.to_int z)).

End Py.

(** ** The Unicode Character Database, as far as the scripts consult it *)

Record UnicodeData := {
  (** [unicodedata.normalize("NFC", s)] *)
  normalize_NFC : text → text;
  (** [ch.isprintable()] for a code point outside ASCII *)
  ucd_printable : char → bool;
  (** [s.lower()] *)
  lower : text → text;
}.

(** [ch.isprintable()]: on ASCII exactly the range [0x20 .. 0x7e]; the
    database decides elsewhere. *)
Definition isprintable (U : UnicodeData) (c : char) : bool :=
  if (c <? 128)%N then (32 <=? c)%N && (c <? 127)%N else ucd_printable U c.

(** A string is in NFC when normalising it changes nothing. *)
Definition is_NFC (U : UnicodeData) (s : text) : Prop := normalize_NFC U s = s.

(** What the development assumes of the database.  [inert] is the derived
    property NFC_Inert: a character that neither decomposes, nor reorders,
    nor combines with a neighbour. *)
Record UnicodeLaws (U : UnicodeData) (inert : char → bool) : Prop := {
  nfc_empty : normalize_NFC U [] = [];
  nfc_idempotent : ∀ s, normalize_NFC U (normalize_NFC U s) = normalize_NFC U s;
  nfc_inert_split : ∀ a c b, inert c = true →
    normalize_NFC U (a ++ c :: b) = normalize_NFC U a ++ c :: normalize_NFC U b;
  nfc_nonprintable_inert : ∀ s c, c ∈ normalize_NFC U s →
    isprintable U c = false → inert c = true;
  space_inert : inert Py.SPACE = true;
  whitespace_nonprintable : ∀ c, Py.isspace c = true → c ≠ Py.SPACE →
    isprintable U c = false;
}.

(** ** Exceptions *)

(** A raised Python exception: its class name and its message. *)
Record exn := Exception { exn_class : string; exn_message : string }.

(** The result of evaluating an expression that may raise. *)
Inductive outcome (A : Type) : Type :=
| Ok (a : A)
| Raise (e : exn).
Arguments Ok {A} a.
Arguments Raise {A} e.

Definition bind {A B} (m : outcome A) (k : A → outcome B) : outcome B :=
  match m with
  | Ok a => k a
  | Raise e => Raise e
  end.

Notation "'let!' x ':=' m 'in' k" := (bind m (λ x, k))
  (at level 10, x pattern, m at level 100, k at level 200).

(** A comprehension [[f(x) for x in xs]] whose element expression may
    raise: the first exception aborts it and the partial list is lost. *)
Fixpoint collect {A B} (f : A → outcome B) (xs : list A) : outcome (list B) :=
  match xs with
  | [] => Ok []
  | x :: xs' => let! y := f x in let! ys := collect f xs' in Ok (y :: ys)
  end.

(** A loop [for x in xs: acc.append(f(x))] over a list [acc] that was
    created before the [try]: the items appended before an exception stay
    in [acc]. *)
Fixpoint append_each {A B} (f : A → outcome B) (xs : list A) (acc : list B)
  : list B * option exn :=
  match xs with
  | [] => (acc, None)
  | x :: xs' =>
      match f x with
      | Ok y => append_each f xs' (acc ++ [y])
      | Raise e => (acc, Some e)
      end
  end.

(** ** [posixpath] *)

Module PosixPath.
Import Py.

Definition sep : char := 47%N.
Definition extsep : char := 46%N.
Definition curdir : text := [extsep].
Definition pardir : text := [extsep; extsep].

(** [not s] for a string or a list. *)
Definition is_empty {A} (s : list A) : bool :=
  match s with [] => true | _ => false end.

Definition isabs (s : text) : bool := startswith s [sep].

(** One iteration of the loop of [join(a, *p)]. *)
Definition join_step (path b : text) : text :=
  if startswith b [sep] then b
  else if is_empty path || endswith path [sep] then path ++ b
  else path ++ [sep] ++ b.

Definition join (a : text) (p : list text) : text := fold_left join_step p a.

(** [genericpath._splitext(p, '/', None, '.')]. *)
Definition splitext (p : text) : text * text :=
  let sepIndex := rfind sep p in
  let dotIndex := rfind extsep p in
  if (sepIndex <? dotIndex)%Z then
    (* the while loop: look for a character that is not a dot between
       the start of the file name and the last dot *)
    if forallb (N.eqb extsep) (slice (sepIndex + 1) dotIndex p)
    then (p, [])
    else (upto dotIndex p, from dotIndex p)
  else (p, []).

(** [s.rstrip('/')]. *)
Fixpoint lstrip_sep (s : text) : text :=
  match s with
  | c :: s' => if (c =? sep)%N then lstrip_sep s' else s
  | [] => []
  end.
Definition rstrip_sep (s : text) : text :=
  reverse (lstrip_sep (reverse s)).

Definition dirname (p : text) : text :=
  let i := (rfind sep p + 1)%Z in
  let head := upto i p in
  if negb (is_empty head) && negb (forallb (N.eqb sep) head)
  then rstrip_sep head else head.

(** The body of the loop of [normpath]. *)
Definition norm_step (initial_slashes : nat) (new_comps : list text)
    (comp : text) : list text :=
  if bool_decide (comp = []) || bool_decide (comp = curdir) then new_comps
  else if negb (bool_decide (comp = pardir))
          || (Nat.eqb initial_slashes 0 && is_empty new_comps)
          || bool_decide (last new_comps = Some pardir)
  then new_comps ++ [comp]
  else removelast new_comps.

(** POSIX allows one or two initial slashes, but treats three or more
    as a single slash. *)
Definition initial_slashes (path : text) : nat :=
  if startswith path [sep] then
    if startswith path [sep; sep] && negb (startswith path [sep; sep; sep])
    then 2 else 1
  else 0.

Definition normpath (path : text) : text :=
  if is_empty path then curdir
  else
    let initial_slashes := initial_slashes path in
    let comps := split sep path in
    let new_comps := fold_left (norm_step initial_slashes) comps [] in
    let path := Py.join [sep] new_comps in
    let path := repeat sep initial_slashes ++ path in
    if is_empty path then curdir else path.

Definition abspath (cwd path : text) : text :=
  normpath (if isabs path then path else join cwd [path]).

(** [genericpath.commonprefix([a, b])] on two lists of components: the
    longest common leading part. *)
Fixpoint commonprefix (a b : list text) : list text :=
  match a, b with
  | x :: a', y :: b' => if bool_decide (x = y) then x :: commonprefix a' b' else []
  | _, _ => []
  end.

Definition relpath (cwd path start : text) : outcome text :=
  if is_empty path then Raise (Exception "ValueError" "no path specified")
  else
    let start_list := filter (λ x, x ≠ []) (split sep (abspath cwd start)) in
    let path_list := filter (λ x, x ≠ []) (split sep (abspath cwd path)) in
    let i := length (commonprefix start_list path_list) in
    let rel_list := repeat pardir (length start_list - i) ++ drop i path_list in
    match rel_list with
    | [] => Ok curdir
    | a :: p => Ok (join a p)
    end.

End PosixPath.

(** ** [logging] *)

Inductive level := DEBUG | INFO | WARNING | ERROR.

Inductive log_arg :=
| ArgStr (s : text)
| ArgInt (n : N)
| ArgExn (e : exn).

(** One call of a [logger] method: level, format string and arguments. *)
Record log_record := LogRecord {
  log_level : level;
  log_format : string;
  log_args : list log_arg;
}.

(** ** Values produced by the parsers *)

(** The result of [json.load]: [JObj] carries the items of a [dict] in
    insertion order, with pairwise distinct keys; [JNum] keeps the numeric
    literal, which the scripts never inspect. *)
Inductive json :=
| JNull
| JBool (b : bool)
| JNum (literal : text)
| JStr (s : text)
| JArr (items : list json)
| JObj (members : list (text * json)).

Module PyJson.

Definition AttributeError (what : string) : exn :=
  Exception "AttributeError" what.
Definition TypeError (what : string) : exn :=
  Exception "TypeError" what.

Fixpoint assoc (key : text) (members : list (text * json)) : option json :=
  match members with
  | [] => None
  | (k, v) :: rest => if bool_decide (k = key) then Some v else assoc key rest
  end.

(** [obj.get(key, default)]: only a [dict] has the method. *)
Definition get (obj : json) (key : text) (default : json) : outcome json :=
  match obj with
  | JObj members => Ok (from_option id default (assoc key members))
  | _ => Raise (AttributeError "object has no attribute 'get'")
  end.

(** [iter(obj)]: a list yields its items, a [str] its characters, a
    [dict] its keys; nothing else is iterable. *)
Definition iter (obj : json) : outcome (list json) :=
  match obj with
  | JArr items => Ok items
  | JStr s => Ok ((λ c, JStr [c]) <$> s)
  | JObj members => Ok ((λ kv, JStr kv.1) <$> members)
  | _ => Raise (TypeError "object is not iterable")
  end.

Definition as_str (item : json) : outcome text :=
  match item with
  | JStr s => Ok s
  | _ => Raise (TypeError "sequence item: expected str instance")
  end.

(** ["".join(obj)]. *)
Definition join_empty (obj : json) : outcome text :=
  let! items := iter obj in
  let! strs := collect as_str items in
  Ok (concat strs).

End PyJson.

(** A cell value of a worksheet read with [values_only=True]; [VOther]
    (a float, a date, ...) carries what [str] returns for it. *)
Inductive cell_value :=
| VStr (s : text)
| VInt (z : Z)
| VBool (b : bool)
| VOther (rendered : text).

Definition py_str (x : cell_value) : text :=
  match x with
  | VStr s => s
  | VInt z => Py.str_of_Z z
  | VBool true => Py.lit "True"
  | VBool false => Py.lit "False"
  | VOther rendered => rendered
  end.

(** A row is a tuple of cells, [None] for an empty one. *)
Abbreviation row := (list (option cell_value)).

(** [openpyxl] workbook: [wb.sheetnames], and [wb[name].iter_rows(...)],
    which reads lazily and may raise at any row (or at once, as for a chart
    sheet, which has no rows). *)
Record workbook := {
  sheetnames : list text;
  iter_rows : text → list (outcome row);
}.

(** ** The environment of a run *)

(** The directory tree [os.walk] sees below a directory: the
    sub-directories and the other entries, in [scandir] order. *)
Inductive tree :=
| Dir (subdirs : list (text * tree)) (files : list text).

(** The file system and the parsers.  The elements of a list of outcomes
    are evaluated in order while the script iterates. *)
Record World := {
  (** [os.getcwd()] *)
  getcwd : text;
  (** [open(p, "r", encoding="utf-8")] followed by [f.read()] *)
  open_read : text → outcome text;
  (** [json.loads] *)
  json_loads : text → outcome json;
  (** [docx.Document(p)], then [p.text] of each paragraph *)
  docx_Document : text → outcome (list (outcome text));
  (** [fitz.open(p)], then [page.get_text()] of each page *)
  fitz_open : text → outcome (list (outcome text));
  (** [open(p, "rb")], [PyPDF2.PdfReader(f)], [len(pdf.pages)], then
      [pdf.pages[i].extract_text()] of each page *)
  PyPDF2_PdfReader : text → outcome (list (outcome (option text)));
  (** [odf.opendocument.load(p)], [doc.getElementsByType(odf.text.P)],
      then [odf.teletype.extractText] of each element *)
  odf_load : text → outcome (list (outcome text));
  (** [openpyxl.load_workbook(p, read_only=True, data_only=True)] *)
  load_workbook : text → outcome workbook;
  (** [os.path.getsize] *)
  getsize : text → outcome N;
  (** what [os.walk] finds under a directory, [None] when it cannot be
      listed (an [OSError], which [os.walk] swallows).  This is the walk
      of a path that can be handed to the operating system: for the
      others [os.walk] raises, see [fsencode_error] *)
  scandir : text → option tree;
  (** [os.path.exists] *)
  path_exists : text → bool;
  (** [os.makedirs(p, exist_ok=True)] *)
  makedirs : text → outcome unit;
  (** [open(p, "w", encoding="utf-8")] *)
  open_write : text → outcome unit;
  (** [f.write(s)] on the file opened at [p] *)
  write : text → text → outcome unit;
}.

(** Which optional modules were imported: [false] stands for the name
    bound to [None] by the [except ImportError] clause. *)
Record Imports := {
  docx : bool;
  fitz : bool;
  PyPDF2 : bool;
  openpyxl : bool;
  odf : bool;
}.

(** What a run leaves behind: the files written (path to content), the
    directories created, and the calls to the logger, oldest first. *)
Record state := State {
  st_files : gmap text text;
  st_dirs : gset text;
  st_log : list log_record;
}.

Definition add_log (st : state) (records : list log_record) : state :=
  State (st_files st) (st_dirs st) (st_log st ++ records).

Definition add_dir (st : state) (p : text) : state :=
  State (st_files st) ({[p]} ∪ st_dirs st) (st_log st).

Definition put_file (st : state) (p content : text) : state :=
  State (<[p := content]> (st_files st)) (st_dirs st) (st_log st).

(** A [try] block that returns a string, with the handler of its
    [except Exception as e] clause. *)
Definition try_except (body : outcome text)
    (handler : exn → text * list log_record) : text * list log_record :=
  match body with
  | Ok t => (t, [])
  | Raise e => handler e
  end.

(** ** [zipfile] *)

(** One call [zf.write(filename, arcname=arcname)] that returned: the file
    stored and the name it is stored under. *)
Record member := Member {
  filename : text;
  arcname : text;
}.

(** The [zipfile] module, for one archive opened for writing. *)
Record ZipModule := {
  (** [zipfile.ZipFile(p, "w", zipfile.ZIP_DEFLATED)] *)
  ZipFile : text → outcome unit;
  (** [zf.write(filename, arcname=arcname)] *)
  zf_write : text → text → outcome unit;
  (** [zf.close()], which leaving the [with] block calls *)
  zf_close : text → outcome unit;
}.

(** What [zip_output_dir] leaves behind: the archive it created, if it
    could, the members added to it, oldest first, the calls to the logger,
    and the exception that left the function, if any. *)
Record zip_run := ZipRun {
  zr_path : option text;
  zr_members : list member;
  zr_log : list log_record;
  zr_raised : option exn;
}.

(** * [files_2_text.py] *)

Module Files2Text.
Import Py.

Section Script.
Context (U : UnicodeData) (w : World) (imports : Imports).

Definition _read_plaintext (filepath : text) : text * list log_record :=
  try_except (open_read w filepath)
    (λ e, ([], [LogRecord ERROR "Error reading plaintext file %s: %s"
                  [ArgStr filepath; ArgExn e]])).

Definition _read_docx (filepath : text) : text * list log_record :=
  try_except
    (let! doc := docx_Document w filepath in
     let! paragraphs := collect id doc in
     Ok (join [LF] paragraphs))
    (λ e, ([], [LogRecord ERROR "Error reading DOCX %s: %s"
                  [ArgStr filepath; ArgExn e]])).

Definition _read_pdf_pymupdf (filepath : text) : text * list log_record :=
  let text_pages : list text := [] in
  let '(text_pages, raised) :=
    match fitz_open w filepath with
    | Ok pdf_doc => append_each id pdf_doc text_pages
    | Raise e => (text_pages, Some e)
    end in
  (join [LF] text_pages,
   match raised with
   | Some e => [LogRecord ERROR "Error reading PDF (PyMuPDF) %s: %s"
                  [ArgStr filepath; ArgExn e]]
   | None => []
   end).

Definition _read_pdf_pypdf2 (filepath : text) : text * list log_record :=
  let text_pages : list text := [] in
  let '(text_pages, raised) :=
    match PyPDF2_PdfReader w filepath with
    | Ok pages =>
        append_each (λ page, let! t := page in Ok (default [] t))
          pages text_pages
    | Raise e => (text_pages, Some e)
    end in
  (join [LF] text_pages,
   match raised with
   | Some e => [LogRecord ERROR "Error reading PDF (PyPDF2) %s: %s"
                  [ArgStr filepath; ArgExn e]]
   | None => []
   end).

Definition _read_odt (filepath : text) : text * list log_record :=
  try_except
    (let! text_elements := odf_load w filepath in
     let! paragraphs := collect id text_elements in
     Ok (join [LF] paragraphs))
    (λ e, ([], [LogRecord ERROR "Error reading ODT %s: %s"
                  [ArgStr filepath; ArgExn e]])).

Definition row_str (r : row) : text :=
  join [TAB] ((λ x, match x with Some v => py_str v | None => [] end) <$> r).

Definition _read_excel (filepath : text) : text * list log_record :=
  try_except
    (let! wb := load_workbook w filepath in
     let! text_chunks :=
       collect (λ name,
           collect (λ r, let! r := r in Ok (row_str r)) (iter_rows wb name))
         (sheetnames wb) in
     Ok (join [LF] (concat text_chunks)))
    (λ e, ([], [LogRecord ERROR "Error reading Excel file %s: %s"
                  [ArgStr filepath; ArgExn e]])).

Definition _read_ipynb (filepath : text) : text * list log_record :=
  try_except
    (let! contents := open_read w filepath in
     let! data := json_loads w contents in
     let! cells := PyJson.get data (lit "cells") (JArr []) in
     let! cells := PyJson.iter cells in
     let! text_cells :=
       collect (λ cell,
           let! src := PyJson.get cell (lit "source") (JArr []) in
           PyJson.join_empty src)
         cells in
     Ok (join [LF] text_cells))
    (λ e, ([], [LogRecord ERROR "Error reading IPYNB %s: %s"
                  [ArgStr filepath; ArgExn e]])).

Definition extract_text_from_file (filepath : text)
  : text * list log_record :=
  let ext := lower U (PosixPath.splitext filepath).2 in
  if bool_decide (ext ∈ lit <$>
       [".txt"; ".md"; ".py"; ".json"; ".csv"; ".tsv"; ".log"; ".xml";
        ".yaml"; ".yml"; ".html"; ".htm"; ".css"; ".js"; ".jsx"; ".ts";
        ".tsx"; ".sh"; ".cmd"; ".ps1"; ".swift"; ".kt"; ".go"; ".rs";
        ".lua"; ".pl"; ".r"; ".m"; ".vb"; ".cs"; ".asm"; ".dart";
        ".php"; ".rb"; ".sql"])
  then _read_plaintext filepath
  else if bool_decide (ext = lit ".docx")
  then (if docx imports then _read_docx filepath else ([], []))
  else if bool_decide (ext ∈ lit <$> [".doc"; ".rtf"])
  then ([], [LogRecord WARNING
               "Native reading not implemented for %s; consider external tools."
               [ArgStr ext]])
  else if bool_decide (ext = lit ".pdf")
  then (if fitz imports then _read_pdf_pymupdf filepath
        else if PyPDF2 imports then _read_pdf_pypdf2 filepath
        else ([], [LogRecord WARNING
                     "No PDF library installed; cannot parse PDFs." []]))
  else if bool_decide (ext = lit ".odt")
  then (if odf imports then _read_odt filepath else ([], []))
  else if bool_decide (ext ∈ lit <$> [".xlsx"; ".xls"; ".xlsm"; ".ods"])
  then (if openpyxl imports then _read_excel filepath else ([], []))
  else if bool_decide (ext ∈ lit <$> [".ppt"; ".pptx"; ".odp"])
  then ([], [LogRecord WARNING
               "Parsing for PPT/ODP not implemented in this script." []])
  else if bool_decide (ext = lit ".ipynb")
  then _read_ipynb filepath
  else ([], []).

Definition allowed_extensions : list text :=
  lit <$>
    [".txt"; ".md"; ".py"; ".json"; ".csv"; ".tsv"; ".log"; ".xml";
     ".yaml"; ".yml"; ".html"; ".htm"; ".css"; ".js"; ".jsx"; ".ts";
     ".tsx"; ".sh"; ".cmd"; ".ps1"; ".swift"; ".kt"; ".go"; ".rs";
     ".lua"; ".pl"; ".r"; ".m"; ".vb"; ".cs"; ".asm"; ".dart";
     ".php"; ".rb"; ".sql"; ".doc"; ".docx"; ".rtf"; ".pdf";
     ".odt"; ".xls"; ".xlsx"; ".xlsm"; ".ods"; ".ppt"; ".pptx";
     ".odp"; ".ipynb"].

Section Convert.
Context (input_dir output_dir : text) (max_file_size : N)
        (skip_hidden : bool).

(** The output path of one input file: [rel_path], [base_name],
    [txt_rel_path], [out_path]. *)
Definition out_path_of (full_path : text) : outcome text :=
  let! rel_path := PosixPath.relpath (getcwd w) full_path input_dir in
  let base_name := (PosixPath.splitext rel_path).1 in
  let txt_rel_path := base_name ++ lit ".txt" in
  Ok (PosixPath.join output_dir [txt_rel_path]).

(** Extraction, the emptiness test and the write, for a file that
    passed the filters and whose output directory exists. *)
Definition extract_and_write (full_path out_path : text) (st : state)
  : state :=
  let '(text, records) := extract_text_from_file full_path in
  let st := add_log st records in
  if PosixPath.is_empty (strip text)
  then add_log st [LogRecord DEBUG "No text extracted from %s"
                     [ArgStr full_path]]
  else
    match open_write w out_path with
    | Raise e => add_log st [LogRecord ERROR "Error writing to %s: %s"
                               [ArgStr out_path; ArgExn e]]
    | Ok _ =>
        let st := put_file st out_path [] in
        match write w out_path text with
        | Raise e => add_log st [LogRecord ERROR "Error writing to %s: %s"
                                   [ArgStr out_path; ArgExn e]]
        | Ok _ => add_log (put_file st out_path text)
                    [LogRecord INFO "Wrote text to %s" [ArgStr out_path]]
        end
    end.

(** The body of [for file_name in files]. *)
Definition process_file (root file_name : text) (st : state)
  : outcome state :=
  if skip_hidden && startswith file_name (lit ".") then Ok st
  else
    let ext := lower U (PosixPath.splitext file_name).2 in
    if negb (bool_decide (ext ∈ allowed_extensions)) then Ok st
    else
      let full_path := PosixPath.join root [file_name] in
      match getsize w full_path with
      | Raise e =>
          Ok (add_log st [LogRecord ERROR "Could not check file size of %s: %s"
                            [ArgStr full_path; ArgExn e]])
      | Ok size =>
          if (max_file_size <? size)%N
          then Ok (add_log st [LogRecord DEBUG
                                 "Skipping large file %s (size %d bytes)"
                                 [ArgStr full_path; ArgInt size]])
          else
            let! out_path := out_path_of full_path in
            let! _ := makedirs w (PosixPath.dirname out_path) in
            let st := add_dir st (PosixPath.dirname out_path) in
            Ok (extract_and_write full_path out_path st)
      end.

Fixpoint loop_files (root : text) (files : list text) (st : state)
  : outcome state :=
  match files with
  | [] => Ok st
  | file_name :: files' =>
      let! st := process_file root file_name st in
      loop_files root files' st
  end.

(** [for root, dirs, files in os.walk(top)]: the files of [top]
    first, then the sub-directories in order; [dirs[:] = ...] removes
    the hidden ones from the list [os.walk] descends into. *)
Fixpoint walk (top : text) (t : tree) (st : state) : outcome state :=
  match t with
  | Dir subdirs files =>
      let! st := loop_files top files st in
      (fix walk_dirs (dirs : list (text * tree)) (st : state)
         : outcome state :=
         match dirs with
         | [] => Ok st
         | (dirname, sub) :: dirs' =>
             if skip_hidden && startswith dirname (lit ".")
             then walk_dirs dirs' st
             else
               let! st := walk (PosixPath.join top [dirname]) sub st in
               walk_dirs dirs' st
         end) subdirs st
  end.

Definition convert_files_to_txt (st : state) : outcome state :=
  let! st :=
    if negb (path_exists w output_dir)
    then let! _ := makedirs w output_dir in Ok (add_dir st output_dir)
    else Ok st in
  let st := add_log st [LogRecord INFO "Starting conversion from %s to %s"
                          [ArgStr input_dir; ArgStr output_dir]] in
  let! st :=
    match scandir w input_dir with
    | Some t => walk input_dir t st
    | None => Ok st
    end in
  Ok (add_log st [LogRecord INFO "Conversion complete." []]).

End Convert.
End Script.
End Files2Text.

(** * [files_2_zip.py]

    The conversion and the archiving step ([zip_output_dir]).  The command
    line ([parse_args], built on [argparse]) is not embedded. *)

Module Files2Zip.
Import Py.

Section Script.
Context (U : UnicodeData) (w : World) (imports : Imports).

Definition sanitize_text (text : list char) : list char :=
  let text := normalize_NFC U text in
  let cleaned_chars : list (list char) :=
    fold_left
      (λ cleaned_chars ch,
         if isprintable U ch || bool_decide (ch ∈ [LF; CR; TAB])
         then cleaned_chars ++ [[ch]]
         else cleaned_chars ++ [[SPACE]])
      text [] in
  let sanitized := strip (join [] cleaned_chars) in
  sanitized.

Definition _read_plaintext (filepath : text) : text * list log_record :=
  try_except (open_read w filepath)
    (λ e, ([], [LogRecord ERROR "Error reading plaintext file %s: %s"
                  [ArgStr filepath; ArgExn e]])).

Definition _read_docx (filepath : text) : text * list log_record :=
  try_except
    (let! doc := docx_Document w filepath in
     let! paragraphs := collect id doc in
     Ok (join [LF] paragraphs))
    (λ e, ([], [LogRecord ERROR "Error reading DOCX %s: %s"
                  [ArgStr filepath; ArgExn e]])).

Definition _read_pdf_pymupdf (filepath : text) : text * list log_record :=
  let text_pages : list text := [] in
  let '(text_pages, raised) :=
    match fitz_open w filepath with
    | Ok pdf_doc => append_each id pdf_doc text_pages
    | Raise e => (text_pages, Some e)
    end in
  (join [LF] text_pages,
   match raised with
   | Some e => [LogRecord ERROR "Error reading PDF (PyMuPDF) %s: %s"
                  [ArgStr filepath; ArgExn e]]
   | None => []
   end).

Definition _read_pdf_pypdf2 (filepath : text) : text * list log_record :=
  let text_pages : list text := [] in
  let '(text_pages, raised) :=
    match PyPDF2_PdfReader w filepath with
    | Ok pages =>
        append_each (λ page, let! t := page in Ok (default [] t))
          pages text_pages
    | Raise e => (text_pages, Some e)
    end in
  (join [LF] text_pages,
   match raised with
   | Some e => [LogRecord ERROR "Error reading PDF (PyPDF2) %s: %s"
                  [ArgStr filepath; ArgExn e]]
   | None => []
   end).

Definition _read_odt (filepath : text) : text * list log_record :=
  try_except
    (let! text_elements := odf_load w filepath in
     let! paragraphs := collect id text_elements in
     Ok (join [LF] paragraphs))
    (λ e, ([], [LogRecord ERROR "Error reading ODT %s: %s"
                  [ArgStr filepath; ArgExn e]])).

Definition row_str (r : row) : text :=
  join [TAB] ((λ x, match x with Some v => py_str v | None => [] end) <$> r).

Definition _read_excel (filepath : text) : text * list log_record :=
  try_except
    (let! wb := load_workbook w filepath in
     let! text_chunks :=
       collect (λ name,
           collect (λ r, let! r := r in Ok (row_str r)) (iter_rows wb name))
         (sheetnames wb) in
     Ok (join [LF] (concat text_chunks)))
    (λ e, ([], [LogRecord ERROR "Error reading Excel file %s: %s"
                  [ArgStr filepath; ArgExn e]])).

Definition _read_ipynb (filepath : text) : text * list log_record :=
  try_except
    (let! contents := open_read w filepath in
     let! data := json_loads w contents in
     let! cells := PyJson.get data (lit "cells") (JArr []) in
     let! cells := PyJson.iter cells in
     let! text_cells :=
       collect (λ cell,
           let! src := PyJson.get cell (lit "source") (JArr []) in
           PyJson.join_empty src)
         cells in
     Ok (join [LF] text_cells))
    (λ e, ([], [LogRecord ERROR "Error reading IPYNB %s: %s"
                  [ArgStr filepath; ArgExn e]])).

Definition extract_text_from_file (filepath : text)
  : text * list log_record :=
  let ext := lower U (PosixPath.splitext filepath).2 in
  if bool_decide (ext ∈ lit <$>
       [".txt"; ".md"; ".py"; ".json"; ".csv"; ".tsv"; ".log"; ".xml";
        ".yaml"; ".yml"; ".html"; ".htm"; ".css"; ".js"; ".jsx"; ".ts";
        ".tsx"; ".sh"; ".cmd"; ".ps1"; ".swift"; ".kt"; ".go"; ".rs";
        ".lua"; ".pl"; ".r"; ".m"; ".vb"; ".cs"; ".asm"; ".dart";
        ".php"; ".rb"; ".sql"])
  then _read_plaintext filepath
  else if bool_decide (ext = lit ".docx")
  then (if docx imports then _read_docx filepath else ([], []))
  else if bool_decide (ext ∈ lit <$> [".doc"; ".rtf"])
  then ([], [LogRecord WARNING
               "Native reading not implemented for %s; consider external tools."
               [ArgStr ext]])
  else if bool_decide (ext = lit ".pdf")
  then (if fitz imports then _read_pdf_pymupdf filepath
        else if PyPDF2 imports then _read_pdf_pypdf2 filepath
        else ([], [LogRecord WARNING
                     "No PDF library installed; cannot parse PDFs." []]))
  else if bool_decide (ext = lit ".odt")
  then (if odf imports then _read_odt filepath else ([], []))
  else if bool_decide (ext ∈ lit <$> [".xlsx"; ".xls"; ".xlsm"; ".ods"])
  then (if openpyxl imports then _read_excel filepath else ([], []))
  else if bool_decide (ext ∈ lit <$> [".ppt"; ".pptx"; ".odp"])
  then ([], [LogRecord WARNING
               "Parsing for PPT/ODP not implemented." []])
  else if bool_decide (ext = lit ".ipynb")
  then _read_ipynb filepath
  else ([], []).

Definition allowed_extensions : list text :=
  lit <$>
    [".txt"; ".md"; ".py"; ".json"; ".csv"; ".tsv"; ".log"; ".xml";
     ".yaml"; ".yml"; ".html"; ".htm"; ".css"; ".js"; ".jsx"; ".ts";
     ".tsx"; ".sh"; ".cmd"; ".ps1"; ".swift"; ".kt"; ".go"; ".rs";
     ".lua"; ".pl"; ".r"; ".m"; ".vb"; ".cs"; ".asm"; ".dart";
     ".php"; ".rb"; ".sql"; ".doc"; ".docx"; ".rtf"; ".pdf";
     ".odt"; ".xls"; ".xlsx"; ".xlsm"; ".ods"; ".ppt"; ".pptx";
     ".odp"; ".ipynb"].

Section Convert.
Context (input_dir output_dir : text) (max_file_size : N)
        (skip_hidden : bool).

(** The output path of one input file: [rel_path], [base_name],
    [txt_rel_path], [out_path]. *)
Definition out_path_of (full_path : text) : outcome text :=
  let! rel_path := PosixPath.relpath (getcwd w) full_path input_dir in
  let base_name := (PosixPath.splitext rel_path).1 in
  let txt_rel_path := base_name ++ lit ".txt" in
  Ok (PosixPath.join output_dir [txt_rel_path]).

(** Extraction, sanitisation, the emptiness test and the write, for
    a file that passed the filters and whose output directory
    exists. *)
Definition extract_and_write (full_path out_path : text) (st : state)
  : state :=
  let '(raw_text, records) := extract_text_from_file full_path in
  let st := add_log st records in
  let sanitized_text := sanitize_text raw_text in
  if PosixPath.is_empty sanitized_text
  then add_log st [LogRecord DEBUG
                     "No text extracted (or only control chars) from %s"
                     [ArgStr full_path]]
  else
    match open_write w out_path with
    | Raise e => add_log st [LogRecord ERROR "Error writing to %s: %s"
                               [ArgStr out_path; ArgExn e]]
    | Ok _ =>
        let st := put_file st out_path [] in
        match write w out_path sanitized_text with
        | Raise e => add_log st [LogRecord ERROR "Error writing to %s: %s"
                                   [ArgStr out_path; ArgExn e]]
        | Ok _ => add_log (put_file st out_path sanitized_text)
                    [LogRecord INFO "Wrote text to %s" [ArgStr out_path]]
        end
    end.

(** The body of [for file_name in files]. *)
Definition process_file (root file_name : text) (st : state)
  : outcome state :=
  if skip_hidden && startswith file_name (lit ".") then Ok st
  else
    let ext := lower U (PosixPath.splitext file_name).2 in
    if negb (bool_decide (ext ∈ allowed_extensions)) then Ok st
    else
      let full_path := PosixPath.join root [file_name] in
      match getsize w full_path with
      | Raise e =>
          Ok (add_log st [LogRecord ERROR "Could not check file size of %s: %s"
                            [ArgStr full_path; ArgExn e]])
      | Ok size =>
          if (max_file_size <? size)%N
          then Ok (add_log st [LogRecord DEBUG
                                 "Skipping large file %s (size %d bytes)"
                                 [ArgStr full_path; ArgInt size]])
          else
            let! out_path := out_path_of full_path in
            let! _ := makedirs w (PosixPath.dirname out_path) in
            let st := add_dir st (PosixPath.dirname out_path) in
            Ok (extract_and_write full_path out_path st)
      end.

Fixpoint loop_files (root : text) (files : list text) (st : state)
  : outcome state :=
  match files with
  | [] => Ok st
  | file_name :: files' =>
      let! st := process_file root file_name st in
      loop_files root files' st
  end.

(** [for root, dirs, files in os.walk(top)]: the files of [top]
    first, then the sub-directories in order; [dirs[:] = ...] removes
    the hidden ones from the list [os.walk] descends into. *)
Fixpoint walk (top : text) (t : tree) (st : state) : outcome state :=
  match t with
  | Dir subdirs files =>
      let! st := loop_files top files st in
      (fix walk_dirs (dirs : list (text * tree)) (st : state)
         : outcome state :=
         match dirs with
         | [] => Ok st
         | (dirname, sub) :: dirs' =>
             if skip_hidden && startswith dirname (lit ".")
             then walk_dirs dirs' st
             else
               let! st := walk (PosixPath.join top [dirname]) sub st in
               walk_dirs dirs' st
         end) subdirs st
  end.

Definition convert_files_to_txt (st : state) : outcome state :=
  let! st :=
    if negb (path_exists w output_dir)
    then let! _ := makedirs w output_dir in Ok (add_dir st output_dir)
    else Ok st in
  let st := add_log st [LogRecord INFO "Starting conversion from %s to %s"
                          [ArgStr input_dir; ArgStr output_dir]] in
  let! st :=
    match scandir w input_dir with
    | Some t => walk input_dir t st
    | None => Ok st
    end in
  Ok (add_log st [LogRecord INFO "Conversion complete." []]).

End Convert.
End Script.

Section Archive.
Context (w : World) (z : ZipModule).

(** The body of [for file_name in files] of [zip_output_dir]: the members
    so far, and the exception that stops the loop, if any. *)
Definition add_file (output_dir root file_name : text)
    (members : list member) : list member * option exn :=
  if endswith file_name (lit ".txt")
  then
    let full_path := PosixPath.join root [file_name] in
    match PosixPath.relpath (getcwd w) full_path output_dir with
    | Raise e => (members, Some e)
    | Ok rel_path =>
        match zf_write z full_path rel_path with
        | Raise e => (members, Some e)
        | Ok _ => (members ++ [Member full_path rel_path], None)
        end
    end
  else (members, None).

Fixpoint add_files (output_dir root : text) (files : list text)
    (members : list member) : list member * option exn :=
  match files with
  | [] => (members, None)
  | file_name :: files' =>
      match add_file output_dir root file_name members with
      | (members, None) => add_files output_dir root files' members
      | stopped => stopped
      end
  end.

(** [for root, dirs, files in os.walk(output_dir)]: no directory is
    removed from [dirs]. *)
Fixpoint add_tree (output_dir top : text) (t : tree)
    (members : list member) : list member * option exn :=
  match t with
  | Dir subdirs files =>
      match add_files output_dir top files members with
      | (members, None) =>
          (fix add_dirs (dirs : list (text * tree)) (members : list member)
             : list member * option exn :=
             match dirs with
             | [] => (members, None)
             | (dirname, sub) :: dirs' =>
                 match add_tree output_dir
                         (PosixPath.join top [dirname]) sub members with
                 | (members, None) => add_dirs dirs' members
                 | stopped => stopped
                 end
             end) subdirs members
      | stopped => stopped
      end
  end.

Definition zip_output_dir (output_dir zip_name : text)
    (log : list log_record) : zip_run :=
  let zip_path := PosixPath.join (PosixPath.dirname output_dir) [zip_name] in
  let log := log ++ [LogRecord INFO "Zipping all text files in %s -> %s"
                       [ArgStr output_dir; ArgStr zip_path]] in
  match ZipFile z zip_path with
  | Raise e => ZipRun None [] log (Some e)
  | Ok _ =>
      let '(members, raised) :=
        match scandir w output_dir with
        | Some t => add_tree output_dir output_dir t []
        | None => ([], None)
        end in
      (* leaving the [with] block closes the archive, also on an
         exception; an exception of [close] replaces the one in flight *)
      match zf_close z zip_path, raised with
      | Raise e, _ => ZipRun (Some zip_path) members log (Some e)
      | Ok _, Some e => ZipRun (Some zip_path) members log (Some e)
      | Ok _, None =>
          ZipRun (Some zip_path) members
            (log ++ [LogRecord INFO "Created zip archive at %s"
                       [ArgStr zip_path]])
            None
      end
  end.

End Archive.
End Files2Zip.

(** * [raw_text_2_utf8.py] *)

Module RawText2Utf8.
Import Py.

Section Script.
Context (U : UnicodeData) (w : World) (imports : Imports).

Definition sanitize_text (text : list char) : list char :=
  let text := normalize_NFC U text in
  let cleaned_chars : list (list char) :=
    fold_left
      (λ cleaned_chars ch,
         if isprintable U ch || bool_decide (ch ∈ [LF; CR; TAB])
         then cleaned_chars ++ [[ch]]
         else cleaned_chars ++ [[SPACE]])
      text [] in
  let sanitized := strip (join [] cleaned_chars) in
  sanitized.

Definition _read_plaintext (filepath : text) : text * list log_record :=
  try_except (open_read w filepath)
    (λ e, ([], [LogRecord ERROR "Error reading plaintext file %s: %s"
                  [ArgStr filepath; ArgExn e]])).

Definition _read_docx (filepath : text) : text * list log_record :=
  try_except
    (let! doc := docx_Document w filepath in
     let! paragraphs := collect id doc in
     Ok (join [LF] paragraphs))
    (λ e, ([], [LogRecord ERROR "Error reading DOCX %s: %s"
                  [ArgStr filepath; ArgExn e]])).

Definition _read_pdf_pymupdf (filepath : text) : text * list log_record :=
  let text_pages : list text := [] in
  let '(text_pages, raised) :=
    match fitz_open w filepath with
    | Ok pdf_doc => append_each id pdf_doc text_pages
    | Raise e => (text_pages, Some e)
    end in
  (join [LF] text_pages,
   match raised with
   | Some e => [LogRecord ERROR "Error reading PDF (PyMuPDF) %s: %s"
                  [ArgStr filepath; ArgExn e]]
   | None => []
   end).

Definition _read_pdf_pypdf2 (filepath : text) : text * list log_record :=
  let text_pages : list text := [] in
  let '(text_pages, raised) :=
    match PyPDF2_PdfReader w filepath with
    | Ok pages =>
        append_each (λ page, let! t := page in Ok (default [] t))
          pages text_pages
    | Raise e => (text_pages, Some e)
    end in
  (join [LF] text_pages,
   match raised with
   | Some e => [LogRecord ERROR "Error reading PDF (PyPDF2) %s: %s"
                  [ArgStr filepath; ArgExn e]]
   | None => []
   end).

Definition _read_odt (filepath : text) : text * list log_record :=
  try_except
    (let! text_elements := odf_load w filepath in
     let! paragraphs := collect id text_elements in
     Ok (join [LF] paragraphs))
    (λ e, ([], [LogRecord ERROR "Error reading ODT %s: %s"
                  [ArgStr filepath; ArgExn e]])).

Definition row_str (r : row) : text :=
  join [TAB] ((λ x, match x with Some v => py_str v | None => [] end) <$> r).

Definition _read_excel (filepath : text) : text * list log_record :=
  try_except
    (let! wb := load_workbook w filepath in
     let! text_chunks :=
       collect (λ name,
           collect (λ r, let! r := r in Ok (row_str r)) (iter_rows wb name))
         (sheetnames wb) in
     Ok (join [LF] (concat text_chunks)))
    (λ e, ([], [LogRecord ERROR "Error reading Excel file %s: %s"
                  [ArgStr filepath; ArgExn e]])).

Definition _read_ipynb (filepath : text) : text * list log_record :=
  try_except
    (let! contents := open_read w filepath in
     let! data := json_loads w contents in
     let! cells := PyJson.get data (lit "cells") (JArr []) in
     let! cells := PyJson.iter cells in
     let! text_cells :=
       collect (λ cell,
           let! src := PyJson.get cell (lit "source") (JArr []) in
           PyJson.join_empty src)
         cells in
     Ok (join [LF] text_cells))
    (λ e, ([], [LogRecord ERROR "Error reading IPYNB %s: %s"
                  [ArgStr filepath; ArgExn e]])).

Definition extract_text_from_file (filepath : text)
  : text * list log_record :=
  let ext := lower U (PosixPath.splitext filepath).2 in
  if bool_decide (ext ∈ lit <$>
       [".txt"; ".md"; ".py"; ".json"; ".csv"; ".tsv"; ".log"; ".xml";
        ".yaml"; ".yml"; ".html"; ".htm"; ".css"; ".js"; ".jsx"; ".ts";
        ".tsx"; ".sh"; ".cmd"; ".ps1"; ".swift"; ".kt"; ".go"; ".rs";
        ".lua"; ".pl"; ".r"; ".m"; ".vb"; ".cs"; ".asm"; ".dart";
        ".php"; ".rb"; ".sql"])
  then _read_plaintext filepath
  else if bool_decide (ext = lit ".docx")
  then (if docx imports then _read_docx filepath else ([], []))
  else if bool_decide (ext ∈ lit <$> [".doc"; ".rtf"])
  then ([], [LogRecord WARNING
               "Native reading not implemented for %s; consider external tools."
               [ArgStr ext]])
  else if bool_decide (ext = lit ".pdf")
  then (if fitz imports then _read_pdf_pymupdf filepath
        else if PyPDF2 imports then _read_pdf_pypdf2 filepath
        else ([], [LogRecord WARNING
                     "No PDF library installed; cannot parse PDFs." []]))
  else if bool_decide (ext = lit ".odt")
  then (if odf imports then _read_odt filepath else ([], []))
  else if bool_decide (ext ∈ lit <$> [".xlsx"; ".xls"; ".xlsm"; ".ods"])
  then (if openpyxl imports then _read_excel filepath else ([], []))
  else if bool_decide (ext ∈ lit <$> [".ppt"; ".pptx"; ".odp"])
  then ([], [LogRecord WARNING
               "Parsing for PPT/ODP not implemented in this script." []])
  else if bool_decide (ext = lit ".ipynb")
  then _read_ipynb filepath
  else ([], []).

Definition allowed_extensions : list text :=
  lit <$>
    [".txt"; ".md"; ".py"; ".json"; ".csv"; ".tsv"; ".log"; ".xml";
     ".yaml"; ".yml"; ".html"; ".htm"; ".css"; ".js"; ".jsx"; ".ts";
     ".tsx"; ".sh"; ".cmd"; ".ps1"; ".swift"; ".kt"; ".go"; ".rs";
     ".lua"; ".pl"; ".r"; ".m"; ".vb"; ".cs"; ".asm"; ".dart";
     ".php"; ".rb"; ".sql"; ".doc"; ".docx"; ".rtf"; ".pdf";
     ".odt"; ".xls"; ".xlsx"; ".xlsm"; ".ods"; ".ppt"; ".pptx";
     ".odp"; ".ipynb"].

Section Convert.
Context (input_dir output_dir : text) (max_file_size : N)
        (skip_hidden : bool).

(** The output path of one input file: [rel_path], [base_name],
    [txt_rel_path], [out_path]. *)
Definition out_path_of (full_path : text) : outcome text :=
  let! rel_path := PosixPath.relpath (getcwd w) full_path input_dir in
  let base_name := (PosixPath.splitext rel_path).1 in
  let txt_rel_path := base_name ++ lit ".txt" in
  Ok (PosixPath.join output_dir [txt_rel_path]).

(** Extraction, sanitisation, the emptiness test and the write, for
    a file that passed the filters and whose output directory
    exists. *)
Definition extract_and_write (full_path out_path : text) (st : state)
  : state :=
  let '(raw_text, records) := extract_text_from_file full_path in
  let st := add_log st records in
  let sanitized_text := sanitize_text raw_text in
  if PosixPath.is_empty sanitized_text
  then add_log st [LogRecord DEBUG
                     "No text extracted (or only control chars) from %s"
                     [ArgStr full_path]]
  else
    match open_write w out_path with
    | Raise e => add_log st [LogRecord ERROR "Error writing to %s: %s"
                               [ArgStr out_path; ArgExn e]]
    | Ok _ =>
        let st := put_file st out_path [] in
        match write w out_path sanitized_text with
        | Raise e => add_log st [LogRecord ERROR "Error writing to %s: %s"
                                   [ArgStr out_path; ArgExn e]]
        | Ok _ => add_log (put_file st out_path sanitized_text)
                    [LogRecord INFO "Wrote text to %s" [ArgStr out_path]]
        end
    end.

(** The body of [for file_name in files]. *)
Definition process_file (root file_name : text) (st : state)
  : outcome state :=
  if skip_hidden && startswith file_name (lit ".") then Ok st
  else
    let ext := lower U (PosixPath.splitext file_name).2 in
    if negb (bool_decide (ext ∈ allowed_extensions)) then Ok st
    else
      let full_path := PosixPath.join root [file_name] in
      match getsize w full_path with
      | Raise e =>
          Ok (add_log st [LogRecord ERROR "Could not check file size of %s: %s"
                            [ArgStr full_path; ArgExn e]])
      | Ok size =>
          if (max_file_size <? size)%N
          then Ok (add_log st [LogRecord DEBUG
                                 "Skipping large file %s (size %d bytes)"
                                 [ArgStr full_path; ArgInt size]])
          else
            let! out_path := out_path_of full_path in
            let! _ := makedirs w (PosixPath.dirname out_path) in
            let st := add_dir st (PosixPath.dirname out_path) in
            Ok (extract_and_write full_path out_path st)
      end.

Fixpoint loop_files (root : text) (files : list text) (st : state)
  : outcome state :=
  match files with
  | [] => Ok st
  | file_name :: files' =>
      let! st := process_file root file_name st in
      loop_files root files' st
  end.

(** [for root, dirs, files in os.walk(top)]: the files of [top]
    first, then the sub-directories in order; [dirs[:] = ...] removes
    the hidden ones from the list [os.walk] descends into. *)
Fixpoint walk (top : text) (t : tree) (st : state) : outcome state :=
  match t with
  | Dir subdirs files =>
      let! st := loop_files top files st in
      (fix walk_dirs (dirs : list (text * tree)) (st : state)
         : outcome state :=
         match dirs with
         | [] => Ok st
         | (dirname, sub) :: dirs' =>
             if skip_hidden && startswith dirname (lit ".")
             then walk_dirs dirs' st
             else
               let! st := walk (PosixPath.join top [dirname]) sub st in
               walk_dirs dirs' st
         end) subdirs st
  end.

Definition convert_files_to_txt (st : state) : outcome state :=
  let! st :=
    if negb (path_exists w output_dir)
    then let! _ := makedirs w output_dir in Ok (add_dir st output_dir)
    else Ok st in
  let st := add_log st [LogRecord INFO "Starting conversion from %s to %s"
                          [ArgStr input_dir; ArgStr output_dir]] in
  let! st :=
    match scandir w input_dir with
    | Some t => walk input_dir t st
    | None => Ok st
    end in
  Ok (add_log st [LogRecord INFO "Conversion complete." []]).

End Convert.
End Script.
End RawText2Utf8.

(** * Vocabulary of the specification *)

(** A character the sanitiser keeps as it is. *)
Definition kept (U : UnicodeData) (ch : char) : bool :=
  isprintable U ch || bool_decide (ch ∈ [Py.LF; Py.CR; Py.TAB]).

(** What the sanitiser stores for a character. *)
Definition cleaned (U : UnicodeData) (ch : char) : char :=
  if kept U ch then ch else Py.SPACE.

(** A name as [os.scandir] returns it: not empty, without a slash, and
    neither [.] nor [..]. *)
Definition entry_name (n : text) : Prop :=
  n ≠ [] ∧ (PosixPath.sep ∉ n) ∧ n ≠ PosixPath.curdir ∧ n ≠ PosixPath.pardir.

(** Empty or white space only. *)
Definition blank (s : text) : bool := forallb Py.isspace s.

(** Two runs that leave the same files and directories and called the
    logger at the same levels in the same order. *)
Definition same_run (st1 st2 : state) : Prop :=
  st_files st1 = st_files st2
  ∧ st_dirs st1 = st_dirs st2
  ∧ log_level <$> st_log st1 = log_level <$> st_log st2.

(** The per-file step of the one orchestrator the specification designs in
    place of the script variants, configured by whether sanitisation is
    applied before the emptiness test and the write. *)
Definition orchestrator_step (sanitize : bool) (U : UnicodeData) (w : World)
    (imports : Imports) (full_path out_path : text) (st : state) : state :=
  let '(raw_text, records) :=
    Files2Text.extract_text_from_file U w imports full_path in
  let st := add_log st records in
  let final_text :=
    if sanitize then Files2Zip.sanitize_text U raw_text else raw_text in
  if PosixPath.is_empty (Py.strip final_text)
  then add_log st [LogRecord DEBUG "No text extracted from %s" [ArgStr full_path]]
  else
    match open_write w out_path with
    | Raise e => add_log st [LogRecord ERROR "Error writing to %s: %s"
                               [ArgStr out_path; ArgExn e]]
    | Ok _ =>
        let st := put_file st out_path [] in
        match write w out_path final_text with
        | Raise e => add_log st [LogRecord ERROR "Error writing to %s: %s"
                                   [ArgStr out_path; ArgExn e]]
        | Ok _ => add_log (put_file st out_path final_text)
                    [LogRecord INFO "Wrote text to %s" [ArgStr out_path]]
        end
    end.

(** The JSON values on which the notebook reader raises no type error:
    an object whose ["cells"], if present, can be iterated and holds only
    objects whose ["source"], if present, can be joined.  A list of
    strings can be joined, and so can a string or a dict (its characters
    and its keys are strings); a string or a dict can be iterated, but its
    items are strings, which have no [get], so it must be empty. *)
Definition joinable (src : json) : bool :=
  match src with
  | JArr items => forallb (λ x, match x with JStr _ => true | _ => false end) items
  | JStr _ | JObj _ => true
  | _ => false
  end.

Definition cell_shaped (cell : json) : bool :=
  match cell with
  | JObj members =>
      joinable (from_option id (JArr []) (PyJson.assoc (Py.lit "source") members))
  | _ => false
  end.

Definition notebook_shaped (data : json) : bool :=
  match data with
  | JObj members =>
      match from_option id (JArr []) (PyJson.assoc (Py.lit "cells") members) with
      | JArr cells => forallb cell_shaped cells
      | JStr s => PosixPath.is_empty s
      | JObj m => PosixPath.is_empty m
      | _ => false
      end
  | _ => false
  end.

(** * Notions used in the proofs *)

(** The components [normpath] keeps of a path. *)
Definition kept_comps (q : text) : list text :=
  fold_left (PosixPath.norm_step (PosixPath.initial_slashes q))
    (Py.split PosixPath.sep q) [].

(** The path [abspath] normalises. *)
Definition absolute (cwd p : text) : text :=
  if PosixPath.isabs p then p else PosixPath.join_step cwd p.

(** A loop [for x in xs: body] over the state of the run, left by the
    first exception. *)
Fixpoint for_each {A} (body : A → state → outcome state) (xs : list A)
    (st : state) : outcome state :=
  match xs with
  | [] => Ok st
  | x :: xs' => let! st := body x st in for_each body xs' st
  end.

(** The files [os.walk(top)] reports, each with the [root] it is reported
    under, in the order of the walk; with [skip_hidden] the hidden
    directories are not entered. *)
Fixpoint walk_files (skip_hidden : bool) (top : text) (t : tree)
  : list (text * text) :=
  match t with
  | Dir subdirs files =>
      ((λ file_name, (top, file_name)) <$> files)
      ++ (fix below (dirs : list (text * tree)) : list (text * text) :=
            match dirs with
            | [] => []
            | (dirname, sub) :: dirs' =>
                if skip_hidden && Py.startswith dirname (Py.lit ".")
                then below dirs'
                else walk_files skip_hidden (PosixPath.join top [dirname]) sub
                     ++ below dirs'
            end) subdirs
  end.

(** A directory tree whose entries all have proper names. *)
Fixpoint tree_names (t : tree) : Prop :=
  match t with
  | Dir subdirs files =>
      Forall entry_name files
      ∧ (fix each (dirs : list (text * tree)) : Prop :=
           match dirs with
           | [] => True
           | (dirname, sub) :: dirs' =>
               entry_name dirname ∧ tree_names sub ∧ each dirs'
           end) subdirs
  end.

(** The tree a walk with [skip_hidden] visits: without the files and the
    directories whose name starts with a dot. *)
Fixpoint visible (t : tree) : tree :=
  match t with
  | Dir subdirs files =>
      Dir ((fix each (dirs : list (text * tree)) : list (text * tree) :=
              match dirs with
              | [] => []
              | (dirname, sub) :: dirs' =>
                  if Py.startswith dirname (Py.lit ".") then each dirs'
                  else (dirname, visible sub) :: each dirs'
              end) subdirs)
          (filter (λ file_name, Py.startswith file_name (Py.lit ".") = false)
             files)
  end.

(** The files below a directory, each with the names of the directories
    that lead to it, in the order of a walk that skips nothing. *)
Fixpoint walk_entries (t : tree) : list (list text * text) :=
  match t with
  | Dir subdirs files =>
      ((λ file_name, ([], file_name)) <$> files)
      ++ (fix below (dirs : list (text * tree)) : list (list text * text) :=
            match dirs with
            | [] => []
            | (dirname, sub) :: dirs' =>
                ((λ e : list text * text, (dirname :: e.1, e.2))
                   <$> walk_entries sub)
                ++ below dirs'
            end) subdirs
  end.

(** A loop over the members of an archive, left by the first exception. *)
Fixpoint for_members {A}
    (body : A → list member → list member * option exn) (xs : list A)
    (members : list member) : list member * option exn :=
  match xs with
  | [] => (members, None)
  | x :: xs' =>
      match body x members with
      | (members, None) => for_members body xs' members
      | stopped => stopped
      end
  end.


(** An input file that passes the filters of [convert_files_to_txt]: not
    hidden when hidden files are skipped, of a listed extension, and of a
    size that can be read and is at most [max_file_size]. *)
Definition accepted (U : UnicodeData) (w : World) (max_file_size : N)
    (skip_hidden : bool) (root file_name : text) : Prop :=
  (skip_hidden = true → Py.startswith file_name (Py.lit ".") = false)
  ∧ lower U (PosixPath.splitext file_name).2 ∈ Files2Text.allowed_extensions
  ∧ ∃ size, getsize w (PosixPath.join root [file_name]) = Ok size
            ∧ (size ≤ max_file_size)%N.

(** The run of a script, over what the three scripts differ in: the
    dispatcher, what is done to the extracted text before it is written,
    the test for a text not worth writing, and the message logged then.
    Each script's [process_file] and [convert_files_to_txt] is an instance
    ([RunFacts.text_step], [RunFacts.text_run] and their siblings). *)
Section Run.
Context (U : UnicodeData) (w : World)
        (extract : text → text * list log_record)
        (clean : text → text) (no_text : text → bool) (message : string)
        (input_dir output_dir : text) (max_file_size : N)
        (skip_hidden : bool).

Definition step_write (full_path out_path : text) (st : state) : state :=
  let '(raw_text, records) := extract full_path in
  let st := add_log st records in
  let final_text := clean raw_text in
  if no_text final_text
  then add_log st [LogRecord DEBUG message [ArgStr full_path]]
  else
    match open_write w out_path with
    | Raise e => add_log st [LogRecord ERROR "Error writing to %s: %s"
                               [ArgStr out_path; ArgExn e]]
    | Ok _ =>
        let st := put_file st out_path [] in
        match write w out_path final_text with
        | Raise e => add_log st [LogRecord ERROR "Error writing to %s: %s"
                                   [ArgStr out_path; ArgExn e]]
        | Ok _ => add_log (put_file st out_path final_text)
                    [LogRecord INFO "Wrote text to %s" [ArgStr out_path]]
        end
    end.

Definition step (root file_name : text) (st : state) : outcome state :=
  if skip_hidden && Py.startswith file_name (Py.lit ".") then Ok st
  else
    let ext := lower U (PosixPath.splitext file_name).2 in
    if negb (bool_decide (ext ∈ Files2Text.allowed_extensions)) then Ok st
    else
      let full_path := PosixPath.join root [file_name] in
      match getsize w full_path with
      | Raise e =>
          Ok (add_log st [LogRecord ERROR "Could not check file size of %s: %s"
                            [ArgStr full_path; ArgExn e]])
      | Ok size =>
          if (max_file_size <? size)%N
          then Ok (add_log st [LogRecord DEBUG
                                 "Skipping large file %s (size %d bytes)"
                                 [ArgStr full_path; ArgInt size]])
          else
            let! out_path :=
              Files2Text.out_path_of w input_dir output_dir full_path in
            let! _ := makedirs w (PosixPath.dirname out_path) in
            let st := add_dir st (PosixPath.dirname out_path) in
            Ok (step_write full_path out_path st)
      end.

Definition run (st : state) : outcome state :=
  let! st :=
    if negb (path_exists w output_dir)
    then let! _ := makedirs w output_dir in Ok (add_dir st output_dir)
    else Ok st in
  let st := add_log st [LogRecord INFO "Starting conversion from %s to %s"
                          [ArgStr input_dir; ArgStr output_dir]] in
  let! st :=
    for_each (λ rf, step rf.1 rf.2)
      (match scandir w input_dir with
       | Some t => walk_files skip_hidden input_dir t
       | None => []
       end) st in
  Ok (add_log st [LogRecord INFO "Conversion complete." []]).

End Run.

(** The part of the [try] block of [_read_ipynb] that follows
    [json.load]: the text of one cell, and of the notebook. *)
Definition cell_text (cell : json) : outcome text :=
  let! src := PyJson.get cell (Py.lit "source") (JArr []) in
  PyJson.join_empty src.

Definition notebook_text (data : json) : outcome text :=
  let! cells := PyJson.get data (Py.lit "cells") (JArr []) in
  let! cells := PyJson.iter cells in
  let! text_cells := collect cell_text cells in
  Ok (Py.join [Py.LF] text_cells).

(** * A small instance of the environment

    A fragment of the Unicode database and a file system with a handful of
    files, on which the statements below are exercised. *)

Module Sample.
Import Py.

(** Full canonical decompositions of a small repertoire: six precomposed
    Latin letters, and characters with a singleton decomposition (EN QUAD,
    EM QUAD, OHM SIGN, KELVIN SIGN, ANGSTROM SIGN, the combining tone
    marks, GREEK NUMERAL SIGN, GREEK QUESTION MARK, GREEK ANO TELEIA). *)
Definition decompositions : list (char * list char) :=
  [(0xC5, [0x41; 0x030A]); (0xC9, [0x45; 0x0301]); (0xD6, [0x4F; 0x0308]);
   (0xE5, [0x61; 0x030A]); (0xE9, [0x65; 0x0301]); (0xFC, [0x75; 0x0308]);
   (0x212B, [0x41; 0x030A]);
   (0x2000, [0x2002]); (0x2001, [0x2003]); (0x2126, [0x03A9]);
   (0x212A, [0x4B]); (0x0340, [0x0300]); (0x0341, [0x0301]);
   (0x0343, [0x0313]); (0x0374, [0x02B9]); (0x037E, [0x3B]);
   (0x0387, [0xB7])]%N.

(** Primary composites: a starter, a combining mark, their composite. *)
Definition compositions : list (char * char * char) :=
  [(0x41, 0x030A, 0xC5); (0x45, 0x0301, 0xC9); (0x4F, 0x0308, 0xD6);
   (0x61, 0x030A, 0xE5); (0x65, 0x0301, 0xE9); (0x75, 0x0308, 0xFC)]%N.

Fixpoint lookup_char {A} (table : list (char * A)) (c : char) : option A :=
  match table with
  | [] => None
  | (k, v) :: rest => if (c =? k)%N then Some v else lookup_char rest c
  end.

Definition decomp (c : char) : list char :=
  default [c] (lookup_char decompositions c).

Fixpoint lookup_pair (table : list (char * char * char)) (a b : char)
  : option char :=
  match table with
  | [] => None
  | (x, y, z) :: rest =>
      if (a =? x)%N && (b =? y)%N then Some z else lookup_pair rest a b
  end.

Definition composite (a b : char) : option char :=
  lookup_pair compositions a b.

(** Canonical composition.  All the marks of the repertoire have the same
    combining class, so a mark combines with the starter only when it
    follows it at once. *)
Fixpoint compose (s : text) : text :=
  match s with
  | a :: t =>
      match t with
      | b :: r =>
          match composite a b with
          | Some c => c :: compose r
          | None => a :: compose t
          end
      | [] => s
      end
  | [] => []
  end.

(** NFC on the repertoire: decompose, then compose. *)
Definition nfc (s : text) : text := compose (concat (decomp <$> s)).

Definition in_composition (c : char) : bool :=
  existsb (λ p, (c =? p.1.1) || (c =? p.1.2) || (c =? p.2))%N compositions.

Definition inert (c : char) : bool :=
  bool_decide (decomp c = [c]) && negb (in_composition c).

(** Code points outside ASCII that are not printable: the C1 controls,
    the separators other than the space, the format characters, the
    surrogates and the private use area of the Basic Multilingual Plane,
    and what lies beyond the code space. *)
Definition printable (c : char) : bool :=
  negb ((0x80 <=? c) && (c <=? 0xA0) || (c =? 0xAD) || (c =? 0x1680)
        || (0x2000 <=? c) && (c <=? 0x200F)
        || (0x2028 <=? c) && (c <=? 0x202F)
        || (0x205F <=? c) && (c <=? 0x206F)
        || (c =? 0x3000)
        || (0xD800 <=? c) && (c <=? 0xF8FF)
        || (c =? 0xFEFF) || (0x110000 <=? c))%N.

(** [str.lower] on ASCII text. *)
Definition lower_ascii (s : text) : text :=
  (λ c, if (65 <=? c) && (c <=? 90) then c + 32 else c)%N <$> s.

Definition unicode : UnicodeData :=
  {| normalize_NFC := nfc; ucd_printable := printable; lower := lower_ascii |}.

Definition ENOENT {A} : outcome A :=
  Raise (Exception "FileNotFoundError" "No such file or directory").

(** A literal in which the apostrophes stand for double quotes. *)
Definition dq (s : string) : text :=
  (λ c, if (c =? 39)%N then 34%N else c) <$> lit s.

Definition notebook_source : text :=
  dq "{'cells': [{'source': ['print(1)']}, {'source': ['x = 2\n', 'y = 3']}]}".

(** The notebook of the specification's example: two cells, the second
    with two source fragments. *)
Definition notebook : json :=
  JObj [(lit "cells",
         JArr [JObj [(lit "source", JArr [JStr (lit "print(1)")])];
               JObj [(lit "source",
                      JArr [JStr (lit "x = 2" ++ [LF]); JStr (lit "y = 3")])]])].

Definition odd_notebook_source : text := dq "{'cells': 1}".

(** Valid JSON, an object, but ["cells"] is a number. *)
Definition odd_notebook : json := JObj [(lit "cells", JNum (lit "1"))].

(** The workbook of the specification's example: two sheets, each with
    the one row [("a", None, "b")]. *)
Definition two_sheets : workbook :=
  {| sheetnames := [lit "Sheet1"; lit "Sheet2"];
     iter_rows := λ _, [Ok [Some (VStr (lit "a")); None; Some (VStr (lit "b"))]] |}.

Definition page_error : exn := Exception "RuntimeError" "cannot load page".

Definition lookup_path {A} (table : list (text * A)) (p : text) : outcome A :=
  match list_find (λ kv, kv.1 = p) table with
  | Some (_, (_, v)) => Ok v
  | None => ENOENT
  end.

(** A directory [root] with a few documents, among them a PDF whose
    second page cannot be read. *)
Definition world : World :=
  {| getcwd := lit "/home/user";
     open_read := lookup_path
       [(lit "root/hello.txt", lit "hello" ++ [LF] ++ lit "world");
        (lit "root/blank.txt", [SPACE; LF; TAB]);
        (lit "root/nul.txt", [0%N]);
        (lit "root/nb.ipynb", notebook_source);
        (lit "root/odd.ipynb", odd_notebook_source)];
     json_loads := λ s,
       if bool_decide (s = notebook_source) then Ok notebook
       else if bool_decide (s = odd_notebook_source) then Ok odd_notebook
       else Raise (Exception "JSONDecodeError" "Expecting value");
     docx_Document := λ _, ENOENT;
     fitz_open := lookup_path
       [(lit "root/sub/scan.pdf", [Ok (lit "page one"); Raise page_error])];
     PyPDF2_PdfReader := lookup_path
       [(lit "root/sub/scan.pdf", [Ok (Some (lit "page one")); Raise page_error])];
     odf_load := λ _, ENOENT;
     load_workbook := lookup_path [(lit "root/book.xlsx", two_sheets)];
     getsize := λ _, Ok 100%N;
     scandir := λ p,
       if bool_decide (p = lit "root")
       then Some (Dir [(lit "sub", Dir [] [lit "doc.PDF"; lit "scan.pdf"])]
                      [lit "hello.txt"; lit "blank.txt"; lit "nul.txt";
                       lit "nb.ipynb"; lit "odd.ipynb"; lit "book.xlsx"])
       else None;
     path_exists := λ _, false;
     makedirs := λ _, Ok ();
     open_write := λ _, Ok ();
     write := λ _ _, Ok () |}.

Definition all_imports : Imports :=
  {| docx := true; fitz := true; PyPDF2 := true; openpyxl := true;
     odf := true |}.

Definition no_imports : Imports :=
  {| docx := false; fitz := false; PyPDF2 := false; openpyxl := false;
     odf := false |}.

Definition only_PyPDF2 : Imports :=
  {| docx := false; fitz := false; PyPDF2 := true; openpyxl := false;
     odf := false |}.

Definition empty_state : state := State ∅ ∅ [].

End Sample.

(** A second environment: a directory [docs] with a sub-directory (a
    blank file and a memo in it) whose counterpart in the output tree
    cannot be created, a directory [plain]
    that holds nothing convertible, the output tree [out] of an earlier
    run, and two archive modules, one that never fails and one that
    cannot store one of the files. *)

Module Office.
Import Py.

Definition EACCES {A} : outcome A :=
  Raise (Exception "PermissionError" "Permission denied").

Definition notebook_source : text :=
  Sample.dq "{'cells': [{'cell_type': 'markdown', 'source': '# Title'}, {'cell_type': 'code', 'source': ['a = 1\n', 'b = 2']}]}".

(** A notebook whose first cell has a string, not a list, as source. *)
Definition notebook : json :=
  JObj [(lit "cells",
         JArr [JObj [(lit "cell_type", JStr (lit "markdown"));
                     (lit "source", JStr (lit "# Title"))];
               JObj [(lit "cell_type", JStr (lit "code"));
                     (lit "source",
                      JArr [JStr (lit "a = 1" ++ [LF]); JStr (lit "b = 2")])]])].

Definition world : World :=
  {| getcwd := lit "/srv";
     open_read := Sample.lookup_path
       [(lit "docs/a.txt", lit "a");
        (lit "docs/nb.ipynb", notebook_source);
        (lit "docs/locked/blank.txt", [SPACE; LF]);
        (lit "docs/locked/memo.txt", lit "memo")];
     json_loads := λ s,
       if bool_decide (s = notebook_source) then Ok notebook
       else Raise (Exception "JSONDecodeError" "Expecting value");
     docx_Document := λ _, Sample.ENOENT;
     fitz_open := λ _, Sample.ENOENT;
     PyPDF2_PdfReader := λ _, Sample.ENOENT;
     odf_load := λ _, Sample.ENOENT;
     load_workbook := λ _, Sample.ENOENT;
     getsize := λ _, Ok 10%N;
     scandir := λ p,
       if bool_decide (p = lit "docs")
       then Some (Dir [(lit "locked",
                        Dir [] [lit "blank.txt"; lit "memo.txt"])]
                      [lit "a.txt"; lit "nb.ipynb"])
       else if bool_decide (p = lit "plain")
       then Some (Dir [(lit ".git", Dir [] [lit "notes.txt"])]
                      [lit "README"; lit "photo.jpg"; lit ".env"])
       else if bool_decide (p = lit "out")
       then Some (Dir [(lit "sub", Dir [] [lit "doc.txt"]);
                       (lit ".cache", Dir [] [lit "x.txt"])]
                      [lit "hello.txt"; lit "NOTES.TXT"; lit "all.zip"])
       else None;
     path_exists := λ p, bool_decide (p = lit "out");
     makedirs := λ p,
       if bool_decide (p = lit "out/locked") then EACCES else Ok ();
     open_write := λ _, Ok ();
     write := λ _ _, Ok () |}.

Definition zipfile : ZipModule :=
  {| ZipFile := λ _, Ok (); zf_write := λ _ _, Ok (); zf_close := λ _, Ok () |}.



End Office.

(** * Properties *)

(** ** [str.strip] *)

Module PyFacts.
Import Py.

Lemma lstrip_split (s : text) :
  ∃ pre, s = pre ++ lstrip s ∧ forallb isspace pre = true.
Proof.
  induction s as [|c s [pre [IH1 IH2]]]; simpl.
  - by exists [].
  - destruct (isspace c) eqn:Hc.
    + exists (c :: pre). simpl. rewrite Hc, IH2. by rewrite <- IH1.
    + by exists [].
Qed.

Lemma lstrip_head (s : text) (c : char) :
  head (lstrip s) = Some c → isspace c = false.
Proof.
  induction s as [|x s IH]; simpl; [done|].
  destruct (isspace x) eqn:Hx; [done|].
  simpl. by intros [= <-].
Qed.

Lemma lstrip_fixed (s : text) :
  (∀ c, head s = Some c → isspace c = false) → lstrip s = s.
Proof.
  destruct s as [|x s]; simpl; [done|].
  intros H. by rewrite (H x).
Qed.

Lemma lstrip_blank (s : text) :
  forallb isspace s = true → lstrip s = [].
Proof.
  induction s as [|x s IH]; simpl; [done|].
  intros [Hx Hs]%andb_prop. rewrite Hx. auto.
Qed.

Lemma rstrip_snoc (s : text) (c : char) :
  rstrip (s ++ [c]) = if isspace c then rstrip s else s ++ [c].
Proof.
  unfold rstrip. rewrite reverse_snoc. simpl.
  destruct (isspace c); [done|].
  by rewrite reverse_cons, reverse_involutive.
Qed.

Lemma rstrip_split (s : text) :
  ∃ post, s = rstrip s ++ post ∧ forallb isspace post = true.
Proof.
  unfold rstrip.
  destruct (lstrip_split (reverse s)) as [pre [H1 H2]].
  exists (reverse pre). split.
  - rewrite <- reverse_app, <- H1. by rewrite reverse_involutive.
  - rewrite forallb_forall in *. intros x Hx. apply H2.
    apply list_elem_of_In, elem_of_reverse, list_elem_of_In, Hx.
Qed.

Lemma rstrip_last (s : text) (c : char) :
  last (rstrip s) = Some c → isspace c = false.
Proof.
  unfold rstrip. rewrite last_reverse. apply lstrip_head.
Qed.

Lemma rstrip_fixed (s : text) :
  (∀ c, last s = Some c → isspace c = false) → rstrip s = s.
Proof.
  intros H. unfold rstrip. rewrite lstrip_fixed.
  - apply reverse_involutive.
  - intros c Hc. apply H. by rewrite <- head_reverse.
Qed.

Lemma rstrip_head (s : text) (c : char) :
  (∀ x, head s = Some x → isspace x = false) →
  head (rstrip s) = Some c → isspace c = false.
Proof.
  induction s as [|y s IH] using rev_ind; [done|].
  rewrite rstrip_snoc. destruct (isspace y) eqn:Hy.
  - intros H. apply IH. intros x Hx. apply H.
    destruct s; [done|]. done.
  - intros H. apply H.
Qed.

Lemma strip_head (s : text) (c : char) :
  head (strip s) = Some c → isspace c = false.
Proof. apply rstrip_head. intros x. apply lstrip_head. Qed.

Lemma strip_last (s : text) (c : char) :
  last (strip s) = Some c → isspace c = false.
Proof. apply rstrip_last. Qed.

Lemma strip_fixed (s : text) :
  (∀ c, head s = Some c → isspace c = false) →
  (∀ c, last s = Some c → isspace c = false) →
  strip s = s.
Proof.
  intros Hh Hl. unfold strip. rewrite (lstrip_fixed s Hh).
  by apply rstrip_fixed.
Qed.

Lemma strip_idempotent (s : text) : strip (strip s) = strip s.
Proof. apply strip_fixed; [apply strip_head | apply strip_last]. Qed.

Lemma strip_split (s : text) :
  ∃ pre post, s = pre ++ strip s ++ post
              ∧ forallb isspace pre = true ∧ forallb isspace post = true.
Proof.
  destruct (lstrip_split s) as [pre [H1 H2]].
  destruct (rstrip_split (lstrip s)) as [post [H3 H4]].
  exists pre, post. unfold strip. by rewrite <- H3.
Qed.

Lemma strip_blank (s : text) :
  forallb isspace s = true → strip s = [].
Proof. intros H. unfold strip. by rewrite lstrip_blank. Qed.

(** A stripped string that consists of white space only is empty. *)
Lemma strip_blank_empty (s : text) :
  forallb isspace (strip s) = true → strip s = [].
Proof.
  intros H. destruct (strip s) as [|c t] eqn:E; [done|].
  pose proof (strip_head s c) as Hc. rewrite E in Hc.
  simpl in H. apply andb_prop in H as [H _].
  rewrite Hc in H; done.
Qed.

Lemma join_empty_singletons (l : text) :
  join [] ((λ c, [c]) <$> l) = l.
Proof.
  induction l as [|c l IH]; [done|].
  change ((λ c, [c]) <$> c :: l) with ([c] :: ((λ c, [c]) <$> l)).
  destruct l as [|d l]; [done|].
  simpl in *. by rewrite IH.
Qed.

End PyFacts.

(** ** The sample database satisfies the laws *)

Module SampleFacts.
Import Py Sample.

Lemma lookup_char_elem {A} (table : list (char * A)) (c : char) (v : A) :
  lookup_char table c = Some v → (c, v) ∈ table.
Proof.
  induction table as [|[k v'] table IH]; simpl; [done|].
  destruct (N.eqb_spec c k) as [->|_].
  - intros [= ->]. left.
  - intros H. right. by apply IH.
Qed.

Lemma lookup_pair_elem (table : list (char * char * char)) (a b c : char) :
  lookup_pair table a b = Some c → (a, b, c) ∈ table.
Proof.
  induction table as [|[[x y] z] table IH]; simpl; [done|].
  destruct (N.eqb_spec a x) as [->|_]; simpl.
  - destruct (N.eqb_spec b y) as [->|_].
    + intros [= ->]. left.
    + intros H. right. by apply IH.
  - intros H. right. by apply IH.
Qed.

(** The decompositions are full: what they produce decomposes no
    further. *)
Lemma decomp_full (c x : char) : x ∈ decomp c → decomp x = [x].
Proof.
  unfold decomp at 1. destruct (lookup_char decompositions c) as [v|] eqn:E.
  - apply lookup_char_elem in E. simpl. intros Hx.
    assert (forallb (λ kv, forallb (λ x, bool_decide (decomp x = [x])) kv.2)
              decompositions = true) as Htable by (by vm_compute).
    rewrite forallb_forall in Htable.
    specialize (Htable (c, v) (proj1 (list_elem_of_In _ _) E)). simpl in Htable.
    rewrite forallb_forall in Htable.
    eapply bool_decide_eq_true_1, Htable, list_elem_of_In, Hx.
  - simpl. intros ->%list_elem_of_singleton. unfold decomp. by rewrite E.
Qed.

(** A composite decomposes into the pair it is made of, and its parts
    are recorded as parts of a composition. *)
Lemma composite_table (a b c : char) :
  composite a b = Some c →
  decomp c = [a; b] ∧ in_composition a = true ∧ in_composition b = true.
Proof.
  intros H%lookup_pair_elem.
  assert (forallb (λ p, bool_decide (decomp p.2 = [p.1.1; p.1.2])
                        && in_composition p.1.1 && in_composition p.1.2)
            compositions = true) as Htable by (by vm_compute).
  rewrite forallb_forall in Htable.
  specialize (Htable (a, b, c) (proj1 (list_elem_of_In _ _) H)). simpl in Htable.
  apply andb_prop in Htable as [[Hd ?]%andb_prop ?].
  by apply bool_decide_eq_true_1 in Hd.
Qed.

Lemma composite_decomp (a b c : char) :
  composite a b = Some c → decomp c = [a; b].
Proof. by intros (? & _)%composite_table. Qed.

Lemma composite_in_composition (a b c : char) :
  composite a b = Some c → in_composition a = true ∧ in_composition b = true.
Proof. by intros (_ & ?)%composite_table. Qed.

Lemma compose_cons_inert (c : char) (y : text) :
  in_composition c = false → compose (c :: y) = c :: compose y.
Proof.
  intros Hc. destruct y as [|b y]; [done|].
  cbn [compose]. destruct (composite c b) as [z|] eqn:E; [|done].
  apply composite_in_composition in E as [E _]. congruence.
Qed.

(** Composition does not reach across a character that is in no pair. *)
Lemma compose_split (x y : text) (c : char) :
  in_composition c = false →
  compose (x ++ c :: y) = compose x ++ c :: compose y.
Proof.
  intros Hc.
  assert (∀ n x, length x ≤ n →
                 compose (x ++ c :: y) = compose x ++ c :: compose y) as H;
    [|by apply (H (length x))].
  clear x. induction n as [|n IH]; intros x Hn.
  - destruct x; [|simpl in Hn; lia]. by apply compose_cons_inert.
  - destruct x as [|a [|b r]].
    + by apply compose_cons_inert.
    + cbn [app compose]. destruct (composite a c) as [z|] eqn:E.
      * apply composite_in_composition in E as [_ E]. congruence.
      * f_equal. by apply compose_cons_inert.
    + cbn [app compose]. destruct (composite a b) as [z|].
      * rewrite <- app_comm_cons. f_equal. apply IH. simpl in Hn. lia.
      * rewrite <- app_comm_cons. f_equal. apply (IH (b :: r)).
        simpl in *. lia.
Qed.

(** Decomposing a composed string gives back the decomposed string it
    was composed from. *)
Lemma decompose_compose (x : text) :
  (∀ c, c ∈ x → decomp c = [c]) → concat (decomp <$> compose x) = x.
Proof.
  assert (∀ n x, length x ≤ n → (∀ c, c ∈ x → decomp c = [c]) →
                 concat (decomp <$> compose x) = x) as H;
    [|by apply (H (length x))].
  clear x. induction n as [|n IH]; intros x Hn Hx.
  - destruct x; [done|simpl in Hn; lia].
  - destruct x as [|a [|b r]]; [done| |].
    + simpl. rewrite (Hx a) by left. done.
    + cbn [compose]. destruct (composite a b) as [z|] eqn:E.
      * rewrite fmap_cons. simpl. rewrite (composite_decomp a b z E).
        simpl. do 2 f_equal. apply IH; [simpl in Hn; lia|].
        intros c Hc. apply Hx. by do 2 right.
      * rewrite fmap_cons. simpl. rewrite (Hx a) by left. simpl. f_equal.
        apply (IH (b :: r)); [simpl in *; lia|].
        intros c Hc. apply Hx. by right.
Qed.

Lemma decomposed_full (s : text) (c : char) :
  c ∈ concat (decomp <$> s) → decomp c = [c].
Proof.
  intros Hc%list_elem_of_In. apply in_concat in Hc as (l & Hl & Hc).
  apply list_elem_of_In, list_elem_of_fmap in Hl as (c' & -> & _).
  by apply (decomp_full c'), list_elem_of_In.
Qed.

Lemma compose_elem (x : text) (c : char) :
  c ∈ compose x → c ∈ x ∨ ∃ a b, composite a b = Some c.
Proof.
  assert (∀ n x, length x ≤ n → c ∈ compose x →
                 c ∈ x ∨ ∃ a b, composite a b = Some c) as H;
    [|by apply (H (length x))].
  clear x. induction n as [|n IH]; intros x Hn Hc.
  - destruct x; [by left|simpl in Hn; lia].
  - destruct x as [|a [|b r]]; [by left|by left|].
    cbn [compose] in Hc. destruct (composite a b) as [z|] eqn:E.
    + apply elem_of_cons in Hc as [->|Hc]; [right; eauto|].
      destruct (IH r) as [?|?]; [simpl in Hn; lia|done| |by right].
      left. by do 2 right.
    + apply elem_of_cons in Hc as [->|Hc]; [left; left|].
      destruct (IH (b :: r)) as [?|?]; [simpl in *; lia|done| |by right].
      left. by right.
Qed.

(** Every character of a composition is printable. *)
Lemma in_composition_printable (c : char) :
  in_composition c = true → isprintable unicode c = true.
Proof.
  unfold in_composition. rewrite existsb_exists.
  intros (p & Hp & Hc).
  assert (forallb (λ p, isprintable unicode p.1.1 && isprintable unicode p.1.2
                        && isprintable unicode p.2) compositions = true)
    as Htable by (by vm_compute).
  rewrite forallb_forall in Htable. specialize (Htable p Hp).
  apply andb_prop in Htable as [[? ?]%andb_prop ?].
  repeat (apply orb_prop in Hc as [Hc|Hc]); by apply N.eqb_eq in Hc as ->.
Qed.

Lemma sample_laws : UnicodeLaws unicode inert.
Proof.
  split; simpl.
  - done.
  - intros s. unfold nfc.
    by rewrite decompose_compose by apply decomposed_full.
  - intros a c b [Hd Hc]%andb_prop. apply bool_decide_eq_true in Hd.
    apply negb_true_iff in Hc.
    unfold nfc. rewrite fmap_app, fmap_cons, concat_app. simpl.
    rewrite Hd. simpl. by apply compose_split.
  - intros s c Hc Hnp. unfold inert.
    assert (in_composition c = false) as Hno.
    { destruct (in_composition c) eqn:E; [|done].
      apply in_composition_printable in E. congruence. }
    rewrite Hno, andb_true_r. apply bool_decide_eq_true.
    apply compose_elem in Hc as [Hc|(a & b & Hab)].
    + by apply (decomposed_full s).
    + apply lookup_pair_elem in Hab.
      assert (in_composition c = true) as E; [|congruence].
      unfold in_composition. apply existsb_exists.
      exists (a, b, c). split; [by apply list_elem_of_In|].
      simpl. by rewrite N.eqb_refl, orb_true_r.
  - done.
  - intros c Hc Hne. unfold isprintable, isspace, SPACE in *. simpl.
    unfold printable.
    repeat match type of Hc with
           | (_ || _ = true) => apply orb_prop in Hc as [Hc|Hc]
           | (_ && _ = true) => apply andb_prop in Hc as [? ?]
           end;
      repeat match goal with
             | H : (_ <=? _)%N = true |- _ => apply N.leb_le in H
             | H : (_ =? _)%N = true |- _ => apply N.eqb_eq in H
             end;
      destruct (c <? 128)%N eqn:Hlt;
      try apply N.ltb_lt in Hlt; try apply N.ltb_ge in Hlt;
      rewrite ?andb_false_iff, ?negb_false_iff, ?orb_true_iff, ?andb_true_iff,
        ?N.leb_le, ?N.eqb_eq, ?N.leb_gt, ?N.ltb_ge; lia.
Qed.

End SampleFacts.

(** ** The sanitiser *)

Module SanitizerFacts.
Import Py PyFacts.

Section Unconditional.
Context (U : UnicodeData).

Lemma cleaned_chars_fold (l : text) (acc : list (list char)) :
  fold_left
    (λ cleaned_chars ch,
       if isprintable U ch || bool_decide (ch ∈ [LF; CR; TAB])
       then cleaned_chars ++ [[ch]]
       else cleaned_chars ++ [[SPACE]])
    l acc
  = acc ++ ((λ c, [c]) <$> (cleaned U <$> l)).
Proof.
  revert acc. induction l as [|c l IH]; intros acc; simpl.
  - by rewrite app_nil_r.
  - rewrite IH. unfold cleaned at 2, kept.
    destruct (isprintable U c || bool_decide (c ∈ [LF; CR; TAB]));
      by rewrite <- app_assoc.
Qed.

(** The loop of [sanitize_text] is a map over the characters. *)
Lemma sanitize_text_unfold (x : text) :
  Files2Zip.sanitize_text U x = strip (cleaned U <$> normalize_NFC U x).
Proof.
  unfold Files2Zip.sanitize_text.
  by rewrite cleaned_chars_fold, app_nil_l, join_empty_singletons.
Qed.

Lemma sanitize_text_same (x : text) :
  RawText2Utf8.sanitize_text U x = Files2Zip.sanitize_text U x.
Proof. reflexivity. Qed.

Lemma kept_space : kept U SPACE = true.
Proof. reflexivity. Qed.

Lemma kept_cleaned (c : char) : kept U (cleaned U c) = true.
Proof.
  unfold cleaned. destruct (kept U c) eqn:E; [done|apply kept_space].
Qed.

Lemma cleaned_kept (c : char) : kept U c = true → cleaned U c = c.
Proof. unfold cleaned. by intros ->. Qed.

Lemma sanitize_text_chars (x : text) (c : char) :
  c ∈ Files2Zip.sanitize_text U x → kept U c = true.
Proof.
  rewrite sanitize_text_unfold.
  destruct (strip_split (cleaned U <$> normalize_NFC U x))
    as (pre & post & Heq & _ & _).
  intros Hc.
  assert (c ∈ cleaned U <$> normalize_NFC U x) as Hin.
  { rewrite Heq. rewrite !elem_of_app. auto. }
  apply list_elem_of_fmap in Hin as [c' [-> _]]. apply kept_cleaned.
Qed.

Lemma fmap_cleaned_fixed (y : text) :
  (∀ c, c ∈ y → kept U c = true) → cleaned U <$> y = y.
Proof.
  intros H. induction y as [|c y IH]; [done|].
  rewrite fmap_cons, cleaned_kept, IH; [done| |].
  - intros d Hd. apply H. by right.
  - apply H. by left.
Qed.

End Unconditional.

Section WithLaws.
Context (U : UnicodeData) (inert : char → bool)
        (HU : UnicodeLaws U inert).

(** An inert character cuts a string into two parts that are
    normalised independently, so the whole is in NFC exactly when both
    parts are. *)
Lemma is_NFC_split (a b : text) (c : char) :
  inert c = true →
  is_NFC U (a ++ c :: b) ↔ is_NFC U a ∧ is_NFC U b.
Proof.
  intros Hc. unfold is_NFC. rewrite (nfc_inert_split _ _ HU) by done.
  split; [|by intros [-> ->]].
  intros H.
  apply app_eq_app in H as [l [[Ha Hb]|[Ha Hb]]].
  - (* the normal form of [a] is longer than [a] *)
    destruct l as [|x l]; simpl in Hb.
    + rewrite app_nil_r in Ha. split; congruence.
    + injection Hb as <- Hb. exfalso.
      pose proof (f_equal (normalize_NFC U) Hb) as Hn.
      rewrite (nfc_inert_split _ _ HU), (nfc_idempotent _ _ HU) in Hn by done.
      apply (f_equal length) in Hn. rewrite length_app in Hn.
      simpl in Hn. lia.
  - (* the normal form of [a] is shorter than [a] *)
    destruct l as [|x l]; simpl in Hb.
    + rewrite app_nil_r in Ha. split; congruence.
    + injection Hb as -> Hb. exfalso.
      pose proof (f_equal (normalize_NFC U) Ha) as Hn.
      rewrite (nfc_inert_split _ _ HU), (nfc_idempotent _ _ HU) in Hn by done.
      apply (f_equal length) in Hn. rewrite !length_app in Hn.
      simpl in Hn. lia.
Qed.

(** White space and other non-printable characters of a normalised
    string are inert. *)
Lemma nonprintable_inert (z : text) (c : char) :
  is_NFC U z → c ∈ z → isprintable U c = false → inert c = true.
Proof.
  intros Hz Hc. apply (nfc_nonprintable_inert _ _ HU z). by rewrite Hz.
Qed.

Lemma whitespace_inert (z : text) (c : char) :
  is_NFC U z → c ∈ z → isspace c = true → inert c = true.
Proof.
  intros Hz Hc Hs. destruct (decide (c = SPACE)) as [->|Hne].
  - apply (space_inert _ _ HU).
  - apply (nonprintable_inert z); [done..|].
    by apply (whitespace_nonprintable _ _ HU).
Qed.

Lemma cleaned_NFC (y p : text) :
  is_NFC U (p ++ y) → is_NFC U (p ++ (cleaned U <$> y)).
Proof.
  revert p. induction y as [|c y IH]; intros p H; [done|].
  rewrite fmap_cons. unfold cleaned at 1.
  destruct (kept U c) eqn:Hk.
  - rewrite (cons_middle c), app_assoc. apply IH.
    by rewrite <- app_assoc.
  - assert (inert c = true) as Hc.
    { apply (nonprintable_inert (p ++ c :: y)); [done| |].
      - rewrite elem_of_app. right. left.
      - unfold kept in Hk. by apply orb_false_elim in Hk as [? _]. }
    apply is_NFC_split in H as [Hp Hy]; [|done].
    apply is_NFC_split; [apply (space_inert _ _ HU)|].
    split; [done|]. by apply (IH []).
Qed.

Lemma strip_NFC (z : text) : is_NFC U z → is_NFC U (strip z).
Proof.
  intros Hz.
  destruct (strip_split z) as (pre & post & Heq & Hpre & Hpost).
  assert (is_NFC U (strip z ++ post)) as H1.
  { destruct pre as [|c pre _] using rev_ind;
      [simpl in Heq; by rewrite <- Heq|].
    rewrite <- app_assoc in Heq. simpl in Heq.
    rewrite Heq in Hz. apply is_NFC_split in Hz as [_ ?]; [done|].
    apply (whitespace_inert (pre ++ c :: strip z ++ post)); [done| |].
    - rewrite elem_of_app. right. left.
    - rewrite forallb_app in Hpre. simpl in Hpre.
      by destruct (isspace c); [|rewrite andb_false_r in Hpre]. }
  destruct post as [|c post]; [by rewrite app_nil_r in H1|].
  apply is_NFC_split in H1 as [? _]; [done|].
  apply (whitespace_inert z); [done| |].
  - rewrite Heq, !elem_of_app. right. right. left.
  - simpl in Hpost. by apply andb_prop in Hpost as [? _].
Qed.

Lemma sanitize_text_NFC (x : text) :
  is_NFC U (Files2Zip.sanitize_text U x).
Proof.
  rewrite sanitize_text_unfold. apply strip_NFC.
  apply (cleaned_NFC _ []). simpl. apply (nfc_idempotent _ _ HU).
Qed.

Lemma sanitize_text_fixed (y : text) :
  is_NFC U y →
  (∀ c, c ∈ y → kept U c = true) →
  strip y = y →
  Files2Zip.sanitize_text U y = y.
Proof.
  intros Hn Hk Hs. rewrite sanitize_text_unfold, Hn.
  by rewrite fmap_cleaned_fixed.
Qed.

End WithLaws.
End SanitizerFacts.

(** C1.  For every input string [x], [sanitize_text x] (the same function
    in [files_2_zip.py] and [raw_text_2_utf8.py]) is a string that
    (1) is in Unicode canonical composed form (NFC);
    (2) contains only characters that are printable or one of newline,
    carriage return and tab: it is the normalised input in which every
    other character has been replaced by exactly one space, stripped;
    (3) neither starts nor ends with white space.
    The function is total (it is a function of Rocq) and maps the empty
    string to the empty string.  Parts (2) and (3) hold for any Unicode
    database; (1) and the empty case rest on the laws of normalisation. *)
Theorem sanitize_text_sanitized (U : UnicodeData) (inert : char → bool)
    (HU : UnicodeLaws U inert) (x : text) :
  let y := Files2Zip.sanitize_text U x in
  RawText2Utf8.sanitize_text U x = y
  ∧ is_NFC U y
  ∧ (∀ c, c ∈ y → isprintable U c = true ∨ c ∈ [Py.LF; Py.CR; Py.TAB])
  ∧ y = Py.strip (cleaned U <$> normalize_NFC U x)
  ∧ (∀ c, cleaned U c = if isprintable U c || bool_decide (c ∈ [Py.LF; Py.CR; Py.TAB])
                         then c else Py.SPACE)
  ∧ (∀ c, head y = Some c → Py.isspace c = false)
  ∧ (∀ c, last y = Some c → Py.isspace c = false)
  ∧ Files2Zip.sanitize_text U [] = [].
Proof.
  intros y. subst y. repeat split.
  - by apply SanitizerFacts.sanitize_text_NFC with inert.
  - intros c Hc. apply SanitizerFacts.sanitize_text_chars in Hc.
    unfold kept in Hc. apply orb_prop in Hc as [Hc|Hc]; [by left|right].
    by apply bool_decide_eq_true in Hc.
  - apply SanitizerFacts.sanitize_text_unfold.
  - rewrite SanitizerFacts.sanitize_text_unfold. apply PyFacts.strip_head.
  - rewrite SanitizerFacts.sanitize_text_unfold. apply PyFacts.strip_last.
  - rewrite SanitizerFacts.sanitize_text_unfold.
    by rewrite (nfc_empty _ _ HU).
Qed.

Lemma sanitize_text_sanitized_witness :
  UnicodeLaws Sample.unicode Sample.inert
  ∧ Files2Zip.sanitize_text Sample.unicode
      ([32; 9; 0x65; 0x0301; 0; 0x212B; 0x2000; 0x45; 0x0341; 10; 0xA0])%N
    = [0xE9; 32; 0xC5; 32; 0xC9]%N.
Proof.
  split; [exact SampleFacts.sample_laws|].
  pose proof (sanitize_text_sanitized Sample.unicode Sample.inert
                SampleFacts.sample_laws
                ([32; 9; 0x65; 0x0301; 0; 0x212B; 0x2000; 0x45; 0x0341; 10; 0xA0])%N)
    as (_ & _ & _ & H & _).
  rewrite H. vm_compute. reflexivity.
Defined.

(** C4.  [sanitize_text] is idempotent:
    [sanitize_text (sanitize_text x) = sanitize_text x] for every [x], in
    both scripts that define it. *)
Theorem sanitize_text_idempotent (U : UnicodeData) (inert : char → bool)
    (HU : UnicodeLaws U inert) (x : text) :
  Files2Zip.sanitize_text U (Files2Zip.sanitize_text U x)
  = Files2Zip.sanitize_text U x
  ∧ RawText2Utf8.sanitize_text U (RawText2Utf8.sanitize_text U x)
    = RawText2Utf8.sanitize_text U x.
Proof.
  assert (Files2Zip.sanitize_text U (Files2Zip.sanitize_text U x)
          = Files2Zip.sanitize_text U x) as H.
  { apply (SanitizerFacts.sanitize_text_fixed U).
    - by apply SanitizerFacts.sanitize_text_NFC with inert.
    - apply SanitizerFacts.sanitize_text_chars.
    - rewrite SanitizerFacts.sanitize_text_unfold.
      apply PyFacts.strip_idempotent. }
  split; [exact H|]. by rewrite !SanitizerFacts.sanitize_text_same.
Qed.

Lemma sanitize_text_idempotent_witness :
  UnicodeLaws Sample.unicode Sample.inert
  ∧ Files2Zip.sanitize_text Sample.unicode
      (Files2Zip.sanitize_text Sample.unicode
         ([9; 0x2001; 0x75; 0x0308; 7] ++ Py.lit " x" ++ [13])%N)
    = Files2Zip.sanitize_text Sample.unicode
        ([9; 0x2001; 0x75; 0x0308; 7] ++ Py.lit " x" ++ [13])%N.
Proof.
  split; [exact SampleFacts.sample_laws|].
  exact (proj1 (sanitize_text_idempotent Sample.unicode Sample.inert
                  SampleFacts.sample_laws
                  ([9; 0x2001; 0x75; 0x0308; 7] ++ Py.lit " x" ++ [13])%N)).
Defined.

(** ** Loops that may raise *)

Module LoopFacts.

Lemma collect_raise {A B} (f : A → outcome B) (xs : list A) (x : A) (e : exn) :
  x ∈ xs → f x = Raise e → ∃ e', collect f xs = Raise e'.
Proof.
  intros Hx Hf. induction xs as [|y xs IH]; [by apply elem_of_nil in Hx|].
  simpl. destruct (f y) as [b|e1] eqn:Ey; simpl; [|by eexists].
  apply elem_of_cons in Hx as [->|Hx]; [congruence|].
  destruct (IH Hx) as [e' ->]. by eexists.
Qed.

(** The pages read before the exception stay in the accumulator. *)
Lemma append_each_raise {A B} (f : A → outcome B) (g : A → B)
    (before after : list A) (x : A) (e : exn) (acc : list B) :
  (∀ y, y ∈ before → f y = Ok (g y)) →
  f x = Raise e →
  append_each f (before ++ x :: after) acc = (acc ++ (g <$> before), Some e).
Proof.
  intros Hb Hx. revert acc.
  induction before as [|y before IH]; intros acc; simpl.
  - by rewrite Hx, app_nil_r.
  - rewrite (Hb y) by left. rewrite IH.
    + by rewrite <- app_assoc.
    + intros z Hz. apply Hb. by right.
Qed.

Lemma append_each_ok {A B} (f : A → outcome B) (g : A → B)
    (xs : list A) (acc : list B) :
  (∀ y, y ∈ xs → f y = Ok (g y)) →
  append_each f xs acc = (acc ++ (g <$> xs), None).
Proof.
  revert acc. induction xs as [|y xs IH]; intros acc Hb; simpl.
  - by rewrite app_nil_r.
  - rewrite (Hb y) by left. rewrite IH.
    + by rewrite <- app_assoc.
    + intros z Hz. apply Hb. by right.
Qed.

End LoopFacts.

(** ** The dispatcher *)

Module ExtractFacts.
Import Py.

(** The three scripts carry the same dispatcher: [raw_text_2_utf8.py]
    is [files_2_text.py] verbatim, and [files_2_zip.py] differs in the
    text of one warning. *)
Lemma extract_raw_text (U : UnicodeData) (w : World) (imports : Imports)
    (filepath : text) :
  RawText2Utf8.extract_text_from_file U w imports filepath
  = Files2Text.extract_text_from_file U w imports filepath.
Proof. reflexivity. Qed.

Lemma extract_zip (U : UnicodeData) (w : World) (imports : Imports)
    (filepath : text) :
  let r := Files2Zip.extract_text_from_file U w imports filepath in
  let r' := Files2Text.extract_text_from_file U w imports filepath in
  r.1 = r'.1 ∧ log_level <$> r.2 = log_level <$> r'.2
  ∧ (lower U (PosixPath.splitext filepath).2 ∉ lit <$> [".ppt"; ".pptx"; ".odp"]
     → r = r').
Proof.
  unfold Files2Zip.extract_text_from_file, Files2Text.extract_text_from_file.
  cbv zeta.
  repeat case_bool_decide; try done.
Qed.

Section Readers.
Context (w : World).

Lemma read_plaintext_raise (filepath : text) (e : exn) :
  open_read w filepath = Raise e →
  Files2Text._read_plaintext w filepath
  = ([], [LogRecord ERROR "Error reading plaintext file %s: %s"
            [ArgStr filepath; ArgExn e]]).
Proof. unfold Files2Text._read_plaintext. by intros ->. Qed.

Lemma read_docx_raise (filepath : text) :
  (∃ e, docx_Document w filepath = Raise e)
  ∨ (∃ doc e, docx_Document w filepath = Ok doc ∧ Raise e ∈ doc) →
  ∃ e', Files2Text._read_docx w filepath
        = ([], [LogRecord ERROR "Error reading DOCX %s: %s"
                  [ArgStr filepath; ArgExn e']]).
Proof.
  unfold Files2Text._read_docx.
  intros [[e ->]|(doc & e & -> & Hin)]; simpl; [by eexists|].
  destruct (LoopFacts.collect_raise id doc _ e Hin eq_refl) as [e' ->].
  by eexists.
Qed.

Lemma read_odt_raise (filepath : text) :
  (∃ e, odf_load w filepath = Raise e)
  ∨ (∃ doc e, odf_load w filepath = Ok doc ∧ Raise e ∈ doc) →
  ∃ e', Files2Text._read_odt w filepath
        = ([], [LogRecord ERROR "Error reading ODT %s: %s"
                  [ArgStr filepath; ArgExn e']]).
Proof.
  unfold Files2Text._read_odt.
  intros [[e ->]|(doc & e & -> & Hin)]; simpl; [by eexists|].
  destruct (LoopFacts.collect_raise id doc _ e Hin eq_refl) as [e' ->].
  by eexists.
Qed.

Lemma read_excel_raise (filepath : text) :
  (∃ e, load_workbook w filepath = Raise e)
  ∨ (∃ wb name e, load_workbook w filepath = Ok wb
                  ∧ name ∈ sheetnames wb ∧ Raise e ∈ iter_rows wb name) →
  ∃ e', Files2Text._read_excel w filepath
        = ([], [LogRecord ERROR "Error reading Excel file %s: %s"
                  [ArgStr filepath; ArgExn e']]).
Proof.
  unfold Files2Text._read_excel.
  intros [[e ->]|(wb & name & e & -> & Hname & Hin)]; simpl; [by eexists|].
  destruct (LoopFacts.collect_raise
              (λ r, let! r := r in Ok (Files2Text.row_str r))
              (iter_rows wb name) _ e Hin eq_refl) as [e1 He1].
  destruct (LoopFacts.collect_raise
              (λ name, collect (λ r, let! r := r in Ok (Files2Text.row_str r))
                         (iter_rows wb name))
              (sheetnames wb) name e1 Hname He1) as [e' ->].
  by eexists.
Qed.

Lemma read_ipynb_raise (filepath : text) :
  (∃ e, open_read w filepath = Raise e)
  ∨ (∃ s e, open_read w filepath = Ok s ∧ json_loads w s = Raise e) →
  ∃ e', Files2Text._read_ipynb w filepath
        = ([], [LogRecord ERROR "Error reading IPYNB %s: %s"
                  [ArgStr filepath; ArgExn e']]).
Proof.
  unfold Files2Text._read_ipynb.
  intros [[e ->]|(s & e & -> & Hs)]; simpl; [by eexists|].
  rewrite Hs. by eexists.
Qed.

(** The two PDF readers keep the text of the pages read before the
    exception. *)
Lemma read_pdf_pymupdf_raise (filepath : text) (before : list text)
    (after : list (outcome text)) (e : exn) :
  fitz_open w filepath = Ok ((Ok <$> before) ++ Raise e :: after) →
  Files2Text._read_pdf_pymupdf w filepath
  = (join [LF] before,
     [LogRecord ERROR "Error reading PDF (PyMuPDF) %s: %s"
        [ArgStr filepath; ArgExn e]]).
Proof.
  unfold Files2Text._read_pdf_pymupdf. intros ->.
  rewrite (LoopFacts.append_each_raise id
             (λ o, match o with Ok t => t | Raise _ => [] end)
             (Ok <$> before) after (Raise e) e []).
  - simpl. rewrite <- list_fmap_compose.
    replace (_ <$> before) with before; [done|].
    induction before as [|t before IH]; [done|]. by rewrite fmap_cons, <- IH.
  - intros y [t [-> _]]%list_elem_of_fmap. done.
  - done.
Qed.

Lemma read_pdf_pypdf2_raise (filepath : text) (before : list (option text))
    (after : list (outcome (option text))) (e : exn) :
  PyPDF2_PdfReader w filepath = Ok ((Ok <$> before) ++ Raise e :: after) →
  Files2Text._read_pdf_pypdf2 w filepath
  = (join [LF] (default [] <$> before),
     [LogRecord ERROR "Error reading PDF (PyPDF2) %s: %s"
        [ArgStr filepath; ArgExn e]]).
Proof.
  unfold Files2Text._read_pdf_pypdf2. intros ->.
  rewrite (LoopFacts.append_each_raise
             (λ page, let! t := page in Ok (default [] t))
             (λ o, match o with Ok t => default [] t | Raise _ => [] end)
             (Ok <$> before) after (Raise e) e []).
  - simpl. rewrite <- list_fmap_compose. done.
  - intros y [t [-> _]]%list_elem_of_fmap. done.
  - done.
Qed.

(** A PDF that reads to the end gives the text of its pages, joined by
    newlines, and logs nothing. *)
Lemma read_pdf_pymupdf_ok (filepath : text) (pages : list text) :
  fitz_open w filepath = Ok (Ok <$> pages) →
  Files2Text._read_pdf_pymupdf w filepath = (join [LF] pages, []).
Proof.
  unfold Files2Text._read_pdf_pymupdf. intros ->.
  rewrite (LoopFacts.append_each_ok id
             (λ o, match o with Ok t => t | Raise _ => [] end)).
  - simpl. rewrite <- list_fmap_compose.
    replace (_ <$> pages) with pages; [done|].
    induction pages as [|t pages IH]; [done|]. by rewrite fmap_cons, <- IH.
  - intros y [t [-> _]]%list_elem_of_fmap. done.
Qed.

End Readers.
End ExtractFacts.

(** C3.  When the module a category needs was not imported,
    [extract_text_from_file] (of any of the three scripts) returns the
    empty string; it cannot raise, since it returns a string and a list of
    log records on every path.  For [.docx], for the spreadsheet
    extensions and for [.odt] nothing is logged; for [.pdf] with neither
    PyMuPDF nor PyPDF2 one warning is logged. *)
Theorem extract_missing_capability (U : UnicodeData) (w : World)
    (imports : Imports) (filepath : text)
    (extract : UnicodeData → World → Imports → text → text * list log_record) :
  extract ∈ [Files2Text.extract_text_from_file;
             Files2Zip.extract_text_from_file;
             RawText2Utf8.extract_text_from_file] →
  let ext := lower U (PosixPath.splitext filepath).2 in
  (ext = Py.lit ".docx" → docx imports = false →
     extract U w imports filepath = ([], []))
  ∧ (ext ∈ Py.lit <$> [".xlsx"; ".xls"; ".xlsm"; ".ods"] →
     openpyxl imports = false →
     extract U w imports filepath = ([], []))
  ∧ (ext = Py.lit ".odt" → odf imports = false →
     extract U w imports filepath = ([], []))
  ∧ (ext = Py.lit ".pdf" → fitz imports = false → PyPDF2 imports = false →
     extract U w imports filepath
     = ([], [LogRecord WARNING "No PDF library installed; cannot parse PDFs." []])).
Proof.
  intros Hex ext. unfold ext.
  assert (extract = Files2Text.extract_text_from_file
          ∨ extract = Files2Zip.extract_text_from_file) as [-> | ->].
  { repeat (apply elem_of_cons in Hex as [->|Hex]); auto.
    by apply elem_of_nil in Hex. }
  all: unfold Files2Text.extract_text_from_file,
         Files2Zip.extract_text_from_file; cbv zeta.
  all: repeat split.
  all: try (intros -> Hi; rewrite Hi; reflexivity).
  all: try (intros -> Hf Hp; rewrite Hf, Hp; reflexivity).
  all: intros He ->;
    repeat (apply elem_of_cons in He as [->|He]); try reflexivity;
    by apply elem_of_nil in He.
Qed.

Lemma extract_missing_capability_witness :
  Files2Zip.extract_text_from_file Sample.unicode Sample.world
    Sample.no_imports (Py.lit "root/Report.DOCX") = ([], [])
  ∧ RawText2Utf8.extract_text_from_file Sample.unicode Sample.world
      Sample.no_imports (Py.lit "root/sub/scan.PDF")
    = ([], [LogRecord WARNING "No PDF library installed; cannot parse PDFs." []]).
Proof.
  split.
  - refine (proj1 (extract_missing_capability Sample.unicode Sample.world
             Sample.no_imports (Py.lit "root/Report.DOCX")
             Files2Zip.extract_text_from_file _) _ _);
      [right; left | reflexivity | reflexivity].
  - refine (proj2 (proj2 (proj2 (extract_missing_capability Sample.unicode
             Sample.world Sample.no_imports (Py.lit "root/sub/scan.PDF")
             RawText2Utf8.extract_text_from_file _))) _ _ _);
      [right; right; left | reflexivity | reflexivity | reflexivity].
Defined.

(** ** The per-file step *)

Module StepFacts.

Lemma sanitized_empty (U : UnicodeData) (raw : text) :
  PosixPath.is_empty (Files2Zip.sanitize_text U raw)
  = PosixPath.is_empty (Py.strip (Files2Zip.sanitize_text U raw)).
Proof.
  rewrite SanitizerFacts.sanitize_text_unfold.
  by rewrite PyFacts.strip_idempotent.
Qed.

Lemma same_run_refl (st : state) : same_run st st.
Proof. done. Qed.

Section Steps.
Context (U : UnicodeData) (w : World) (imports : Imports)
        (filepath out_path : text) (st : state).

Lemma step_files_2_text :
  Files2Text.extract_and_write U w imports filepath out_path st
  = orchestrator_step false U w imports filepath out_path st.
Proof. reflexivity. Qed.

Lemma step_files_2_zip :
  same_run (Files2Zip.extract_and_write U w imports filepath out_path st)
    (orchestrator_step true U w imports filepath out_path st).
Proof.
  pose proof (ExtractFacts.extract_zip U w imports filepath) as (H1 & H2 & _).
  cbv zeta in H1, H2.
  unfold Files2Zip.extract_and_write, orchestrator_step.
  destruct (Files2Zip.extract_text_from_file U w imports filepath) as [t l].
  destruct (Files2Text.extract_text_from_file U w imports filepath) as [t' l'].
  simpl in H1, H2. subst t'. rewrite <- sanitized_empty.
  unfold same_run.
  repeat case_match; simpl; rewrite ?fmap_app, ?H2; done.
Qed.

Lemma step_raw_text_2_utf8 :
  same_run (RawText2Utf8.extract_and_write U w imports filepath out_path st)
    (orchestrator_step true U w imports filepath out_path st).
Proof.
  unfold RawText2Utf8.extract_and_write, orchestrator_step.
  change (RawText2Utf8.extract_text_from_file U w imports filepath)
    with (Files2Text.extract_text_from_file U w imports filepath).
  change (RawText2Utf8.sanitize_text U) with (Files2Zip.sanitize_text U).
  destruct (Files2Text.extract_text_from_file U w imports filepath) as [t l].
  rewrite <- sanitized_empty.
  unfold same_run.
  repeat case_match; simpl; rewrite ?fmap_app; done.
Qed.

End Steps.
End StepFacts.


(** C2.  The claim is that a parser exception always yields the empty
    string.  The other readers do return [""] from their handler
    ([ExtractFacts.read_plaintext_raise], [read_docx_raise],
    [read_odt_raise], [read_excel_raise], [read_ipynb_raise]), but the two
    PDF readers return the pages collected before the exception: on a PDF
    whose first page reads as "page one" and whose second page raises,
    [extract_text_from_file] of each script, with either engine, returns
    "page one" and logs the error. *)
Theorem pdf_exception_keeps_partial_text :
  let scan := Py.lit "root/sub/scan.pdf" in
  let pymupdf_error :=
    [LogRecord ERROR "Error reading PDF (PyMuPDF) %s: %s"
       [ArgStr scan; ArgExn Sample.page_error]] in
  let pypdf2_error :=
    [LogRecord ERROR "Error reading PDF (PyPDF2) %s: %s"
       [ArgStr scan; ArgExn Sample.page_error]] in
  fitz_open Sample.world scan = Ok [Ok (Py.lit "page one"); Raise Sample.page_error]
  ∧ Files2Text.extract_text_from_file Sample.unicode Sample.world
      Sample.all_imports scan = (Py.lit "page one", pymupdf_error)
  ∧ Files2Zip.extract_text_from_file Sample.unicode Sample.world
      Sample.all_imports scan = (Py.lit "page one", pymupdf_error)
  ∧ RawText2Utf8.extract_text_from_file Sample.unicode Sample.world
      Sample.all_imports scan = (Py.lit "page one", pymupdf_error)
  ∧ Files2Text.extract_text_from_file Sample.unicode Sample.world
      Sample.only_PyPDF2 scan = (Py.lit "page one", pypdf2_error)
  ∧ Files2Zip.extract_text_from_file Sample.unicode Sample.world
      Sample.only_PyPDF2 scan = (Py.lit "page one", pypdf2_error)
  ∧ RawText2Utf8.extract_text_from_file Sample.unicode Sample.world
      Sample.only_PyPDF2 scan = (Py.lit "page one", pypdf2_error).
Proof. repeat split; vm_compute; reflexivity. Qed.

(** C9.  The three scripts dispatch alike: for every path, database,
    environment and set of imported modules their
    [extract_text_from_file] return the same text and log at the same
    levels ([raw_text_2_utf8.py] and [files_2_text.py] agree on the log
    records too; [files_2_zip.py] words one warning differently).  Their
    per-file steps are the two instances of one orchestrator step:
    without sanitisation in [files_2_text.py], with it in the other
    two. *)
Theorem extract_text_from_file_duplicated (U : UnicodeData) (w : World)
    (imports : Imports) (filepath out_path : text) (st : state) :
  let a := Files2Text.extract_text_from_file U w imports filepath in
  let b := Files2Zip.extract_text_from_file U w imports filepath in
  let c := RawText2Utf8.extract_text_from_file U w imports filepath in
  (a.1 = b.1 ∧ b.1 = c.1)
  ∧ (log_level <$> a.2 = log_level <$> b.2 ∧ a.2 = c.2)
  ∧ same_run (Files2Text.extract_and_write U w imports filepath out_path st)
      (orchestrator_step false U w imports filepath out_path st)
  ∧ same_run (Files2Zip.extract_and_write U w imports filepath out_path st)
      (orchestrator_step true U w imports filepath out_path st)
  ∧ same_run (RawText2Utf8.extract_and_write U w imports filepath out_path st)
      (orchestrator_step true U w imports filepath out_path st).
Proof.
  intros a b c.
  pose proof (ExtractFacts.extract_zip U w imports filepath) as (H1 & H2 & _).
  cbv zeta in H1, H2. fold a b in H1, H2.
  assert (c = a) as Hc by reflexivity.
  split; [split; congruence|].
  split; [split; [congruence|by rewrite Hc]|].
  split; [rewrite StepFacts.step_files_2_text; apply StepFacts.same_run_refl|].
  split; [apply StepFacts.step_files_2_zip|apply StepFacts.step_raw_text_2_utf8].
Qed.

(** ** Spreadsheets and notebooks *)

Module ReaderFacts.
Import Py.

Lemma collect_Forall2 {A B} (f : A → outcome B) (xs : list A) (ys : list B) :
  Forall2 (λ x y, f x = Ok y) xs ys → collect f xs = Ok ys.
Proof.
  induction 1 as [|x y xs ys Hxy _ IH]; simpl; [done|].
  by rewrite Hxy; simpl; rewrite IH.
Qed.

Lemma collect_is_ok {A B} (f : A → outcome B) (xs : list A) :
  (∃ ys, collect f xs = Ok ys) ↔ Forall (λ x, ∃ y, f x = Ok y) xs.
Proof.
  induction xs as [|x xs IH]; simpl.
  - split; [constructor|by eexists].
  - split.
    + intros [ys H]. destruct (f x) as [y|e] eqn:Ex; [|done]. simpl in H.
      destruct (collect f xs) as [ys'|e] eqn:Ec; [|done].
      constructor; [by eexists|]. apply IH. by eexists.
    + intros H. apply Forall_cons in H as [[y Hy] H].
      apply IH in H as [ys Hys]. rewrite Hy. simpl. rewrite Hys. by eexists.
Qed.

Lemma join_empty_strs (frags : list text) :
  PyJson.join_empty (JArr (JStr <$> frags)) = Ok (concat frags).
Proof.
  unfold PyJson.join_empty. simpl.
  rewrite (collect_Forall2 PyJson.as_str (JStr <$> frags) frags); [done|].
  induction frags as [|t frags IH]; [constructor|].
  rewrite fmap_cons. by constructor.
Qed.

(** What [join_empty] accepts. *)
Lemma join_empty_is_ok (src : json) :
  (∃ t, PyJson.join_empty src = Ok t) ↔ joinable src = true.
Proof.
  unfold PyJson.join_empty.
  destruct src as [| | |s|items|members]; simpl;
    try (split; [by intros [? ?]|done]).
  - split; [done|intros _].
    rewrite (collect_Forall2 PyJson.as_str _ ((λ c, [c]) <$> s)); [by eexists|].
    induction s as [|c s IH]; [constructor|]. rewrite !fmap_cons. by constructor.
  - rewrite forallb_forall.
    split.
    + intros [t H]. destruct (collect PyJson.as_str items) as [strs|] eqn:E; [|done].
      assert (∃ ys, collect PyJson.as_str items = Ok ys) as Hok by eauto.
      apply collect_is_ok in Hok. rewrite Forall_forall in Hok.
      intros x Hx%list_elem_of_In. destruct (Hok x Hx) as [y Hy].
      by destruct x.
    + intros H.
      assert (∃ ys, collect PyJson.as_str items = Ok ys) as [ys ->].
      { apply collect_is_ok, Forall_forall. intros x Hx%list_elem_of_In.
        specialize (H x Hx). destruct x; try done. by eexists. }
      by eexists.
  - split; [done|intros _].
    rewrite (collect_Forall2 PyJson.as_str _ (fst <$> members)); [by eexists|].
    induction members as [|[k v] m IH]; [constructor|].
    rewrite !fmap_cons. by constructor.
Qed.

Lemma cell_text_is_ok (cell : json) :
  (∃ t, cell_text cell = Ok t) ↔ cell_shaped cell = true.
Proof.
  unfold cell_text.
  destruct cell as [| | |s|items|members]; simpl;
    try (split; [by intros [? ?]|done]).
  apply join_empty_is_ok.
Qed.

Lemma notebook_text_is_ok (data : json) :
  (∃ t, notebook_text data = Ok t) ↔ notebook_shaped data = true.
Proof.
  unfold notebook_text.
  destruct data as [| | |s|items|members]; simpl;
    try (split; [by intros [? ?]|done]).
  destruct (from_option id (JArr []) (PyJson.assoc (lit "cells") members))
    as [| | |s|cells|m]; simpl; try (split; [by intros [? ?]|done]).
  - destruct s as [|c s]; simpl; [split; [done|by eexists]|].
    split; [by intros [? ?]|done].
  - rewrite forallb_forall. split.
    + intros [t H]. destruct (collect cell_text cells) as [ys|] eqn:E; [|done].
      assert (∃ ys, collect cell_text cells = Ok ys) as Hok by eauto.
      apply collect_is_ok in Hok. rewrite Forall_forall in Hok.
      intros x Hx%list_elem_of_In. by apply cell_text_is_ok, Hok.
    + intros H.
      assert (∃ ys, collect cell_text cells = Ok ys) as [ys ->].
      { apply collect_is_ok, Forall_forall. intros x Hx%list_elem_of_In.
        by apply cell_text_is_ok, H. }
      by eexists.
  - destruct m as [|[k v] m]; simpl; [split; [done|by eexists]|].
    split; [by intros [? ?]|done].
Qed.

Lemma read_ipynb_unfold (w : World) (filepath : text) :
  Files2Text._read_ipynb w filepath
  = try_except
      (let! contents := open_read w filepath in
       let! data := json_loads w contents in
       notebook_text data)
      (λ e, ([], [LogRecord ERROR "Error reading IPYNB %s: %s"
                    [ArgStr filepath; ArgExn e]])).
Proof. reflexivity. Qed.

Lemma join_LF_empty (n : nat) :
  join [LF] (replicate n []) = replicate (n - 1) LF.
Proof.
  induction n as [|n IH]; [done|].
  destruct n as [|n]; [done|].
  change (replicate (S (S n)) []) with (([] : text) :: replicate (S n) []).
  change (join [LF] ([] :: replicate (S n) []))
    with ([] ++ [LF] ++ join [LF] (replicate (S n) [])).
  rewrite IH. simpl. by rewrite Nat.sub_0_r.
Qed.

End ReaderFacts.

Module SheetFacts.
Import Py.

Lemma collect_rows (rows : list row) :
  collect (λ r, let! r := r in Ok (Files2Text.row_str r)) (Ok <$> rows)
  = Ok (Files2Text.row_str <$> rows).
Proof.
  apply ReaderFacts.collect_Forall2.
  induction rows as [|r rows IH]; [constructor|].
  rewrite !fmap_cons. by constructor.
Qed.

Lemma concat_fmap_fmap {A B} (f : A → B) (ls : list (list A)) :
  concat (fmap (M:=list) f <$> ls) = f <$> concat ls.
Proof.
  induction ls as [|l ls IH]; [done|].
  rewrite fmap_cons. simpl. by rewrite IH, fmap_app.
Qed.

Lemma read_excel_ok (w : World) (filepath : text) (wb : workbook)
    (sheets : list (list row)) :
  load_workbook w filepath = Ok wb →
  Forall2 (λ name rows, iter_rows wb name = Ok <$> rows) (sheetnames wb) sheets →
  Files2Text._read_excel w filepath
  = (join [LF] (Files2Text.row_str <$> concat sheets), []).
Proof.
  intros Hload Hsheets. unfold Files2Text._read_excel. rewrite Hload. simpl.
  rewrite (ReaderFacts.collect_Forall2 _ _ (fmap (M:=list) Files2Text.row_str <$> sheets)).
  - simpl. by rewrite concat_fmap_fmap.
  - induction Hsheets as [|name rows names sheets Hrows _ IH]; [constructor|].
    rewrite fmap_cons. constructor; [|done].
    rewrite Hrows. apply collect_rows.
Qed.

End SheetFacts.

(** C7.  When [openpyxl] loads the workbook and every sheet yields all its
    rows, [_read_excel] visits the sheets in the order of [wb.sheetnames]
    and the rows of each sheet in order, renders a row as its cell values
    ([str] of the value, the empty string for [None]) joined by tabs, and
    joins the rows of all sheets by newlines; nothing is logged.  The
    dispatcher of each script returns this text for the spreadsheet
    extensions when [openpyxl] was imported.  The example of the
    specification, two sheets with the row [("a", None, "b")], is the
    instance that follows. *)
Theorem read_excel_rows (w : World) (filepath : text) (wb : workbook)
    (sheets : list (list row)) :
  load_workbook w filepath = Ok wb →
  Forall2 (λ name rows, iter_rows wb name = Ok <$> rows) (sheetnames wb) sheets →
  let rendered :=
    Py.join [Py.LF]
      ((λ r : row,
          Py.join [Py.TAB]
            ((λ x, match x with Some v => py_str v | None => [] end) <$> r))
       <$> concat sheets) in
  Files2Text._read_excel w filepath = (rendered, [])
  ∧ ∀ U imports,
      lower U (PosixPath.splitext filepath).2
        ∈ Py.lit <$> [".xlsx"; ".xls"; ".xlsm"; ".ods"] →
      openpyxl imports = true →
      Files2Text.extract_text_from_file U w imports filepath = (rendered, [])
      ∧ Files2Zip.extract_text_from_file U w imports filepath = (rendered, [])
      ∧ RawText2Utf8.extract_text_from_file U w imports filepath = (rendered, []).
Proof.
  intros Hload Hsheets rendered.
  pose proof (SheetFacts.read_excel_ok w filepath wb sheets Hload Hsheets) as H.
  split; [exact H|].
  intros U imports Hext Himp.
  unfold Files2Text.extract_text_from_file, Files2Zip.extract_text_from_file,
    RawText2Utf8.extract_text_from_file. cbv zeta. rewrite Himp.
  change (Files2Zip._read_excel w filepath) with (Files2Text._read_excel w filepath).
  change (RawText2Utf8._read_excel w filepath) with (Files2Text._read_excel w filepath).
  rewrite H.
  repeat (apply elem_of_cons in Hext as [->|Hext]); try done.
  by apply elem_of_nil in Hext.
Qed.

Lemma read_excel_rows_witness :
  load_workbook Sample.world (Py.lit "root/book.xlsx") = Ok Sample.two_sheets
  ∧ Files2Text._read_excel Sample.world (Py.lit "root/book.xlsx")
    = (Py.lit "a" ++ [Py.TAB; Py.TAB] ++ Py.lit "b" ++ [Py.LF]
       ++ Py.lit "a" ++ [Py.TAB; Py.TAB] ++ Py.lit "b", []).
Proof.
  split; [reflexivity|].
  refine (proj1 (read_excel_rows Sample.world (Py.lit "root/book.xlsx")
                   Sample.two_sheets
                   [[[Some (VStr (Py.lit "a")); None; Some (VStr (Py.lit "b"))]];
                    [[Some (VStr (Py.lit "a")); None; Some (VStr (Py.lit "b"))]]]
                   _ _)).
  - reflexivity.
  - repeat constructor.
Defined.

(** C8.  When the file reads and parses to an object whose ["cells"] is a
    list of objects, each with a ["source"] that is a list of strings,
    [_read_ipynb] visits the cells in order, concatenates the source
    fragments of a cell in order without separator, and joins the cell
    texts by newlines; nothing is logged.  The example of the
    specification is the instance that follows. *)
Theorem read_ipynb_cells (w : World) (filepath contents : text)
    (members : list (text * json)) (cells : list json)
    (fragments : list (list text)) :
  open_read w filepath = Ok contents →
  json_loads w contents = Ok (JObj members) →
  PyJson.assoc (Py.lit "cells") members = Some (JArr cells) →
  Forall2 (λ cell frags, ∃ cm, cell = JObj cm
             ∧ PyJson.assoc (Py.lit "source") cm = Some (JArr (JStr <$> frags)))
    cells fragments →
  Files2Text._read_ipynb w filepath
  = (Py.join [Py.LF] ((λ frags : list text, concat frags) <$> fragments), [])
  ∧ Files2Zip._read_ipynb w filepath = Files2Text._read_ipynb w filepath
  ∧ RawText2Utf8._read_ipynb w filepath = Files2Text._read_ipynb w filepath.
Proof.
  intros Hread Hparse Hcells Hshape.
  split; [|by split].
  rewrite ReaderFacts.read_ipynb_unfold, Hread. simpl. rewrite Hparse. simpl.
  unfold notebook_text. simpl. rewrite Hcells. simpl.
  rewrite (ReaderFacts.collect_Forall2 cell_text cells ((λ frags : list text, concat frags) <$> fragments));
    [done|].
  clear Hcells.
  induction Hshape as [|cell frags cells fragments (cm & -> & Hsrc) _ IH];
    [constructor|].
  rewrite fmap_cons. constructor; [|done].
  unfold cell_text. simpl. rewrite Hsrc. simpl.
  apply ReaderFacts.join_empty_strs.
Qed.

Lemma read_ipynb_cells_witness :
  open_read Sample.world (Py.lit "root/nb.ipynb") = Ok Sample.notebook_source
  ∧ Files2Text._read_ipynb Sample.world (Py.lit "root/nb.ipynb")
    = (Py.lit "print(1)" ++ [Py.LF] ++ Py.lit "x = 2" ++ [Py.LF] ++ Py.lit "y = 3",
       []).
Proof.
  split; [reflexivity|].
  refine (proj1 (read_ipynb_cells Sample.world (Py.lit "root/nb.ipynb")
                   Sample.notebook_source _ _
                   [[Py.lit "print(1)"]; [Py.lit "x = 2" ++ [Py.LF]; Py.lit "y = 3"]]
                   _ _ _ _)).
  - reflexivity.
  - reflexivity.
  - reflexivity.
  - repeat constructor; eexists; split; reflexivity.
Defined.

Module NotebookFacts.
Import Py.

Lemma collect_raise_inv {A B} (f : A → outcome B) (xs : list A) (e : exn) :
  collect f xs = Raise e → ∃ x, x ∈ xs ∧ f x = Raise e.
Proof.
  induction xs as [|x xs IH]; simpl; [done|].
  destruct (f x) as [y|e1] eqn:Ex; simpl.
  - destruct (collect f xs) as [ys|e2]; simpl; [done|].
    intros [= ->]. destruct (IH eq_refl) as (x' & Hx' & Hf).
    exists x'. split; [by right|done].
  - intros [= ->]. exists x. split; [left|done].
Qed.

(** The exceptions the notebook reader raises after a successful parse
    are the type errors of Python's dynamic typing. *)
Lemma notebook_text_raise (data : json) (e : exn) :
  notebook_text data = Raise e →
  exn_class e = "AttributeError"%string ∨ exn_class e = "TypeError"%string.
Proof.
  assert (∀ src e, PyJson.join_empty src = Raise e →
                   exn_class e = "TypeError"%string) as Hjoin.
  { intros src e1. unfold PyJson.join_empty.
    destruct (PyJson.iter src) as [items|e2] eqn:Ei; simpl.
    - destruct (collect PyJson.as_str items) as [strs|e2] eqn:Ec; simpl; [done|].
      intros [= ->]. apply collect_raise_inv in Ec as (x & _ & Hx).
      destruct x; simpl in Hx; by inversion Hx.
    - intros [= ->]. destruct src; simpl in Ei; by inversion Ei. }
  assert (∀ cell e, cell_text cell = Raise e →
                    exn_class e = "AttributeError"%string
                    ∨ exn_class e = "TypeError"%string) as Hcell.
  { intros cell e1. unfold cell_text.
    destruct cell; simpl; try (intros [= <-]; by left).
    intros H. right. by apply Hjoin in H. }
  unfold notebook_text.
  destruct data as [| | | | |members]; simpl; try (intros [= <-]; by left).
  destruct (from_option id (JArr []) (PyJson.assoc (lit "cells") members))
    as [| | |s|cells|m]; simpl; try (intros [= <-]; by right).
  - destruct (collect cell_text _) as [ys|e1] eqn:Ec; simpl; [done|].
    intros [= ->]. apply collect_raise_inv in Ec as (x & _ & Hx). eauto.
  - destruct (collect cell_text cells) as [ys|e1] eqn:Ec; simpl; [done|].
    intros [= ->]. apply collect_raise_inv in Ec as (x & _ & Hx). eauto.
  - destruct (collect cell_text _) as [ys|e1] eqn:Ec; simpl; [done|].
    intros [= ->]. apply collect_raise_inv in Ec as (x & _ & Hx). eauto.
Qed.

Lemma cells_without_source (cells : list json) :
  Forall (λ cell, ∃ cm, cell = JObj cm
                        ∧ PyJson.assoc (lit "source") cm = None) cells →
  collect cell_text cells = Ok (replicate (length cells) []).
Proof.
  induction 1 as [|cell cells (cm & -> & Hsrc) _ IH]; [done|].
  simpl. unfold cell_text at 1. simpl. rewrite Hsrc. simpl.
  by rewrite IH.
Qed.

End NotebookFacts.

(** C10, the claim as stated fails: [root/odd.ipynb] reads, and parses as
    the JSON object [{"cells": 1}], and still the reader takes the branch
    that logs an error, because iterating a number raises [TypeError]. *)
Lemma read_ipynb_error_without_parse_failure :
  let p := Py.lit "root/odd.ipynb" in
  open_read Sample.world p = Ok Sample.odd_notebook_source
  ∧ json_loads Sample.world Sample.odd_notebook_source
    = Ok (JObj [(Py.lit "cells", JNum (Py.lit "1"))])
  ∧ Files2Text._read_ipynb Sample.world p
    = ([], [LogRecord ERROR "Error reading IPYNB %s: %s"
              [ArgStr p; ArgExn (PyJson.TypeError "object is not iterable")]]).
Proof. repeat split. Qed.

(** C10, amended.  For every [.ipynb] file whose contents parse as a JSON
    object, a missing key never makes the reader fail: without ["cells"]
    the result is the empty string and nothing is logged; a cell without
    ["source"] has the empty cell text, so [n] such cells give [n - 1]
    newlines.  The branch that logs an error is taken, besides the
    failures to read or to parse ([ExtractFacts.read_ipynb_raise]),
    exactly when a value of the wrong JSON type sits at ["cells"], at a
    cell or at a ["source"]; the exception is then an [AttributeError] or
    a [TypeError]. *)
Theorem read_ipynb_missing_keys (w : World) (filepath contents : text)
    (members : list (text * json)) :
  open_read w filepath = Ok contents →
  json_loads w contents = Ok (JObj members) →
  let r := Files2Text._read_ipynb w filepath in
  (PyJson.assoc (Py.lit "cells") members = None → r = ([], []))
  ∧ (∀ cm, PyJson.assoc (Py.lit "source") cm = None →
           cell_text (JObj cm) = Ok [])
  ∧ (∀ cells,
       PyJson.assoc (Py.lit "cells") members = Some (JArr cells) →
       Forall (λ cell, ∃ cm, cell = JObj cm
                             ∧ PyJson.assoc (Py.lit "source") cm = None) cells →
       r = (replicate (length cells - 1) Py.LF, []))
  ∧ (notebook_shaped (JObj members) = true → r.2 = [])
  ∧ (notebook_shaped (JObj members) = false →
     ∃ e, r = ([], [LogRecord ERROR "Error reading IPYNB %s: %s"
                      [ArgStr filepath; ArgExn e]])
          ∧ (exn_class e = "AttributeError"%string
             ∨ exn_class e = "TypeError"%string))
  ∧ Files2Zip._read_ipynb w filepath = r
  ∧ RawText2Utf8._read_ipynb w filepath = r.
Proof.
  intros Hread Hparse r. subst r.
  assert (Files2Text._read_ipynb w filepath
          = try_except (notebook_text (JObj members))
              (λ e, ([], [LogRecord ERROR "Error reading IPYNB %s: %s"
                            [ArgStr filepath; ArgExn e]]))) as ->.
  { rewrite ReaderFacts.read_ipynb_unfold, Hread. simpl. by rewrite Hparse. }
  split; [|split; [|split; [|split; [|split; [|split]]]]].
  - intros Hcells. unfold notebook_text. simpl. by rewrite Hcells.
  - intros cm Hsrc. unfold cell_text. simpl. by rewrite Hsrc.
  - intros cells Hcells Hall. unfold notebook_text. simpl. rewrite Hcells. simpl.
    rewrite (NotebookFacts.cells_without_source cells Hall). simpl.
    by rewrite ReaderFacts.join_LF_empty.
  - intros Hshape. apply ReaderFacts.notebook_text_is_ok in Hshape as [t ->].
    done.
  - intros Hshape.
    destruct (notebook_text (JObj members)) as [t|e] eqn:E.
    + assert (notebook_shaped (JObj members) = true) as H
        by (apply ReaderFacts.notebook_text_is_ok; eauto).
      congruence.
    + exists e. split; [done|]. by apply (NotebookFacts.notebook_text_raise _ _ E).
  - unfold Files2Zip._read_ipynb. rewrite Hread. simpl. by rewrite Hparse.
  - unfold RawText2Utf8._read_ipynb. rewrite Hread. simpl. by rewrite Hparse.
Qed.

Lemma read_ipynb_missing_keys_witness :
  open_read Sample.world (Py.lit "root/odd.ipynb") = Ok Sample.odd_notebook_source
  ∧ ∃ e, Files2Text._read_ipynb Sample.world (Py.lit "root/odd.ipynb")
         = ([], [LogRecord ERROR "Error reading IPYNB %s: %s"
                   [ArgStr (Py.lit "root/odd.ipynb"); ArgExn e]])
         ∧ (exn_class e = "AttributeError"%string
            ∨ exn_class e = "TypeError"%string).
Proof.
  split; [reflexivity|].
  refine (proj1 (proj2 (proj2 (proj2 (proj2
            (read_ipynb_missing_keys Sample.world (Py.lit "root/odd.ipynb")
               Sample.odd_notebook_source
               [(Py.lit "cells", JNum (Py.lit "1"))] _ _))))) _);
    reflexivity.
Defined.

(** ** Files without text *)

Module SkipFacts.
Import Py.

Lemma join_step_nonempty (root file_name : text) :
  file_name ≠ [] → PosixPath.join root [file_name] ≠ [].
Proof.
  intros Hne. unfold PosixPath.join, PosixPath.join_step. cbn [fold_left].
  destruct (startswith file_name [PosixPath.sep]); [done|].
  destruct (_ || _); intros H; apply app_eq_nil in H as [_ H]; [done|].
  discriminate.
Qed.

Lemma relpath_ok (cwd path start : text) :
  path ≠ [] → ∃ rel, PosixPath.relpath cwd path start = Ok rel.
Proof.
  intros Hne. unfold PosixPath.relpath.
  destruct path as [|c path]; [done|]. simpl.
  destruct (_ ++ _); by eexists.
Qed.

Section Step.
Context (U : UnicodeData) (w : World) (imports : Imports)
        (input_dir output_dir : text) (max_file_size : N)
        (skip_hidden : bool).

Lemma out_path_ok (full_path : text) :
  full_path ≠ [] →
  ∃ out_path,
    Files2Text.out_path_of w input_dir output_dir full_path = Ok out_path.
Proof.
  intros Hne. unfold Files2Text.out_path_of.
  destruct (relpath_ok (getcwd w) full_path input_dir Hne) as [rel ->].
  by eexists.
Qed.

Lemma text_step_blank (full_path out_path : text) (st : state) :
  blank (Files2Text.extract_text_from_file U w imports full_path).1 = true →
  st_files (Files2Text.extract_and_write U w imports full_path out_path st)
  = st_files st.
Proof.
  unfold Files2Text.extract_and_write.
  destruct (Files2Text.extract_text_from_file U w imports full_path) as [t l].
  simpl. intros H. by rewrite (PyFacts.strip_blank t H).
Qed.

Lemma zip_step_blank (full_path out_path : text) (st : state) :
  blank (Files2Zip.sanitize_text U
           (Files2Zip.extract_text_from_file U w imports full_path).1) = true →
  st_files (Files2Zip.extract_and_write U w imports full_path out_path st)
  = st_files st.
Proof.
  unfold Files2Zip.extract_and_write.
  destruct (Files2Zip.extract_text_from_file U w imports full_path) as [t l].
  simpl. rewrite SanitizerFacts.sanitize_text_unfold. intros H.
  by rewrite (PyFacts.strip_blank_empty _ H).
Qed.

Lemma raw_step_blank (full_path out_path : text) (st : state) :
  blank (RawText2Utf8.sanitize_text U
           (RawText2Utf8.extract_text_from_file U w imports full_path).1) = true →
  st_files (RawText2Utf8.extract_and_write U w imports full_path out_path st)
  = st_files st.
Proof.
  unfold RawText2Utf8.extract_and_write.
  destruct (RawText2Utf8.extract_text_from_file U w imports full_path) as [t l].
  simpl. rewrite SanitizerFacts.sanitize_text_same,
    SanitizerFacts.sanitize_text_unfold. intros H.
  by rewrite (PyFacts.strip_blank_empty _ H).
Qed.

End Step.

(** [files_2_text.py] has no sanitiser and tests [text.strip()]: a file
    that holds a NUL character only, which [sanitize_text] would empty, is
    written there as it is, and skipped by the two other scripts. *)
Lemma text_step_keeps_control_characters :
  let nul := lit "root/nul.txt" in
  let out := lit "out/nul.txt" in
  Files2Zip.sanitize_text Sample.unicode
    (Files2Text.extract_text_from_file Sample.unicode Sample.world
       Sample.all_imports nul).1 = []
  ∧ st_files (Files2Text.extract_and_write Sample.unicode Sample.world
                Sample.all_imports nul out Sample.empty_state) !! out
    = Some [0%N]
  ∧ st_files (Files2Zip.extract_and_write Sample.unicode Sample.world
                Sample.all_imports nul out Sample.empty_state) !! out
    = None.
Proof. repeat split; by vm_compute. Qed.

End SkipFacts.

(** C6, the claim as stated fails, in two ways.
    (1) [files_2_text.py] does not sanitise, it tests [text.strip()] on
    the extracted text: [root/nul.txt] holds one NUL character, so its
    extracted-then-sanitised text is empty, yet the step of
    [files_2_text.py] writes [out/nul.txt] with the NUL in it.
    (2) [os.makedirs] is called before the extraction and outside any
    [try]: the text of [docs/locked/blank.txt] is white space only, but
    its output directory [out/locked] cannot be created, and the loop of
    [files_2_zip.py] over [blank.txt] and [memo.txt] ends with that
    exception instead of going on with [memo.txt]. *)
Lemma blank_text_written_or_run_ended :
  let extracted :=
    (Files2Text.extract_text_from_file Sample.unicode Sample.world
       Sample.all_imports (Py.lit "root/nul.txt")).1 in
  let blank_text :=
    (Files2Zip.extract_text_from_file Sample.unicode Office.world
       Sample.all_imports (Py.lit "docs/locked/blank.txt")).1 in
  extracted = [0%N]
  ∧ Files2Zip.sanitize_text Sample.unicode extracted = []
  ∧ (∃ st',
       Files2Text.process_file Sample.unicode Sample.world Sample.all_imports
         (Py.lit "root") (Py.lit "out") 5242880 true
         (Py.lit "root") (Py.lit "nul.txt") Sample.empty_state = Ok st'
       ∧ st_files st' !! Py.lit "out/nul.txt" = Some [0%N])
  ∧ blank_text = [Py.SPACE; Py.LF]
  ∧ blank (Files2Zip.sanitize_text Sample.unicode blank_text) = true
  ∧ makedirs Office.world (Py.lit "out/locked") = Office.EACCES
  ∧ Files2Zip.loop_files Sample.unicode Office.world Sample.all_imports
      (Py.lit "docs") (Py.lit "out") 5242880 true
      (Py.lit "docs/locked") [Py.lit "blank.txt"; Py.lit "memo.txt"]
      Sample.empty_state
    = Office.EACCES.
Proof.
  cbv zeta. split; [by vm_compute|]. split; [by vm_compute|]. split.
  - eexists. split; [vm_compute; reflexivity|]. by vm_compute.
  - split; [by vm_compute|]. split; [by vm_compute|].
    split; [reflexivity|]. by vm_compute.
Qed.

(** C6, amended.  A file whose text is empty or white space only, the
    text being the one the script is about to write (the sanitised text
    in [files_2_zip.py] and [raw_text_2_utf8.py]; the extracted text in
    [files_2_text.py], which does not sanitise), leaves the set of
    written files unchanged: no file is opened for writing, so no empty
    file appears.  Provided the directory of the output path can be
    created, the step returns normally and the loop goes on with the next
    file name. *)
Theorem blank_text_writes_nothing (U : UnicodeData) (w : World)
    (imports : Imports) (input_dir output_dir : text) (max_file_size : N)
    (skip_hidden : bool) (root file_name : text) (rest : list text)
    (st : state) :
  let full_path := PosixPath.join root [file_name] in
  file_name ≠ [] →
  (∀ out_path,
     Files2Text.out_path_of w input_dir output_dir full_path = Ok out_path →
     makedirs w (PosixPath.dirname out_path) = Ok ()) →
  (blank (Files2Zip.sanitize_text U
            (Files2Zip.extract_text_from_file U w imports full_path).1) = true →
   ∃ st',
     Files2Zip.process_file U w imports input_dir output_dir max_file_size
       skip_hidden root file_name st = Ok st'
     ∧ st_files st' = st_files st
     ∧ Files2Zip.loop_files U w imports input_dir output_dir max_file_size
         skip_hidden root (file_name :: rest) st
       = Files2Zip.loop_files U w imports input_dir output_dir max_file_size
           skip_hidden root rest st')
  ∧ (blank (RawText2Utf8.sanitize_text U
              (RawText2Utf8.extract_text_from_file U w imports full_path).1) = true →
     ∃ st',
       RawText2Utf8.process_file U w imports input_dir output_dir max_file_size
         skip_hidden root file_name st = Ok st'
       ∧ st_files st' = st_files st
       ∧ RawText2Utf8.loop_files U w imports input_dir output_dir max_file_size
           skip_hidden root (file_name :: rest) st
         = RawText2Utf8.loop_files U w imports input_dir output_dir
             max_file_size skip_hidden root rest st')
  ∧ (blank (Files2Text.extract_text_from_file U w imports full_path).1 = true →
     ∃ st',
       Files2Text.process_file U w imports input_dir output_dir max_file_size
         skip_hidden root file_name st = Ok st'
       ∧ st_files st' = st_files st
       ∧ Files2Text.loop_files U w imports input_dir output_dir max_file_size
           skip_hidden root (file_name :: rest) st
         = Files2Text.loop_files U w imports input_dir output_dir
             max_file_size skip_hidden root rest st').
Proof.
  intros full_path Hname Hmk.
  destruct (SkipFacts.out_path_ok w input_dir output_dir full_path
              (SkipFacts.join_step_nonempty root file_name Hname))
    as [out_path Hout].
  specialize (Hmk out_path Hout).
  split; [|split]; intros Hblank.
  - assert (∃ st', Files2Zip.process_file U w imports input_dir output_dir
                     max_file_size skip_hidden root file_name st = Ok st'
                   ∧ st_files st' = st_files st) as (st' & Hst & Hfiles).
    { unfold Files2Zip.process_file. fold full_path.
      destruct (skip_hidden && _); [by eexists|].
      destruct (negb _); [by eexists|].
      destruct (getsize w full_path) as [size|e]; [|by eexists].
      destruct (max_file_size <? size)%N; [by eexists|].
      change (Files2Zip.out_path_of w input_dir output_dir full_path)
        with (Files2Text.out_path_of w input_dir output_dir full_path).
      rewrite Hout. simpl. rewrite Hmk. simpl.
      eexists. split; [done|].
      by rewrite SkipFacts.zip_step_blank. }
    exists st'. split; [done|]. split; [done|]. simpl. by rewrite Hst.
  - assert (∃ st', RawText2Utf8.process_file U w imports input_dir output_dir
                     max_file_size skip_hidden root file_name st = Ok st'
                   ∧ st_files st' = st_files st) as (st' & Hst & Hfiles).
    { unfold RawText2Utf8.process_file. fold full_path.
      destruct (skip_hidden && _); [by eexists|].
      destruct (negb _); [by eexists|].
      destruct (getsize w full_path) as [size|e]; [|by eexists].
      destruct (max_file_size <? size)%N; [by eexists|].
      change (RawText2Utf8.out_path_of w input_dir output_dir full_path)
        with (Files2Text.out_path_of w input_dir output_dir full_path).
      rewrite Hout. simpl. rewrite Hmk. simpl.
      eexists. split; [done|].
      by rewrite SkipFacts.raw_step_blank. }
    exists st'. split; [done|]. split; [done|]. simpl. by rewrite Hst.
  - assert (∃ st', Files2Text.process_file U w imports input_dir output_dir
                     max_file_size skip_hidden root file_name st = Ok st'
                   ∧ st_files st' = st_files st) as (st' & Hst & Hfiles).
    { unfold Files2Text.process_file. fold full_path.
      destruct (skip_hidden && _); [by eexists|].
      destruct (negb _); [by eexists|].
      destruct (getsize w full_path) as [size|e]; [|by eexists].
      destruct (max_file_size <? size)%N; [by eexists|].
      rewrite Hout. simpl. rewrite Hmk. simpl.
      eexists. split; [done|].
      by rewrite SkipFacts.text_step_blank. }
    exists st'. split; [done|]. split; [done|]. simpl. by rewrite Hst.
Qed.

Lemma blank_text_writes_nothing_witness :
  Py.lit "blank.txt" ≠ []
  ∧ (∀ out_path, makedirs Sample.world (PosixPath.dirname out_path) = Ok ())
  ∧ ∃ st',
      Files2Zip.process_file Sample.unicode Sample.world Sample.all_imports
        (Py.lit "root") (Py.lit "out/") 5242880 true
        (Py.lit "root") (Py.lit "blank.txt") Sample.empty_state = Ok st'
      ∧ st_files st' = st_files Sample.empty_state
      ∧ Files2Zip.loop_files Sample.unicode Sample.world Sample.all_imports
          (Py.lit "root") (Py.lit "out/") 5242880 true
          (Py.lit "root") [Py.lit "blank.txt"; Py.lit "hello.txt"]
          Sample.empty_state
        = Files2Zip.loop_files Sample.unicode Sample.world Sample.all_imports
            (Py.lit "root") (Py.lit "out/") 5242880 true
            (Py.lit "root") [Py.lit "hello.txt"] st'.
Proof.
  split; [discriminate|]. split; [reflexivity|].
  refine (proj1 (blank_text_writes_nothing Sample.unicode Sample.world
                   Sample.all_imports (Py.lit "root") (Py.lit "out/") 5242880
                   true (Py.lit "root") (Py.lit "blank.txt")
                   [Py.lit "hello.txt"] Sample.empty_state _ _) _).
  - discriminate.
  - reflexivity.
  - vm_compute. reflexivity.
Defined.

(** ** Paths *)

Module PathFacts.
Import Py PosixPath.

Lemma startswith_1 (s : text) (c : char) :
  startswith s [c] = match s with x :: _ => (x =? c)%N | [] => false end.
Proof. destruct s; simpl; [done|apply andb_true_r]. Qed.

Lemma endswith_1 (s : text) (c : char) :
  endswith s [c] = match last s with Some x => (x =? c)%N | None => false end.
Proof.
  unfold endswith. change (reverse [c]) with [c].
  rewrite startswith_1, <- head_reverse. by destruct (reverse s).
Qed.

Lemma entry_name_no_slash (n : text) :
  entry_name n → startswith n [sep] = false.
Proof.
  intros (Hne & Hsep & _). rewrite startswith_1.
  destruct n as [|x n]; [done|].
  apply N.eqb_neq. intros ->. apply Hsep. left.
Qed.

Lemma entry_name_last (n : text) :
  entry_name n → ∃ x, last n = Some x ∧ x ≠ sep.
Proof.
  intros (Hne & Hsep & _).
  destruct (last n) as [x|] eqn:E.
  - exists x. split; [done|]. intros ->. apply Hsep.
    apply last_Some in E as [l ->]. rewrite elem_of_app. right. left.
  - by apply last_None in E.
Qed.

(** *** [split] and [join] *)

Lemma split_nonempty (c : char) (s : text) : ∃ w ws, split c s = w :: ws.
Proof.
  induction s as [|x s (w & ws & IH)]; simpl; [by eexists _, _|].
  destruct (x =? c)%N; [by eexists _, _|]. rewrite IH. by eexists _, _.
Qed.

Lemma split_app_sep (c : char) (a b : text) :
  split c (a ++ c :: b) = split c a ++ split c b.
Proof.
  induction a as [|x a IH]; simpl.
  - by rewrite N.eqb_refl.
  - destruct (x =? c)%N; [by rewrite IH|].
    rewrite IH. by destruct (split_nonempty c a) as (w & ws & ->).
Qed.

Lemma split_no_sep (c : char) (s : text) : c ∉ s → split c s = [s].
Proof.
  induction s as [|x s IH]; [done|]. intros H.
  apply not_elem_of_cons in H as [Hx Hs]. simpl.
  destruct (N.eqb_spec x c); [congruence|]. by rewrite IH.
Qed.

Lemma split_sep_free (c : char) (s : text) :
  Forall (λ w, c ∉ w) (split c s).
Proof.
  induction s as [|x s IH]; simpl.
  - repeat constructor. apply not_elem_of_nil.
  - destruct (N.eqb_spec x c).
    + constructor; [apply not_elem_of_nil|done].
    + destruct (split c s) as [|w ws].
      * constructor; [|constructor].
        apply not_elem_of_cons. split; [done|apply not_elem_of_nil].
      * apply Forall_cons in IH as [Hw Hws].
        constructor; [|done]. apply not_elem_of_cons. by split.
Qed.

Lemma split_join (c : char) (comps : list text) :
  comps ≠ [] → Forall (λ w, c ∉ w) comps → split c (Py.join [c] comps) = comps.
Proof.
  induction comps as [|w comps IH]; [done|]. intros _ H.
  apply Forall_cons in H as [Hw Hcomps].
  destruct comps as [|w' comps]; [simpl; by apply split_no_sep|].
  change (Py.join [c] (w :: w' :: comps)) with (w ++ c :: Py.join [c] (w' :: comps)).
  rewrite split_app_sep, split_no_sep by done. by rewrite IH.
Qed.

Lemma split_repeat (c : char) (k : nat) (s : text) :
  split c (repeat c k ++ s) = replicate k [] ++ split c s.
Proof.
  induction k as [|k IH]; [done|]. simpl. by rewrite N.eqb_refl, IH.
Qed.

Lemma filter_nonempty_replicate (k : nat) (l : list text) :
  filter (λ x, x ≠ []) (replicate k [] ++ l) = filter (λ x : text, x ≠ []) l.
Proof.
  induction k as [|k IH]; [done|]. simpl.
  rewrite filter_cons_False; [done|]. by intros H.
Qed.

Lemma filter_nonempty_id (l : list text) :
  Forall (λ x, x ≠ []) l → filter (λ x, x ≠ []) l = l.
Proof.
  induction 1 as [|x l Hx _ IH]; [done|].
  by rewrite filter_cons_True, IH.
Qed.

(** The components of a rendered absolute path. *)
Lemma components_rendered (k : nat) (comps : list text) :
  Forall (λ w, w ≠ [] ∧ sep ∉ w) comps →
  filter (λ x, x ≠ []) (split sep (repeat sep k ++ Py.join [sep] comps)) = comps.
Proof.
  intros H. rewrite split_repeat, filter_nonempty_replicate.
  destruct comps as [|w comps]; [done|].
  rewrite split_join; [|done|by eapply Forall_impl; [done|]; intros ? [? ?]].
  apply filter_nonempty_id. by eapply Forall_impl; [done|]; intros ? [? ?].
Qed.


(** *** [normpath] *)

Lemma norm_step_name (k : nat) (comps : list text) (n : text) :
  entry_name n → norm_step k comps n = comps ++ [n].
Proof.
  intros (Hne & _ & Hcur & Hpar). unfold norm_step.
  rewrite !bool_decide_eq_false_2 by done. done.
Qed.

Lemma Forall_removelast {A} (P : A → Prop) (l : list A) :
  Forall P l → Forall P (removelast l).
Proof.
  destruct l as [|x l _] using rev_ind; [done|].
  rewrite removelast_last. by intros [? _]%Forall_app.
Qed.

Lemma norm_comps_wf (k : nat) (comps acc : list text) :
  Forall (λ w, sep ∉ w) comps →
  Forall (λ w, w ≠ [] ∧ sep ∉ w) acc →
  Forall (λ w, w ≠ [] ∧ sep ∉ w) (fold_left (norm_step k) comps acc).
Proof.
  intros Hcomps. revert acc.
  induction Hcomps as [|comp comps Hc _ IH]; intros acc Hacc; [done|].
  simpl. apply IH. unfold norm_step.
  case_bool_decide as Hempty; simpl; [done|].
  case_bool_decide; simpl; [done|].
  destruct (_ || _ || _).
  - apply Forall_app. split; [done|]. by repeat constructor.
  - by apply Forall_removelast.
Qed.

Lemma normpath_abs (q : text) :
  isabs q = true →
  normpath q = repeat sep (initial_slashes q) ++ Py.join [sep] (kept_comps q)
  ∧ filter (λ x, x ≠ []) (split sep (normpath q)) = kept_comps q.
Proof.
  intros Habs.
  assert (normpath q
          = repeat sep (initial_slashes q) ++ Py.join [sep] (kept_comps q)) as H.
  { unfold normpath, kept_comps.
    destruct q as [|x q]; [done|]. cbn [is_empty].
    unfold initial_slashes at 3. unfold isabs in Habs. rewrite Habs.
    unfold initial_slashes. rewrite Habs.
    by destruct (_ && _). }
  split; [done|]. rewrite H. apply components_rendered.
  apply norm_comps_wf; [apply split_sep_free|done].
Qed.


(** *** [join] with the name of a directory entry *)

Lemma last_app_nonempty {A} (a b : list A) : b ≠ [] → last (a ++ b) = last b.
Proof.
  intros Hb. rewrite last_app. destruct (last b) eqn:E; [done|].
  by apply last_None in E.
Qed.

Lemma join_step_name (q n : text) :
  q ≠ [] → entry_name n →
  join_step q n = if endswith q [sep] then q ++ n else q ++ sep :: n.
Proof.
  intros Hq Hn. unfold join_step. rewrite (entry_name_no_slash n Hn).
  destruct q; [done|]. done.
Qed.

Lemma join_step_isabs (q n : text) :
  isabs q = true → entry_name n → isabs (join_step q n) = true.
Proof.
  intros Habs Hn. destruct q as [|x q]; [done|].
  rewrite join_step_name by done. unfold isabs in *.
  rewrite startswith_1 in *. by destruct (endswith _ _).
Qed.

Lemma join_step_slashes (q n : text) :
  isabs q = true → entry_name n →
  initial_slashes (join_step q n) = initial_slashes q.
Proof.
  intros Habs Hn. pose proof (entry_name_no_slash n Hn) as Hn0.
  rewrite startswith_1 in Hn0.
  destruct n as [|y n]; [by destruct Hn|].
  destruct q as [|a q]; [done|].
  rewrite join_step_name by done.
  unfold isabs in Habs. rewrite startswith_1 in Habs.
  apply N.eqb_eq in Habs as ->.
  rewrite endswith_1.
  destruct q as [|b q].
  { simpl. unfold initial_slashes. simpl. by rewrite Hn0. }
  destruct q as [|c q].
  { simpl. unfold initial_slashes. simpl.
    destruct (b =? sep)%N eqn:Hb; simpl; rewrite ?Hn0, ?Hb; done. }
  by destruct (match last _ with Some _ => _ | None => _ end).
Qed.

Lemma join_step_comps (q n : text) :
  isabs q = true → entry_name n →
  kept_comps (join_step q n) = kept_comps q ++ [n].
Proof.
  intros Habs Hn. unfold kept_comps.
  rewrite join_step_slashes by done.
  assert (q ≠ []) as Hq by (by destruct q).
  rewrite join_step_name by done.
  destruct Hn as (? & Hsep & ? & ?).
  rewrite endswith_1. destruct (last q) as [z|] eqn:Hlast;
    [destruct (N.eqb_spec z sep) as [->|Hz]|].
  - apply last_Some in Hlast as [q' ->].
    rewrite <- app_assoc. simpl.
    rewrite !split_app_sep, (split_no_sep sep n) by done.
    change (split sep []) with [[] : text].
    rewrite !fold_left_app. simpl. by rewrite norm_step_name.
  - rewrite split_app_sep, (split_no_sep sep n) by done.
    rewrite fold_left_app. simpl. by rewrite norm_step_name.
  - by apply last_None in Hlast.
Qed.

Lemma join_names_abs (q : text) (ns : list text) :
  isabs q = true → Forall entry_name ns →
  isabs (fold_left join_step ns q) = true
  ∧ initial_slashes (fold_left join_step ns q) = initial_slashes q
  ∧ kept_comps (fold_left join_step ns q) = kept_comps q ++ ns.
Proof.
  intros Habs Hns. revert q Habs.
  induction Hns as [|n ns Hn _ IH]; intros q Habs; simpl.
  - by rewrite app_nil_r.
  - destruct (IH (join_step q n)) as (H1 & H2 & H3);
      [by apply join_step_isabs|].
    rewrite H1, H2, H3, join_step_slashes, join_step_comps by done.
    by rewrite <- app_assoc.
Qed.

(** Making a path absolute commutes with appending a name. *)
Lemma absolute_join_step (cwd p n : text) :
  isabs cwd = true → entry_name n →
  (if isabs (join_step p n) then join_step p n
   else join_step cwd (join_step p n))
  = join_step (if isabs p then p else join_step cwd p) n.
Proof.
  intros Hcwd Hn.
  assert (cwd ≠ []) as Hcwd0 by (by destruct cwd).
  pose proof (entry_name_no_slash n Hn) as Hn0.
  destruct p as [|x p].
  - (* the empty path *)
    change (isabs []) with false. cbn iota.
    assert (join_step [] n = n) as ->.
    { unfold join_step. by rewrite Hn0. }
    unfold isabs. rewrite Hn0.
    assert (join_step cwd [] = if endswith cwd [sep] then cwd else cwd ++ [sep])
      as ->.
    { unfold join_step. simpl. destruct cwd; [done|]. simpl.
      destruct (endswith _ _); by rewrite ?app_nil_r. }
    rewrite (join_step_name cwd) by done.
    destruct (endswith cwd [sep]) eqn:E.
    + by rewrite join_step_name, E.
    + rewrite join_step_name; [|by destruct cwd|done].
      rewrite endswith_1, last_snoc, N.eqb_refl. by rewrite <- app_assoc.
  - rewrite (join_step_name (x :: p)) by done.
    assert (∀ X, isabs ((x :: p) ++ X) = isabs (x :: p)) as Hsame.
    { intros X. unfold isabs. by rewrite !startswith_1. }
    destruct (isabs (x :: p)) eqn:Habs.
    + destruct (endswith (x :: p) [sep]) eqn:E; rewrite Hsame;
        rewrite join_step_name, E by done; done.
    + assert (∀ X, join_step cwd ((x :: p) ++ X)
                   = join_step cwd (x :: p) ++ X) as Hjoin.
      { intros X. unfold join_step.
        unfold isabs in Habs. rewrite !startswith_1 in *. simpl.
        rewrite Habs. destruct (_ || _); by rewrite <- !app_assoc. }
      assert (join_step cwd (x :: p) ≠ []) as Hne.
      { unfold join_step. unfold isabs in Habs. rewrite Habs.
        destruct (_ || _); by destruct cwd. }
      assert (endswith (join_step cwd (x :: p)) [sep] = endswith (x :: p) [sep])
        as Hend.
      { rewrite !endswith_1. unfold join_step.
        unfold isabs in Habs. rewrite Habs.
        destruct (_ || _).
        - by rewrite last_app_nonempty.
        - by rewrite (last_app_nonempty cwd ([sep] ++ x :: p)),
            (last_app_nonempty [sep]). }
      rewrite (join_step_name (join_step cwd (x :: p))), Hend by done.
      destruct (endswith (x :: p) [sep]); rewrite Hsame, Hjoin; done.
Qed.


(** *** [relpath] of a file below the start directory *)

Lemma absolute_isabs (cwd p : text) :
  isabs cwd = true → isabs (absolute cwd p) = true.
Proof.
  intros Hcwd. unfold absolute. destruct (isabs p) eqn:E; [done|].
  unfold join_step. unfold isabs in E. rewrite E.
  destruct cwd as [|c cwd]; [done|].
  unfold isabs in *. rewrite startswith_1 in *. by destruct (_ || _).
Qed.

Lemma absolute_join_names (cwd p : text) (ns : list text) :
  isabs cwd = true → Forall entry_name ns →
  absolute cwd (fold_left join_step ns p)
  = fold_left join_step ns (absolute cwd p).
Proof.
  intros Hcwd Hns. revert p.
  induction Hns as [|n ns Hn _ IH]; intros p; [done|].
  simpl. rewrite IH. f_equal. by apply absolute_join_step.
Qed.

Lemma commonprefix_app (a b : list text) : commonprefix a (a ++ b) = a.
Proof.
  induction a as [|x a IH]; [by destruct b|].
  simpl. by rewrite bool_decide_eq_true_2, IH.
Qed.

Lemma join_names_fold (acc : text) (ns : list text) :
  (∃ x, last acc = Some x ∧ x ≠ sep) → Forall entry_name ns →
  fold_left join_step ns acc = acc ++ concat ((λ n, sep :: n) <$> ns).
Proof.
  intros Hacc Hns. revert acc Hacc.
  induction Hns as [|n ns Hn _ IH]; intros acc (x & Hlast & Hx).
  - by rewrite app_nil_r.
  - simpl. rewrite join_step_name; [|by destruct acc|done].
    rewrite endswith_1, Hlast.
    destruct (N.eqb_spec x sep); [done|].
    rewrite IH.
    + by rewrite <- app_assoc.
    + destruct (entry_name_last n Hn) as (y & Hy & Hne).
      exists y. split; [|done].
      rewrite (last_app_nonempty acc (sep :: n)) by done.
      change (sep :: n) with ([sep] ++ n).
      by rewrite (last_app_nonempty [sep] n) by (by destruct Hn).
Qed.

Lemma py_join_cons (a : text) (ns : list text) :
  Py.join [sep] (a :: ns) = a ++ concat ((λ n, sep :: n) <$> ns).
Proof.
  revert a. induction ns as [|n ns IH]; intros a; simpl; [by rewrite app_nil_r|].
  by rewrite <- IH.
Qed.

(** [join] applied to entry names gives the names joined by slashes. *)
Lemma join_names (a : text) (ns : list text) :
  Forall entry_name (a :: ns) → join a ns = Py.join [sep] (a :: ns).
Proof.
  intros [Ha Hns]%Forall_cons. unfold join.
  rewrite py_join_cons. apply join_names_fold; [|done].
  by apply entry_name_last.
Qed.

Lemma relpath_below (cwd start : text) (ns : list text) :
  isabs cwd = true → ns ≠ [] → Forall entry_name ns →
  relpath cwd (fold_left join_step ns start) start = Ok (Py.join [sep] ns).
Proof.
  intros Hcwd Hne Hns. unfold relpath.
  assert (fold_left join_step ns start ≠ []) as Hpath.
  { destruct ns as [|n ns _] using rev_ind; [done|].
    rewrite fold_left_app. simpl. apply Forall_app in Hns as [_ Hn].
    apply Forall_cons in Hn as [Hn _].
    unfold join_step. rewrite (entry_name_no_slash n Hn).
    destruct Hn as [Hn _].
    destruct (_ || _); intros H; apply app_eq_nil in H as [_ H]; [done|].
    discriminate. }
  destruct (fold_left join_step ns start) as [|c path] eqn:Epath; [done|].
  cbn [is_empty]. rewrite <- Epath. clear c path Epath Hpath.
  unfold abspath. change (join cwd [?p]) with (join_step cwd p).
  change (if isabs ?p then ?p else join_step cwd ?p) with (absolute cwd p).
  rewrite absolute_join_names by done.
  pose proof (absolute_isabs cwd start Hcwd) as Habs.
  destruct (join_names_abs (absolute cwd start) ns Habs Hns) as (H1 & H2 & H3).
  destruct (normpath_abs _ Habs) as [_ ->].
  destruct (normpath_abs _ H1) as [_ ->].
  rewrite H3, commonprefix_app, Nat.sub_diag, drop_app_length. simpl.
  destruct ns as [|a ns]; [done|].
  by rewrite join_names.
Qed.


(** *** [splitext] *)

Lemma rfind_range (c : char) (s : text) :
  (-1 ≤ rfind c s < Z.of_nat (length s))%Z.
Proof.
  induction s as [|x s IH]; simpl; [lia|].
  destruct (Z.leb_spec 0 (rfind c s)); [lia|].
  destruct (x =? c)%N; lia.
Qed.

Lemma rfind_app (c : char) (a b : text) :
  rfind c (a ++ b)
  = if (0 <=? rfind c b)%Z then (Z.of_nat (length a) + rfind c b)%Z else rfind c a.
Proof.
  induction a as [|x a IH]; simpl.
  - pose proof (rfind_range c b). destruct (Z.leb_spec 0 (rfind c b)); lia.
  - rewrite IH. destruct (Z.leb_spec 0 (rfind c b)).
    + destruct (Z.leb_spec 0 (Z.of_nat (length a) + rfind c b)); lia.
    + done.
Qed.

Lemma rfind_not_in (c : char) (s : text) : c ∉ s → rfind c s = (-1)%Z.
Proof.
  induction s as [|x s IH]; [done|].
  intros [Hx Hs]%not_elem_of_cons. simpl. rewrite IH by done. simpl.
  destruct (N.eqb_spec x c); congruence.
Qed.

Lemma rfind_last (c : char) (s : text) :
  last s = Some c → rfind c s = (Z.of_nat (length s) - 1)%Z.
Proof.
  intros [s' ->]%last_Some. rewrite rfind_app. simpl.
  rewrite N.eqb_refl, length_app. simpl. lia.
Qed.

Lemma splitext_concat (p : text) : (splitext p).1 ++ (splitext p).2 = p.
Proof.
  unfold splitext. destruct (_ <? _)%Z; [|apply app_nil_r].
  destruct (forallb _ _); [apply app_nil_r|]. apply take_drop.
Qed.

(** The extension of a path is the extension of its last component. *)
Lemma splitext_prefix (pre name : text) :
  sep ∉ name → pre = [] ∨ last pre = Some sep →
  splitext (pre ++ name) = (pre ++ (splitext name).1, (splitext name).2).
Proof.
  intros Hname Hpre.
  assert (rfind sep (pre ++ name) = (Z.of_nat (length pre) - 1)%Z) as Hsep.
  { rewrite rfind_app, (rfind_not_in sep name) by done. simpl.
    destruct Hpre as [->|Hlast]; [done|by apply rfind_last]. }
  unfold splitext. rewrite Hsep, (rfind_not_in sep name), rfind_app by done.
  pose proof (rfind_range extsep name) as Hd.
  pose proof (rfind_range extsep pre) as Hp.
  destruct (Z.leb_spec 0 (rfind extsep name)) as [Hdot|Hdot].
  - destruct (Z.ltb_spec (Z.of_nat (length pre) - 1)
                (Z.of_nat (length pre) + rfind extsep name));
      [|lia].
    destruct (Z.ltb_spec (-1) (rfind extsep name)); [|lia].
    assert (slice (Z.of_nat (length pre) - 1 + 1)
              (Z.of_nat (length pre) + rfind extsep name)
              (pre ++ name)
            = slice (-1 + 1) (rfind extsep name) name) as ->.
    { unfold slice, upto, from.
      replace (Z.to_nat (Z.of_nat (length pre) - 1 + 1)) with (length pre) by lia.
      rewrite drop_app_length. simpl.
      by replace (Z.of_nat (length pre) + rfind extsep name
                  - (Z.of_nat (length pre) - 1 + 1))%Z
        with (rfind extsep name - 0)%Z by lia. }
    destruct (forallb _ _); [done|].
    unfold upto, from.
    replace (Z.to_nat (Z.of_nat (length pre) + rfind extsep name))
      with (length pre + Z.to_nat (rfind extsep name)) by lia.
    by rewrite take_app_add, drop_app_add.
  - destruct (Z.ltb_spec (Z.of_nat (length pre) - 1) (rfind extsep pre)); [lia|].
    destruct (Z.ltb_spec (-1) (rfind extsep name)); [lia|]. done.
Qed.

Lemma py_join_cons_nonempty (d : text) (l : list text) :
  l ≠ [] → Py.join [sep] (d :: l) = d ++ sep :: Py.join [sep] l.
Proof. by destruct l. Qed.

Lemma py_join_snoc (ds : list text) (x : text) :
  Py.join [sep] (ds ++ [x]) = concat ((λ d, d ++ [sep]) <$> ds) ++ x.
Proof.
  induction ds as [|d ds IH]; [done|].
  change ((d :: ds) ++ [x]) with (d :: (ds ++ [x])).
  rewrite py_join_cons_nonempty by (by destruct ds).
  rewrite IH, fmap_cons. simpl. by rewrite <- !app_assoc.
Qed.

Lemma dirs_prefix_last (ds : list text) :
  concat ((λ d, d ++ [sep]) <$> ds) = []
  ∨ last (concat ((λ d, d ++ [sep]) <$> ds)) = Some sep.
Proof.
  destruct ds as [|d ds _] using rev_ind; [by left|right].
  rewrite fmap_app, concat_app. simpl. rewrite app_nil_r, !app_assoc.
  apply last_snoc.
Qed.

End PathFacts.

(** ** The walk *)

Module WalkFacts.
Import Py.

#[local] Arguments Py.startswith : simpl never.
#[local] Arguments Py.lit : simpl never.
#[local] Arguments PosixPath.join : simpl never.

Lemma tree_rect' (P : tree → Prop) :
  (∀ subdirs files, Forall (λ ds, P ds.2) subdirs → P (Dir subdirs files)) →
  ∀ t, P t.
Proof.
  intros H. fix IH 1. intros [subdirs files]. apply H.
  induction subdirs as [|[d sub] l IHl]; constructor; [apply IH|apply IHl].
Qed.

Lemma for_each_app {A} (body : A → state → outcome state) (xs ys : list A)
    (st : state) :
  for_each body (xs ++ ys) st
  = let! st := for_each body xs st in for_each body ys st.
Proof.
  revert st. induction xs as [|x xs IH]; intros st; [done|].
  simpl. destruct (body x st); simpl; [apply IH|done].
Qed.

(** Every file the walk reports lies below [top], under a chain of
    properly named directories. *)
Lemma walk_files_below (skip_hidden : bool) (t : tree) :
  ∀ top root file_name,
    tree_names t →
    (root, file_name) ∈ walk_files skip_hidden top t →
    entry_name file_name
    ∧ ∃ dirs, Forall entry_name dirs
              ∧ root = fold_left PosixPath.join_step dirs top.
Proof.
  induction t as [subdirs files IH] using tree_rect'.
  intros top root file_name [Hfiles Hdirs] Hin. simpl in Hin.
  apply elem_of_app in Hin as [Hin|Hin].
  - apply list_elem_of_fmap in Hin as (f & [= -> ->] & Hf).
    split; [by eapply Forall_forall|]. by exists [].
  - clear Hfiles. revert IH Hdirs Hin.
    induction subdirs as [|[d sub] subdirs IHs]; intros IH Hdirs Hin;
      [by apply elem_of_nil in Hin|].
    apply Forall_cons in IH as [IHsub IH].
    destruct Hdirs as (Hd & Hsub & Hrest).
    simpl in Hin. destruct (skip_hidden && startswith d (lit ".")).
    + by apply IHs.
    + apply elem_of_app in Hin as [Hin|Hin]; [|by apply IHs].
      destruct (IHsub _ _ _ Hsub Hin) as (Hf & dirs & Hdirs' & ->).
      split; [done|]. exists (d :: dirs). split; [by constructor|done].
Qed.

Section Walks.
Context (U : UnicodeData) (w : World) (imports : Imports)
        (input_dir output_dir : text) (max_file_size : N) (skip_hidden : bool).

Ltac walk_as_for_each loop_lemma :=
  let IH := fresh "IH" in
  let IHs := fresh "IHs" in
  let IHsub := fresh "IHsub" in
  intros t; induction t as [subdirs files IH] using tree_rect';
  intros top st; simpl;
  rewrite for_each_app, loop_lemma;
  destruct (for_each _ (_ <$> files) st) as [st'|]; [|done];
  simpl; clear st; revert st' IH;
  induction subdirs as [|[d sub] subdirs IHs]; intros st IH; [done|];
  apply Forall_cons in IH as [IHsub IH]; simpl in IHsub;
  destruct (skip_hidden && startswith d (lit "."));
  [by apply IHs|];
  rewrite for_each_app, <- IHsub;
  match goal with
  | |- context [bind ?m _] => destruct m; simpl; [by apply IHs|done]
  end.

Lemma text_loop_files (root : text) (files : list text) (st : state) :
  Files2Text.loop_files U w imports input_dir output_dir max_file_size
    skip_hidden root files st
  = for_each (λ rf, Files2Text.process_file U w imports input_dir output_dir
                      max_file_size skip_hidden rf.1 rf.2)
      ((λ file_name, (root, file_name)) <$> files) st.
Proof.
  revert st. induction files as [|f files IH]; intros st; [done|].
  simpl. destruct (Files2Text.process_file _ _ _ _ _ _ _ _ _ _); simpl; [apply IH|done].
Qed.

Lemma zip_loop_files (root : text) (files : list text) (st : state) :
  Files2Zip.loop_files U w imports input_dir output_dir max_file_size
    skip_hidden root files st
  = for_each (λ rf, Files2Zip.process_file U w imports input_dir output_dir
                      max_file_size skip_hidden rf.1 rf.2)
      ((λ file_name, (root, file_name)) <$> files) st.
Proof.
  revert st. induction files as [|f files IH]; intros st; [done|].
  simpl. destruct (Files2Zip.process_file _ _ _ _ _ _ _ _ _ _); simpl; [apply IH|done].
Qed.

Lemma raw_loop_files (root : text) (files : list text) (st : state) :
  RawText2Utf8.loop_files U w imports input_dir output_dir max_file_size
    skip_hidden root files st
  = for_each (λ rf, RawText2Utf8.process_file U w imports input_dir output_dir
                      max_file_size skip_hidden rf.1 rf.2)
      ((λ file_name, (root, file_name)) <$> files) st.
Proof.
  revert st. induction files as [|f files IH]; intros st; [done|].
  simpl. destruct (RawText2Utf8.process_file _ _ _ _ _ _ _ _ _ _); simpl; [apply IH|done].
Qed.

(** The walk of each script runs the per-file step on the files
    [os.walk] reports, in order. *)
Lemma text_walk : ∀ (t : tree) (top : text) (st : state),
  Files2Text.walk U w imports input_dir output_dir max_file_size skip_hidden
    top t st
  = for_each (λ rf, Files2Text.process_file U w imports input_dir output_dir
                      max_file_size skip_hidden rf.1 rf.2)
      (walk_files skip_hidden top t) st.
Proof. walk_as_for_each text_loop_files. Qed.

Lemma zip_walk : ∀ (t : tree) (top : text) (st : state),
  Files2Zip.walk U w imports input_dir output_dir max_file_size skip_hidden
    top t st
  = for_each (λ rf, Files2Zip.process_file U w imports input_dir output_dir
                      max_file_size skip_hidden rf.1 rf.2)
      (walk_files skip_hidden top t) st.
Proof. walk_as_for_each zip_loop_files. Qed.

Lemma raw_walk : ∀ (t : tree) (top : text) (st : state),
  RawText2Utf8.walk U w imports input_dir output_dir max_file_size skip_hidden
    top t st
  = for_each (λ rf, RawText2Utf8.process_file U w imports input_dir output_dir
                      max_file_size skip_hidden rf.1 rf.2)
      (walk_files skip_hidden top t) st.
Proof. walk_as_for_each raw_loop_files. Qed.

End Walks.
End WalkFacts.

(** ** The output path *)

Module OutputFacts.

Section OutPath.
Context (w : World) (input_dir output_dir : text) (dirs : list text)
        (file_name : text).
Context (Hcwd : PosixPath.isabs (getcwd w) = true)
        (Hdirs : Forall entry_name dirs) (Hfile : entry_name file_name).

(** The path of the file as the walk builds it. *)
Lemma full_path_names :
  PosixPath.join (fold_left PosixPath.join_step dirs input_dir) [file_name]
  = fold_left PosixPath.join_step (dirs ++ [file_name]) input_dir.
Proof. by rewrite fold_left_app. Qed.

(** Stripping the input root leaves the directories and the file name. *)
Lemma rel_path_below :
  PosixPath.relpath (getcwd w)
    (PosixPath.join (fold_left PosixPath.join_step dirs input_dir) [file_name])
    input_dir
  = Ok (Py.join [PosixPath.sep] (dirs ++ [file_name])).
Proof.
  rewrite full_path_names.
  apply PathFacts.relpath_below; [done|by destruct dirs|].
  apply Forall_app. split; [done|]. constructor; [done|constructor].
Qed.

(** The base name of a directory entry is not empty. *)
Lemma base_name_nonempty : (PosixPath.splitext file_name).1 ≠ [].
Proof.
  intros Eb. destruct Hfile as (Hne & Hsep & _).
  unfold PosixPath.splitext in Eb.
  destruct (_ <? _)%Z eqn:E1; [|done].
  destruct (forallb _ _) eqn:E2; [done|].
  simpl in Eb. unfold Py.upto in Eb.
  unfold Py.slice, Py.upto, Py.from in E2.
  rewrite (PathFacts.rfind_not_in PosixPath.sep file_name) in E2 by done.
  simpl in E2. rewrite drop_0, Z.sub_0_r in E2.
  by rewrite Eb in E2.
Qed.

(** The relative output path does not start with a slash, so joining it
    to the output directory keeps the output directory. *)
Lemma txt_rel_path_relative (suffix : text) :
  Py.startswith
    (Py.join [PosixPath.sep] (dirs ++ [(PosixPath.splitext file_name).1])
     ++ suffix) [PosixPath.sep] = false.
Proof.
  rewrite PathFacts.py_join_snoc, PathFacts.startswith_1.
  destruct dirs as [|d ds].
  - simpl. pose proof base_name_nonempty as Hb.
    destruct ((PosixPath.splitext file_name).1) as [|x b] eqn:Eb; [done|].
    simpl. apply N.eqb_neq. intros ->.
    destruct Hfile as (_ & Hsep & _). apply Hsep.
    rewrite <- (PathFacts.splitext_concat file_name), Eb. left.
  - apply Forall_cons in Hdirs as [Hd _].
    pose proof (PathFacts.entry_name_no_slash d Hd) as H0.
    rewrite PathFacts.startswith_1 in H0.
    destruct d as [|x d]; [by destruct Hd|]. done.
Qed.

(** Dropping the extension of the relative path drops that of the file
    name. *)
Lemma base_name_below :
  (PosixPath.splitext (Py.join [PosixPath.sep] (dirs ++ [file_name]))).1
  = Py.join [PosixPath.sep] (dirs ++ [(PosixPath.splitext file_name).1]).
Proof.
  rewrite !PathFacts.py_join_snoc, PathFacts.splitext_prefix;
    [done|by destruct Hfile as (_ & ? & _)|apply PathFacts.dirs_prefix_last].
Qed.

End OutPath.

(** The output path of every file the walk of a well-named tree reports. *)
Lemma walked_out_path (w : World) (input_dir output_dir : text)
    (skip_hidden : bool) (t : tree) (root file_name : text) :
  PosixPath.isabs (getcwd w) = true →
  tree_names t →
  (root, file_name) ∈ walk_files skip_hidden input_dir t →
  ∃ dirs,
    root = fold_left PosixPath.join_step dirs input_dir
    ∧ Files2Text.out_path_of w input_dir output_dir
        (PosixPath.join root [file_name])
      = Ok (PosixPath.join output_dir
              [Py.join [PosixPath.sep] (dirs ++ [(PosixPath.splitext file_name).1])
               ++ Py.lit ".txt"]).
Proof.
  intros Hcwd Ht Hin.
  destruct (WalkFacts.walk_files_below skip_hidden t _ _ _ Ht Hin)
    as (Hf & dirs & Hdirs & ->).
  exists dirs. split; [done|].
  unfold Files2Text.out_path_of.
  rewrite rel_path_below by done. cbn [bind].
  by rewrite base_name_below.
Qed.

End OutputFacts.

(** C5.  For a file [file_name] that [os.walk] finds in the directory
    reached from [input_dir] through the sub-directories [dirs], the
    output path is [output_dir] joined with the same sub-directories, the
    file name without its extension, and [.txt]: the relative path is
    obtained by stripping the input root, [splitext] drops the extension
    whatever its case (no case is inspected), [.txt] is appended, and the
    result is re-rooted under the output directory.  Directory names and
    base name are carried over unchanged.  The files the walk of a script
    processes are of this kind ([WalkFacts.text_walk],
    [WalkFacts.walk_files_below], [OutputFacts.walked_out_path]).  The
    example of the specification, [root/sub/doc.PDF] with output root
    [out/], is the instance that follows. *)
Theorem output_path_mirrors_input (w : World) (input_dir output_dir : text)
    (dirs : list text) (file_name : text) :
  PosixPath.isabs (getcwd w) = true →
  Forall entry_name dirs →
  entry_name file_name →
  let root := fold_left PosixPath.join_step dirs input_dir in
  let full_path := PosixPath.join root [file_name] in
  let base := (PosixPath.splitext file_name).1 in
  let ext := (PosixPath.splitext file_name).2 in
  let txt_rel_path :=
    Py.join [PosixPath.sep] (dirs ++ [base]) ++ Py.lit ".txt" in
  let out_path :=
    if PosixPath.is_empty output_dir || Py.endswith output_dir [PosixPath.sep]
    then output_dir ++ txt_rel_path
    else output_dir ++ [PosixPath.sep] ++ txt_rel_path in
  base ++ ext = file_name
  ∧ PosixPath.relpath (getcwd w) full_path input_dir
    = Ok (Py.join [PosixPath.sep] (dirs ++ [file_name]))
  ∧ Files2Text.out_path_of w input_dir output_dir full_path = Ok out_path
  ∧ Files2Zip.out_path_of w input_dir output_dir full_path = Ok out_path
  ∧ RawText2Utf8.out_path_of w input_dir output_dir full_path = Ok out_path.
Proof.
  intros Hcwd Hdirs Hfile root full_path base ext txt_rel_path out_path.
  pose proof (OutputFacts.rel_path_below w input_dir dirs file_name
                Hcwd Hdirs Hfile) as Hrel.
  fold root full_path in Hrel.
  assert (Files2Text.out_path_of w input_dir output_dir full_path = Ok out_path)
    as Hout.
  { unfold Files2Text.out_path_of. rewrite Hrel. cbn [bind].
    rewrite OutputFacts.base_name_below by done.
    fold base txt_rel_path.
    unfold PosixPath.join. cbn [fold_left]. unfold PosixPath.join_step.
    unfold txt_rel_path, base.
    by rewrite OutputFacts.txt_rel_path_relative. }
  split; [apply PathFacts.splitext_concat|].
  split; [exact Hrel|].
  split; [exact Hout|].
  split; exact Hout.
Qed.

Lemma output_path_mirrors_input_witness :
  PosixPath.isabs (getcwd Sample.world) = true
  ∧ Files2Zip.out_path_of Sample.world (Py.lit "root") (Py.lit "out/")
      (Py.lit "root/sub/doc.PDF")
    = Ok (Py.lit "out/sub/doc.txt").
Proof.
  split; [reflexivity|].
  refine (proj1 (proj2 (proj2 (proj2
            (output_path_mirrors_input Sample.world (Py.lit "root")
               (Py.lit "out/") [Py.lit "sub"] (Py.lit "doc.PDF") _ _ _))))).
  - reflexivity.
  - constructor; [|constructor]. unfold entry_name.
    apply (bool_decide_unpack _). by vm_compute.
  - unfold entry_name. apply (bool_decide_unpack _). by vm_compute.
Defined.

(** * Further properties of the code *)

(** ** The sanitiser *)

Module SanitizerMore.
Import Py.

Lemma blank_cleaned (U : UnicodeData) (s : text) :
  forallb isspace (cleaned U <$> s) = true
  ↔ ∀ c, c ∈ s → isspace c = true ∨ isprintable U c = false.
Proof.
  rewrite forallb_forall. split.
  - intros H c Hc.
    specialize (H (cleaned U c)).
    rewrite <- list_elem_of_In in H.
    specialize (H (list_elem_of_fmap_2 _ _ _ Hc)).
    unfold cleaned, kept in H.
    destruct (isprintable U c); [|by right].
    by left.
  - intros H c' Hc'. apply list_elem_of_In, list_elem_of_fmap in Hc'
      as (c & -> & Hc).
    unfold cleaned, kept.
    destruct (H c Hc) as [Hs|Hp].
    + by case_match.
    + rewrite Hp. cbn [orb]. case_bool_decide as Hl; [|done].
      set_unfold in Hl. destruct Hl as [Hl|[Hl|[Hl|[]]]]; by rewrite Hl.
Qed.

Lemma strip_empty_blank (s : text) :
  strip s = [] ↔ forallb isspace s = true.
Proof.
  split; [|apply PyFacts.strip_blank].
  intros H. destruct (PyFacts.strip_split s) as (pre & post & Hs & Hpre & Hpost).
  rewrite H in Hs. rewrite Hs. cbn [app].
  by rewrite forallb_app, Hpre, Hpost.
Qed.

End SanitizerMore.

(** X1.  [sanitize_text] returns the empty string, so that the file is
    skipped, exactly when every character of the normalised input is white
    space or not printable; a single printable character that is not white
    space is enough for a file to be written. *)
Theorem sanitize_text_empty_iff (U : UnicodeData) (x : text) :
  (Files2Zip.sanitize_text U x = []
   ↔ ∀ c, c ∈ normalize_NFC U x →
          Py.isspace c = true ∨ isprintable U c = false)
  ∧ (RawText2Utf8.sanitize_text U x = []
     ↔ ∀ c, c ∈ normalize_NFC U x →
            Py.isspace c = true ∨ isprintable U c = false).
Proof.
  assert (Files2Zip.sanitize_text U x = []
          ↔ ∀ c, c ∈ normalize_NFC U x →
                 Py.isspace c = true ∨ isprintable U c = false) as H.
  { rewrite SanitizerFacts.sanitize_text_unfold.
    rewrite SanitizerMore.strip_empty_blank.
    apply SanitizerMore.blank_cleaned. }
  split; [exact H|].
  by rewrite SanitizerFacts.sanitize_text_same.
Qed.

(** X2.  The sanitiser works one character for one: it replaces, and
    removes nothing but white space at the two ends.  The result is a
    segment of the normalised input in which the characters that are not
    kept have become spaces, what is cut off before and after it is white
    space only, and the result is never longer than the normalised input. *)
Theorem sanitize_text_trims_ends_only (U : UnicodeData) (x : text) :
  let y := Files2Zip.sanitize_text U x in
  (∃ pre post,
     cleaned U <$> normalize_NFC U x = pre ++ y ++ post
     ∧ blank pre = true ∧ blank post = true)
  ∧ length y ≤ length (normalize_NFC U x)
  ∧ RawText2Utf8.sanitize_text U x = y.
Proof.
  intros y. subst y. rewrite SanitizerFacts.sanitize_text_unfold.
  destruct (PyFacts.strip_split (cleaned U <$> normalize_NFC U x))
    as (pre & post & Hs & Hpre & Hpost).
  split; [by exists pre, post|].
  split.
  - apply (f_equal length) in Hs.
    rewrite length_fmap, !length_app in Hs. lia.
  - by rewrite SanitizerFacts.sanitize_text_same,
         SanitizerFacts.sanitize_text_unfold.
Qed.

(** X3.  The only white space left in sanitised text is the space, the
    newline, the carriage return and the tab: every other white-space
    character (vertical tab, form feed, the information separators,
    NEXT LINE, NO-BREAK SPACE, the Unicode spaces and line separators) is
    not printable and has been replaced by a space. *)
Theorem sanitize_text_whitespace (U : UnicodeData) (inert : char → bool)
    (HU : UnicodeLaws U inert) (x : text) (c : char) :
  c ∈ Files2Zip.sanitize_text U x →
  Py.isspace c = true →
  c ∈ [Py.SPACE; Py.LF; Py.CR; Py.TAB].
Proof.
  intros Hc Hs.
  apply SanitizerFacts.sanitize_text_chars in Hc.
  unfold kept in Hc. apply orb_prop in Hc as [Hp|Hl].
  - destruct (decide (c = Py.SPACE)) as [->|Hne]; [apply list_elem_of_here|].
    pose proof (whitespace_nonprintable _ _ HU c Hs Hne). congruence.
  - apply bool_decide_eq_true in Hl. by apply list_elem_of_further.
Qed.

Lemma sanitize_text_whitespace_witness :
  UnicodeLaws Sample.unicode Sample.inert
  ∧ Files2Zip.sanitize_text Sample.unicode
      (Py.lit "a" ++ [11; 0xA0; 9; 0x2028]%N ++ Py.lit "b")
    = Py.lit "a" ++ [32; 32; 9; 32]%N ++ Py.lit "b"
  ∧ (9%N : char) ∈ [Py.SPACE; Py.LF; Py.CR; Py.TAB].
Proof.
  split; [exact SampleFacts.sample_laws|].
  split; [by vm_compute|].
  apply (sanitize_text_whitespace Sample.unicode Sample.inert
           SampleFacts.sample_laws
           (Py.lit "a" ++ [11; 0xA0; 9; 0x2028]%N ++ Py.lit "b")).
  - vm_compute. set_solver.
  - reflexivity.
Defined.

(** X4.  The strings [sanitize_text] leaves unchanged are exactly the
    sanitised ones: in NFC, made of printable characters, newlines,
    carriage returns and tabs only, and with no white space at either
    end. *)
Theorem sanitize_text_fixed_points (U : UnicodeData) (inert : char → bool)
    (HU : UnicodeLaws U inert) (y : text) :
  Files2Zip.sanitize_text U y = y
  ↔ is_NFC U y
    ∧ (∀ c, c ∈ y → isprintable U c = true ∨ c ∈ [Py.LF; Py.CR; Py.TAB])
    ∧ (∀ c, head y = Some c → Py.isspace c = false)
    ∧ (∀ c, last y = Some c → Py.isspace c = false).
Proof.
  split.
  - intros Hy. rewrite <- Hy. repeat split.
    + by apply SanitizerFacts.sanitize_text_NFC with inert.
    + intros c Hc. apply SanitizerFacts.sanitize_text_chars in Hc.
      unfold kept in Hc. apply orb_prop in Hc as [Hc|Hc]; [by left|right].
      by apply bool_decide_eq_true in Hc.
    + rewrite SanitizerFacts.sanitize_text_unfold. apply PyFacts.strip_head.
    + rewrite SanitizerFacts.sanitize_text_unfold. apply PyFacts.strip_last.
  - intros (Hn & Hk & Hh & Hl).
    apply SanitizerFacts.sanitize_text_fixed; [done| |by apply PyFacts.strip_fixed].
    intros c Hc. unfold kept. destruct (Hk c Hc) as [->|Hin]; [done|].
    rewrite (bool_decide_eq_true_2 _ Hin). apply orb_true_r.
Qed.

Lemma sanitize_text_fixed_points_witness :
  UnicodeLaws Sample.unicode Sample.inert
  ∧ (Files2Zip.sanitize_text Sample.unicode ([0xE9; 10; 9]%N ++ Py.lit "x y")
     = [0xE9; 10; 9]%N ++ Py.lit "x y"
     ↔ is_NFC Sample.unicode ([0xE9; 10; 9]%N ++ Py.lit "x y")
       ∧ (∀ c, c ∈ [0xE9; 10; 9]%N ++ Py.lit "x y" →
               isprintable Sample.unicode c = true
               ∨ c ∈ [Py.LF; Py.CR; Py.TAB])
       ∧ (∀ c, head ([0xE9; 10; 9]%N ++ Py.lit "x y") = Some c →
               Py.isspace c = false)
       ∧ (∀ c, last ([0xE9; 10; 9]%N ++ Py.lit "x y") = Some c →
               Py.isspace c = false)).
Proof.
  split; [exact SampleFacts.sample_laws|].
  exact (sanitize_text_fixed_points Sample.unicode Sample.inert
           SampleFacts.sample_laws ([0xE9; 10; 9]%N ++ Py.lit "x y")).
Defined.

(** ** The readers *)

Module ReaderMore.
Import Py.

Lemma collect_oks {A} (xs : list A) : collect id (Ok <$> xs) = Ok xs.
Proof. induction xs as [|x xs IH]; [done|]. cbn. by rewrite IH. Qed.

Lemma join_empty_str (s : text) : PyJson.join_empty (JStr s) = Ok s.
Proof.
  unfold PyJson.join_empty. cbn [PyJson.iter bind].
  assert (collect PyJson.as_str ((λ c, JStr [c]) <$> s)
          = Ok ((λ c, [c]) <$> s)) as ->.
  { induction s as [|c s IH]; [done|]. cbn. by rewrite IH. }
  cbn [bind]. f_equal.
  induction s as [|c s IH]; [done|]. cbn. by rewrite IH.
Qed.

Lemma plain_sublist (known : list string) (all : list string) (ext : text) :
  Forall (λ s, s ∈ all) known → ext ∈ lit <$> known → ext ∈ lit <$> all.
Proof.
  intros Hsub Hin. apply list_elem_of_fmap in Hin as (s & -> & Hs).
  apply list_elem_of_fmap_2. by apply (proj1 (Forall_forall _ _) Hsub).
Qed.

Lemma text_unknown_extension (U : UnicodeData) (w : World)
    (imports : Imports) (filepath : text) :
  lower U (PosixPath.splitext filepath).2 ∉ Files2Text.allowed_extensions →
  Files2Text.extract_text_from_file U w imports filepath = ([], []).
Proof.
  intros Hn. unfold Files2Text.extract_text_from_file.
  set (ext := lower U (PosixPath.splitext filepath).2) in *.
  unfold Files2Text.allowed_extensions in Hn.
  repeat (rewrite bool_decide_eq_false_2;
          [|intros Hin; apply Hn;
            first [ eapply plain_sublist; [|exact Hin];
                    apply (bool_decide_unpack _); by vm_compute
                  | rewrite Hin; apply (list_elem_of_fmap_2 lit);
                    apply (bool_decide_unpack _); by vm_compute ]]).
  reflexivity.
Qed.

End ReaderMore.

(** X5.  A PDF that opens and whose pages all yield their text is rendered
    as the page texts in page order, joined by single newlines, with
    nothing logged.  With PyPDF2 a page for which [extract_text()] gives
    [None] (or the empty string) contributes an empty line, so the number
    of lines still tells the page. *)
Theorem read_pdf_pages (w : World) (filepath : text) :
  (∀ pages, fitz_open w filepath = Ok (Ok <$> pages) →
     Files2Text._read_pdf_pymupdf w filepath = (Py.join [Py.LF] pages, []))
  ∧ (∀ pages, PyPDF2_PdfReader w filepath = Ok (Ok <$> pages) →
     Files2Text._read_pdf_pypdf2 w filepath
     = (Py.join [Py.LF] (default [] <$> pages), []))
  ∧ Files2Zip._read_pdf_pymupdf w filepath
    = Files2Text._read_pdf_pymupdf w filepath
  ∧ Files2Zip._read_pdf_pypdf2 w filepath
    = Files2Text._read_pdf_pypdf2 w filepath
  ∧ RawText2Utf8._read_pdf_pymupdf w filepath
    = Files2Text._read_pdf_pymupdf w filepath
  ∧ RawText2Utf8._read_pdf_pypdf2 w filepath
    = Files2Text._read_pdf_pypdf2 w filepath.
Proof.
  split; [|split; [|done]].
  - intros pages H. by apply ExtractFacts.read_pdf_pymupdf_ok.
  - intros pages H. unfold Files2Text._read_pdf_pypdf2. rewrite H.
    rewrite (LoopFacts.append_each_ok _
               (λ page, match page with Ok (Some t) => t | _ => [] end)).
    + cbn [app]. do 2 f_equal. rewrite <- list_fmap_compose.
      apply list_fmap_ext. by intros _ [t|] _.
    + intros y Hy. apply list_elem_of_fmap in Hy as (t & -> & _).
      by destruct t.
Qed.

(** X6.  A PDF reader never loses the pages it has read: when the
    document cannot be opened the result is the empty string, and when a
    page raises, the result is the text of the pages before it, joined by
    newlines; in both cases exactly one ERROR record names the file and
    the exception, and the pages after the failing one are not read. *)
Theorem read_pdf_failure (w : World) (filepath : text) (e : exn) :
  let pymupdf_error :=
    [LogRecord ERROR "Error reading PDF (PyMuPDF) %s: %s"
       [ArgStr filepath; ArgExn e]] in
  let pypdf2_error :=
    [LogRecord ERROR "Error reading PDF (PyPDF2) %s: %s"
       [ArgStr filepath; ArgExn e]] in
  (fitz_open w filepath = Raise e →
   Files2Text._read_pdf_pymupdf w filepath = ([], pymupdf_error))
  ∧ (∀ before after,
       fitz_open w filepath = Ok ((Ok <$> before) ++ Raise e :: after) →
       Files2Text._read_pdf_pymupdf w filepath
       = (Py.join [Py.LF] before, pymupdf_error))
  ∧ (PyPDF2_PdfReader w filepath = Raise e →
     Files2Text._read_pdf_pypdf2 w filepath = ([], pypdf2_error))
  ∧ (∀ before after,
       PyPDF2_PdfReader w filepath = Ok ((Ok <$> before) ++ Raise e :: after) →
       Files2Text._read_pdf_pypdf2 w filepath
       = (Py.join [Py.LF] (default [] <$> before), pypdf2_error)).
Proof.
  intros pymupdf_error pypdf2_error. repeat split.
  - intros H. unfold Files2Text._read_pdf_pymupdf. by rewrite H.
  - intros before after H. by apply ExtractFacts.read_pdf_pymupdf_raise with after.
  - intros H. unfold Files2Text._read_pdf_pypdf2. by rewrite H.
  - intros before after H. by apply ExtractFacts.read_pdf_pypdf2_raise with after.
Qed.

(** X7.  A [.docx] or [.odt] document that loads and whose paragraphs all
    yield their text is rendered as the paragraph texts in document order,
    joined by single newlines, with nothing logged; an empty paragraph
    gives an empty line and a document without paragraphs the empty
    string. *)
Theorem read_paragraphs (w : World) (filepath : text)
    (paragraphs : list text) :
  (docx_Document w filepath = Ok (Ok <$> paragraphs) →
   Files2Text._read_docx w filepath = (Py.join [Py.LF] paragraphs, []))
  ∧ (odf_load w filepath = Ok (Ok <$> paragraphs) →
     Files2Text._read_odt w filepath = (Py.join [Py.LF] paragraphs, []))
  ∧ Files2Zip._read_docx w filepath = Files2Text._read_docx w filepath
  ∧ Files2Zip._read_odt w filepath = Files2Text._read_odt w filepath
  ∧ RawText2Utf8._read_docx w filepath = Files2Text._read_docx w filepath
  ∧ RawText2Utf8._read_odt w filepath = Files2Text._read_odt w filepath.
Proof.
  split; [|split; [|done]].
  - intros H. unfold Files2Text._read_docx. rewrite H. cbn [bind].
    by rewrite ReaderMore.collect_oks.
  - intros H. unfold Files2Text._read_odt. rewrite H. cbn [bind].
    by rewrite ReaderMore.collect_oks.
Qed.

(** X8.  The notebook format allows the ["source"] of a cell to be one
    string instead of a list of strings.  [_read_ipynb] accepts both: a
    string source is taken as it is (joining its characters gives it
    back), a list source is concatenated, whatever the type of the cell,
    and the cells are joined by newlines. *)
Theorem read_ipynb_string_source (w : World) (filepath contents : text)
    (members : list (text * json)) (cells : list json)
    (sources : list text) :
  open_read w filepath = Ok contents →
  json_loads w contents = Ok (JObj members) →
  PyJson.assoc (Py.lit "cells") members = Some (JArr cells) →
  Forall2 (λ cell s, ∃ cm, cell = JObj cm
             ∧ (PyJson.assoc (Py.lit "source") cm = Some (JStr s)
                ∨ ∃ frags, PyJson.assoc (Py.lit "source") cm
                           = Some (JArr (JStr <$> frags))
                           ∧ s = concat frags))
    cells sources →
  Files2Text._read_ipynb w filepath = (Py.join [Py.LF] sources, [])
  ∧ Files2Zip._read_ipynb w filepath = (Py.join [Py.LF] sources, [])
  ∧ RawText2Utf8._read_ipynb w filepath = (Py.join [Py.LF] sources, []).
Proof.
  intros Hread Hload Hcells Hsrc.
  assert (Files2Text._read_ipynb w filepath = (Py.join [Py.LF] sources, []))
    as H; [|by repeat split].
  rewrite ReaderFacts.read_ipynb_unfold, Hread. cbn [bind]. rewrite Hload.
  cbn [bind]. unfold notebook_text. cbn [PyJson.get bind].
  rewrite Hcells. cbn [from_option id PyJson.iter bind].
  rewrite (ReaderFacts.collect_Forall2 cell_text cells sources); [done|].
  eapply Forall2_impl; [exact Hsrc|].
  intros cell s (cm & -> & Hs). unfold cell_text. cbn [PyJson.get bind].
  destruct Hs as [->|(frags & -> & ->)]; cbn [from_option id].
  - apply ReaderMore.join_empty_str.
  - apply ReaderFacts.join_empty_strs.
Qed.

(** X9.  [extract_text_from_file] has no rule for an extension outside
    [allowed_extensions]: called on such a path it returns the empty
    string and logs nothing, whatever libraries are installed and without
    touching the file.  So the filter of [convert_files_to_txt] hides no
    file that the dispatcher could have read. *)
Theorem extract_unknown_extension (U : UnicodeData) (w : World)
    (imports : Imports) (filepath : text) :
  lower U (PosixPath.splitext filepath).2 ∉ Files2Text.allowed_extensions →
  Files2Text.extract_text_from_file U w imports filepath = ([], [])
  ∧ Files2Zip.extract_text_from_file U w imports filepath = ([], [])
  ∧ RawText2Utf8.extract_text_from_file U w imports filepath = ([], [])
  ∧ Files2Zip.allowed_extensions = Files2Text.allowed_extensions
  ∧ RawText2Utf8.allowed_extensions = Files2Text.allowed_extensions.
Proof.
  intros Hn.
  pose proof (ReaderMore.text_unknown_extension U w imports filepath Hn) as H.
  split; [exact H|]. split; [|by rewrite ExtractFacts.extract_raw_text].
  pose proof (ExtractFacts.extract_zip U w imports filepath) as (_ & _ & Hz).
  rewrite Hz; [exact H|].
  intros Hin. apply Hn. unfold Files2Text.allowed_extensions.
  eapply ReaderMore.plain_sublist; [|exact Hin].
  apply (bool_decide_unpack _). by vm_compute.
Qed.

(** ** The run as a loop over the files of the walk *)

Module RunFacts.
Import Py.

Section Instances.
Context (U : UnicodeData) (w : World) (imports : Imports)
        (input_dir output_dir : text) (max_file_size : N)
        (skip_hidden : bool).

Lemma text_step :
  Files2Text.process_file U w imports input_dir output_dir max_file_size
    skip_hidden
  = step U w (Files2Text.extract_text_from_file U w imports) id
      (λ t, PosixPath.is_empty (strip t)) "No text extracted from %s"
      input_dir output_dir max_file_size skip_hidden.
Proof. reflexivity. Qed.

Lemma zip_step :
  Files2Zip.process_file U w imports input_dir output_dir max_file_size
    skip_hidden
  = step U w (Files2Zip.extract_text_from_file U w imports)
      (Files2Zip.sanitize_text U) PosixPath.is_empty
      "No text extracted (or only control chars) from %s"
      input_dir output_dir max_file_size skip_hidden.
Proof. reflexivity. Qed.

Lemma raw_step :
  RawText2Utf8.process_file U w imports input_dir output_dir max_file_size
    skip_hidden
  = step U w (RawText2Utf8.extract_text_from_file U w imports)
      (RawText2Utf8.sanitize_text U) PosixPath.is_empty
      "No text extracted (or only control chars) from %s"
      input_dir output_dir max_file_size skip_hidden.
Proof. reflexivity. Qed.

Lemma text_run (st : state) :
  Files2Text.convert_files_to_txt U w imports input_dir output_dir
    max_file_size skip_hidden st
  = run U w (Files2Text.extract_text_from_file U w imports) id
      (λ t, PosixPath.is_empty (strip t)) "No text extracted from %s"
      input_dir output_dir max_file_size skip_hidden st.
Proof.
  unfold Files2Text.convert_files_to_txt, run.
  destruct (if negb (path_exists w output_dir)
            then let! _ := makedirs w output_dir in Ok (add_dir st output_dir)
            else Ok st) as [st0|e]; [cbn [bind]|done].
  destruct (scandir w input_dir) as [t|]; [|done].
  by rewrite WalkFacts.text_walk.
Qed.

Lemma zip_run (st : state) :
  Files2Zip.convert_files_to_txt U w imports input_dir output_dir
    max_file_size skip_hidden st
  = run U w (Files2Zip.extract_text_from_file U w imports)
      (Files2Zip.sanitize_text U) PosixPath.is_empty
      "No text extracted (or only control chars) from %s"
      input_dir output_dir max_file_size skip_hidden st.
Proof.
  unfold Files2Zip.convert_files_to_txt, run.
  destruct (if negb (path_exists w output_dir)
            then let! _ := makedirs w output_dir in Ok (add_dir st output_dir)
            else Ok st) as [st0|e]; [cbn [bind]|done].
  destruct (scandir w input_dir) as [t|]; [|done].
  by rewrite WalkFacts.zip_walk.
Qed.

Lemma raw_run (st : state) :
  RawText2Utf8.convert_files_to_txt U w imports input_dir output_dir
    max_file_size skip_hidden st
  = run U w (RawText2Utf8.extract_text_from_file U w imports)
      (RawText2Utf8.sanitize_text U) PosixPath.is_empty
      "No text extracted (or only control chars) from %s"
      input_dir output_dir max_file_size skip_hidden st.
Proof.
  unfold RawText2Utf8.convert_files_to_txt, run.
  destruct (if negb (path_exists w output_dir)
            then let! _ := makedirs w output_dir in Ok (add_dir st output_dir)
            else Ok st) as [st0|e]; [cbn [bind]|done].
  destruct (scandir w input_dir) as [t|]; [|done].
  by rewrite WalkFacts.raw_walk.
Qed.

End Instances.

(** *** One file *)

Section Step.
Context (U : UnicodeData) (w : World)
        (extract : text → text * list log_record)
        (clean : text → text) (no_text : text → bool) (message : string)
        (input_dir output_dir : text) (max_file_size : N)
        (skip_hidden : bool).

Local Abbreviation write_step :=
  (step_write w extract clean no_text message).
Local Abbreviation file_step :=
  (step U w extract clean no_text message input_dir output_dir
     max_file_size skip_hidden).
Local Abbreviation passes := (accepted U w max_file_size skip_hidden).
Local Abbreviation out_path_of :=
  (Files2Text.out_path_of w input_dir output_dir).

Lemma step_write_dirs (full_path out_path : text) (st : state) :
  st_dirs (write_step full_path out_path st) = st_dirs st.
Proof.
  unfold step_write. destruct (extract full_path) as [raw records].
  by repeat case_match.
Qed.

Lemma step_write_log (full_path out_path : text) (st : state) :
  ∃ records, st_log (write_step full_path out_path st) = st_log st ++ records.
Proof.
  unfold step_write. destruct (extract full_path) as [raw records].
  repeat case_match; cbn; rewrite <- app_assoc; by eexists.
Qed.

(** What the write leaves at [out_path]: nothing new, an empty file when
    [f.write] raised after the file was opened, or the text. *)
Lemma step_write_files (full_path out_path : text) (st : state) :
  let final_text := clean (extract full_path).1 in
  st_files (write_step full_path out_path st) = st_files st
  ∨ no_text final_text = false
    ∧ open_write w out_path = Ok ()
    ∧ ((∃ e, write w out_path final_text = Raise e)
       ∧ st_files (write_step full_path out_path st)
         = <[out_path := []]> (st_files st)
       ∨ write w out_path final_text = Ok ()
         ∧ st_files (write_step full_path out_path st)
           = <[out_path := final_text]> (st_files st)).
Proof.
  unfold step_write. destruct (extract full_path) as [raw records].
  cbn [fst].
  destruct (no_text (clean raw)); [by left|].
  destruct (open_write w out_path) as [[]|e]; [|by left].
  right. split; [done|]. split; [done|].
  destruct (write w out_path (clean raw)) as [[]|e].
  - right. split; [done|]. cbn. by rewrite insert_insert_eq.
  - left. split; [by exists e|done].
Qed.

Lemma step_accepted (root file_name : text) (st : state) :
  passes root file_name →
  file_step root file_name st
  = let full_path := PosixPath.join root [file_name] in
    let! out_path := out_path_of full_path in
    let! _ := makedirs w (PosixPath.dirname out_path) in
    Ok (write_step full_path out_path
          (add_dir st (PosixPath.dirname out_path))).
Proof.
  intros (Hh & Hext & size & Hsize & Hle). unfold step.
  assert (skip_hidden && startswith file_name (lit ".") = false) as ->.
  { destruct skip_hidden; [|done]. by rewrite Hh. }
  rewrite (bool_decide_eq_true_2 _ Hext). cbn [negb]. rewrite Hsize.
  by rewrite (proj2 (N.ltb_ge _ _) Hle).
Qed.

(** A file that is not accepted leaves at most one log record. *)
Lemma step_cases (root file_name : text) (st : state) :
  passes root file_name
  ∨ ∃ records, file_step root file_name st = Ok (add_log st records)
               ∧ length records ≤ 1.
Proof.
  unfold step, accepted.
  destruct (skip_hidden && startswith file_name (lit ".")) eqn:Hh.
  { right. exists []. split; [|cbn; lia].
    unfold add_log. rewrite app_nil_r. by destruct st. }
  case_bool_decide as Hext; cbn [negb].
  2:{ right. exists []. split; [|cbn; lia].
      unfold add_log. rewrite app_nil_r. by destruct st. }
  destruct (getsize w (PosixPath.join root [file_name])) as [size|e].
  2:{ right. eexists [_]. split; [done|cbn; lia]. }
  destruct (max_file_size <? size)%N eqn:Hlt.
  { right. eexists [_]. split; [done|cbn; lia]. }
  left. split.
  { intros ->. by cbn in Hh. }
  split; [done|]. exists size. split; [done|]. by apply N.ltb_ge.
Qed.

Lemma step_filtered (root file_name : text) (st : state) :
  skip_hidden = true ∧ startswith file_name (lit ".") = true
  ∨ lower U (PosixPath.splitext file_name).2 ∉ Files2Text.allowed_extensions →
  file_step root file_name st = Ok st.
Proof.
  unfold step. intros [[-> ->]|Hext]; [done|].
  rewrite (bool_decide_eq_false_2 _ Hext). by case_match.
Qed.

Lemma step_frame (root file_name : text) (st st' : state) :
  file_step root file_name st = Ok st' →
  (∃ records, st_log st' = st_log st ++ records)
  ∧ st_dirs st ⊆ st_dirs st'
  ∧ ∀ p, st_files st' !! p ≠ st_files st !! p →
         passes root file_name
         ∧ out_path_of (PosixPath.join root [file_name]) = Ok p
         ∧ makedirs w (PosixPath.dirname p) = Ok ()
         ∧ open_write w p = Ok ().
Proof.
  intros Hstep.
  destruct (step_cases root file_name st) as [Hacc|(records & H & _)].
  2:{ rewrite H in Hstep. injection Hstep as <-.
      split; [by exists records|]. split; [done|]. by intros p []. }
  rewrite (step_accepted _ _ _ Hacc) in Hstep. cbv zeta in Hstep.
  set (full := PosixPath.join root [file_name]) in *.
  destruct (out_path_of full) as [out|e]; [|done].
  unfold bind at 1 in Hstep.
  destruct (makedirs w (PosixPath.dirname out)) as [[]|e] eqn:Hmk; [|done].
  unfold bind in Hstep. injection Hstep as <-.
  split.
  { destruct (step_write_log full out
                (add_dir st (PosixPath.dirname out))) as [records Hr].
    by exists records. }
  split; [rewrite step_write_dirs; cbn; set_solver|].
  intros p Hp.
  destruct (step_write_files full out (add_dir st (PosixPath.dirname out)))
    as [Hsame|(_ & Hopen & Hfiles)].
  { by rewrite Hsame in Hp. }
  assert (out = p) as <-; [|done].
  destruct (decide (out = p)) as [|Hne]; [done|]. exfalso. apply Hp.
  destruct Hfiles as [[_ ->]|[_ ->]]; by rewrite lookup_insert_ne.
Qed.

Lemma step_raise (root file_name : text) (st : state) (e : exn) :
  file_step root file_name st = Raise e →
  passes root file_name
  ∧ (out_path_of (PosixPath.join root [file_name]) = Raise e
     ∨ ∃ out_path,
         out_path_of (PosixPath.join root [file_name]) = Ok out_path
         ∧ makedirs w (PosixPath.dirname out_path) = Raise e).
Proof.
  intros Hstep.
  destruct (step_cases root file_name st) as [Hacc|(records & H & _)];
    [|by rewrite H in Hstep].
  split; [done|].
  rewrite (step_accepted _ _ _ Hacc) in Hstep. cbv zeta in Hstep.
  set (full := PosixPath.join root [file_name]) in *.
  destruct (out_path_of full) as [out|e'];
    [|left; unfold bind in Hstep; congruence].
  unfold bind at 1 in Hstep.
  right. exists out. split; [done|].
  destruct (makedirs w (PosixPath.dirname out)) as [[]|e'']; [done|].
  unfold bind in Hstep. congruence.
Qed.

End Step.

(** *** Loops *)

Section Loop.
Context {A : Type} (body : A → state → outcome state).

Lemma for_each_log (xs : list A) :
  (∀ x st st', body x st = Ok st' →
               ∃ records, st_log st' = st_log st ++ records) →
  ∀ st st', for_each body xs st = Ok st' →
            ∃ records, st_log st' = st_log st ++ records.
Proof.
  intros Hbody. induction xs as [|x xs IH]; intros st st' H; cbn in H.
  - injection H as <-. exists []. by rewrite app_nil_r.
  - destruct (body x st) as [st1|e] eqn:Hx; [cbn [bind] in H|done].
    destruct (Hbody _ _ _ Hx) as [r1 Hr1].
    destruct (IH _ _ H) as [r2 Hr2].
    exists (r1 ++ r2). by rewrite Hr2, Hr1, app_assoc.
Qed.

Lemma for_each_dirs (xs : list A) :
  (∀ x st st', body x st = Ok st' → st_dirs st ⊆ st_dirs st') →
  ∀ st st', for_each body xs st = Ok st' → st_dirs st ⊆ st_dirs st'.
Proof.
  intros Hbody. induction xs as [|x xs IH]; intros st st' H; cbn in H.
  - by injection H as <-.
  - destruct (body x st) as [st1|e] eqn:Hx; [cbn [bind] in H|done].
    etrans; [by eapply Hbody|by apply IH].
Qed.

(** A file that differs after the loop was written by one of its
    iterations. *)
Lemma for_each_changed (Q : A → text → Prop) (xs : list A) :
  (∀ x st st', x ∈ xs → body x st = Ok st' →
               ∀ p, st_files st' !! p ≠ st_files st !! p → Q x p) →
  ∀ st st', for_each body xs st = Ok st' →
            ∀ p, st_files st' !! p ≠ st_files st !! p →
                 ∃ x, x ∈ xs ∧ Q x p.
Proof.
  induction xs as [|x xs IH]; intros Hbody st st' H p Hp; cbn in H.
  - injection H as <-. done.
  - destruct (body x st) as [st1|e] eqn:Hx; [cbn [bind] in H|done].
    destruct (decide (st_files st1 !! p = st_files st !! p)) as [Heq|Hne].
    + destruct (IH (λ y s s' Hy, Hbody y s s' (list_elem_of_further _ _ _ Hy))
                  st1 st' H p) as (y & Hy & HQ); [by rewrite Heq|].
      exists y. split; [by apply list_elem_of_further|done].
    + exists x. split; [apply list_elem_of_here|].
      by apply (Hbody x st st1); [apply list_elem_of_here|..].
Qed.


(** The first exception leaves the loop; when every iteration that can
    raise raises [e], and one surely does, the loop raises [e]. *)
Lemma for_each_raise (xs : list A) (x : A) (e : exn) :
  x ∈ xs →
  (∀ st, body x st = Raise e) →
  (∀ y st e', y ∈ xs → body y st = Raise e' → e' = e) →
  ∀ st, for_each body xs st = Raise e.
Proof.
  intros Hx Hraise. induction xs as [|y xs IH]; intros Hother st.
  - by apply not_elem_of_nil in Hx.
  - cbn. destruct (body y st) as [st1|e'] eqn:Hy.
    + cbn [bind]. apply elem_of_cons in Hx as [->|Hx].
      * by rewrite Hraise in Hy.
      * apply IH; [done|]. intros z s e'' Hz.
        apply Hother. by apply list_elem_of_further.
    + cbn [bind]. f_equal. apply (Hother y st); [apply list_elem_of_here|done].
Qed.

Lemma for_each_skip (xs : list A) (st : state) :
  (∀ x st, x ∈ xs → body x st = Ok st) → for_each body xs st = Ok st.
Proof.
  induction xs as [|x xs IH]; intros Hbody; cbn; [done|].
  rewrite (Hbody x st (list_elem_of_here _ _)). cbn [bind].
  apply IH. intros y s Hy. apply Hbody. by apply list_elem_of_further.
Qed.

Lemma for_each_filter (P : A → Prop) `{!∀ x, Decision (P x)} (xs : list A) :
  (∀ x st, x ∈ xs → ¬ P x → body x st = Ok st) →
  ∀ st, for_each body xs st = for_each body (filter P xs) st.
Proof.
  induction xs as [|x xs IH]; intros Hbody st; [done|].
  rewrite filter_cons. destruct (decide (P x)) as [HP|HP]; cbn.
  - destruct (body x st) as [st1|e]; [cbn [bind]|done].
    apply IH. intros y s Hy. apply Hbody. by apply list_elem_of_further.
  - rewrite (Hbody x st (list_elem_of_here _ _) HP). cbn [bind].
    apply IH. intros y s Hy. apply Hbody. by apply list_elem_of_further.
Qed.

End Loop.

Lemma for_each_ext {A} (body body' : A → state → outcome state)
    (xs : list A) :
  (∀ x st, x ∈ xs → body x st = body' x st) →
  ∀ st, for_each body xs st = for_each body' xs st.
Proof.
  induction xs as [|x xs IH]; intros Hbody st; [done|]. cbn.
  rewrite (Hbody x st (list_elem_of_here _ _)).
  destruct (body' x st) as [st1|e]; [cbn [bind]|done].
  apply IH. intros y s Hy. apply Hbody. by apply list_elem_of_further.
Qed.

End RunFacts.

(** ** Paths *)

Module PathMore.
Import Py PosixPath.

Lemma startswith_app (p s : text) : startswith (p ++ s) p = true.
Proof.
  induction p as [|c p IH]; [by destruct s|].
  cbn. by rewrite N.eqb_refl, IH.
Qed.

Lemma endswith_app (a b : text) : endswith (a ++ b) b = true.
Proof. unfold endswith. rewrite reverse_app. apply startswith_app. Qed.

Lemma join_step_suffix (path b : text) : ∃ pre, join_step path b = pre ++ b.
Proof.
  unfold join_step. destruct (startswith b [sep]); [by exists []|].
  destruct (is_empty path || endswith path [sep]); [by exists path|].
  exists (path ++ [sep]). by rewrite <- app_assoc.
Qed.

Lemma join_step_keeps (path b : text) : path ≠ [] → join_step path b ≠ [].
Proof.
  intros Hp. unfold join_step.
  destruct (startswith b [sep]) eqn:Hb; [by destruct b|].
  destruct (is_empty path || endswith path [sep]); by destruct path.
Qed.

(** The output path always ends in [.txt]. *)
Lemma out_path_txt (w : World) (input_dir output_dir full_path p : text) :
  Files2Text.out_path_of w input_dir output_dir full_path = Ok p →
  endswith p (lit ".txt") = true.
Proof.
  unfold Files2Text.out_path_of.
  destruct (relpath (getcwd w) full_path input_dir) as [rel|e]; [|done].
  cbn [bind]. intros [= <-]. unfold join. cbn [fold_left].
  destruct (join_step_suffix output_dir ((splitext rel).1 ++ lit ".txt"))
    as [pre ->].
  rewrite app_assoc. apply endswith_app.
Qed.

(** The walk never reports a file under an empty root. *)
Lemma walk_files_roots (skip_hidden : bool) (t : tree) :
  ∀ top root file_name,
    top ≠ [] →
    (root, file_name) ∈ walk_files skip_hidden top t →
    root ≠ [].
Proof.
  induction t as [subdirs files IH] using WalkFacts.tree_rect'.
  intros top root file_name Htop Hin. cbn [walk_files] in Hin.
  apply elem_of_app in Hin as [Hin|Hin].
  - by apply list_elem_of_fmap in Hin as (f & [= -> ->] & Hf).
  - revert IH Hin.
    induction subdirs as [|[d sub] subdirs IHs]; intros IH Hin;
      [by apply elem_of_nil in Hin|].
    apply Forall_cons in IH as [IHsub IH].
    destruct (skip_hidden && startswith d (lit ".")).
    + by apply IHs.
    + apply elem_of_app in Hin as [Hin|Hin]; [|by apply IHs].
      apply (IHsub _ _ _ (join_step_keeps top d Htop) Hin).
Qed.

(** The extension [extract_text_from_file] sees, that of the full path,
    is the extension the filter saw, that of the file name. *)
Lemma splitext_full_path (root file_name : text) :
  sep ∉ file_name →
  (splitext (join root [file_name])).2 = (splitext file_name).2.
Proof.
  intros Hsep. unfold join. cbn [fold_left]. unfold join_step.
  assert (startswith file_name [sep] = false) as ->.
  { rewrite PathFacts.startswith_1. destruct file_name as [|c s]; [done|].
    apply N.eqb_neq. intros ->. apply Hsep. apply list_elem_of_here. }
  destruct (is_empty root || endswith root [sep]) eqn:Hroot.
  - rewrite PathFacts.splitext_prefix; [done..|].
    apply orb_prop in Hroot as [Hroot|Hroot]; [left; by destruct root|right].
    rewrite PathFacts.endswith_1 in Hroot.
    destruct (last root) as [x|]; [|done].
    by apply N.eqb_eq in Hroot as ->.
  - rewrite app_assoc, PathFacts.splitext_prefix; [done..|].
    right. by rewrite last_snoc.
Qed.

(** A name without a dot after its first character has no extension. *)
Lemma splitext_no_extension (file_name : text) :
  sep ∉ file_name → extsep ∉ tail file_name →
  splitext file_name = (file_name, []).
Proof.
  intros Hsep Hdot. unfold splitext.
  rewrite (PathFacts.rfind_not_in sep) by done.
  destruct file_name as [|c s]; [done|].
  cbn [tail] in Hdot. cbn [rfind].
  rewrite (PathFacts.rfind_not_in extsep s) by done.
  cbn. destruct (c =? extsep)%N; done.
Qed.

End PathMore.

(** ** The whole conversion *)

Module ConvertFacts.
Import Py.

Section Run.
Context (U : UnicodeData) (w : World)
        (extract : text → text * list log_record)
        (clean : text → text) (no_text : text → bool) (message : string)
        (input_dir output_dir : text) (max_file_size : N)
        (skip_hidden : bool).

Local Abbreviation file_step :=
  (step U w extract clean no_text message input_dir output_dir
     max_file_size skip_hidden).
Local Abbreviation whole_run :=
  (run U w extract clean no_text message input_dir output_dir
     max_file_size skip_hidden).
Local Abbreviation passes := (accepted U w max_file_size skip_hidden).
Local Abbreviation out_path_of :=
  (Files2Text.out_path_of w input_dir output_dir).
Local Abbreviation walked :=
  (match scandir w input_dir with
   | Some t => walk_files skip_hidden input_dir t
   | None => []
   end).
Local Abbreviation starting :=
  (LogRecord INFO "Starting conversion from %s to %s"
     [ArgStr input_dir; ArgStr output_dir]).
Local Abbreviation complete := (LogRecord INFO "Conversion complete." []).


Lemma walked_roots (root file_name : text) :
  input_dir ≠ [] → (root, file_name) ∈ walked → root ≠ [].
Proof.
  intros Hin Hw. destruct (scandir w input_dir) as [t|];
    [|by apply elem_of_nil in Hw].
  by eapply PathMore.walk_files_roots.
Qed.

(** What a completed run leaves: a longer log, bracketed by the two INFO
    records, more directories, and files at the output paths of accepted
    inputs. *)
Lemma run_frame (st st' : state) :
  whole_run st = Ok st' →
  (∃ records, st_log st' = st_log st ++ [starting] ++ records ++ [complete])
  ∧ st_dirs st ⊆ st_dirs st'
  ∧ ∀ p, st_files st' !! p ≠ st_files st !! p →
         ∃ root file_name,
           (root, file_name) ∈ walked
           ∧ passes root file_name
           ∧ out_path_of (PosixPath.join root [file_name]) = Ok p
           ∧ makedirs w (PosixPath.dirname p) = Ok ()
           ∧ open_write w p = Ok ().
Proof.
  unfold run. intros Hrun.
  destruct (if negb (path_exists w output_dir)
            then let! _ := makedirs w output_dir in Ok (add_dir st output_dir)
            else Ok st) as [st0|e] eqn:H0; [cbn [bind] in Hrun|done].
  assert (st_files st0 = st_files st ∧ st_log st0 = st_log st
          ∧ st_dirs st ⊆ st_dirs st0) as (Hf0 & Hl0 & Hd0).
  { destruct (negb (path_exists w output_dir)); [|by injection H0 as <-].
    destruct (makedirs w output_dir) as [[]|]; [|done].
    cbn [bind] in H0. injection H0 as <-. cbn. set_solver. }
  set (st1 := add_log st0 [starting]) in *.
  destruct (for_each (λ rf, file_step rf.1 rf.2) walked st1)
    as [st2|e] eqn:Hloop; [cbn [bind] in Hrun|done].
  injection Hrun as <-.
  repeat split.
  - destruct (RunFacts.for_each_log (λ rf, file_step rf.1 rf.2) walked)
      with (st := st1) (st' := st2) as [records Hr]; [|done|].
    { intros [root f] s s' Hs. cbn [fst snd] in Hs.
      by apply RunFacts.step_frame in Hs as (Hlog & _). }
    exists records. cbn. rewrite Hr. cbn. rewrite Hl0.
    by rewrite <- !app_assoc.
  - cbn. etrans; [exact Hd0|].
    apply (RunFacts.for_each_dirs (λ rf, file_step rf.1 rf.2) walked)
      with (st := st1) (st' := st2); [|done].
    intros [root f] s s' Hs. cbn [fst snd] in Hs.
    by apply RunFacts.step_frame in Hs as (_ & Hdirs & _).
  - intros p Hp. cbn in Hp. rewrite <- Hf0 in Hp.
    destruct (RunFacts.for_each_changed (λ rf, file_step rf.1 rf.2)
                (λ rf p, passes rf.1 rf.2
                         ∧ out_path_of (PosixPath.join rf.1 [rf.2]) = Ok p
                         ∧ makedirs w (PosixPath.dirname p) = Ok ()
                         ∧ open_write w p = Ok ())
                walked) with (st := st1) (st' := st2) (p := p)
      as ([root f] & Hin & HQ); [|done|done|].
    { intros [root f] s s' _ Hs q Hq. cbn [fst snd] in *.
      by apply RunFacts.step_frame in Hs as (_ & _ & Hch); apply Hch. }
    by exists root, f.
Qed.


(** A directory that cannot be created ends the run. *)
Lemma run_raise (st : state) (root file_name out_path : text) (e : exn) :
  input_dir ≠ [] →
  (root, file_name) ∈ walked →
  passes root file_name →
  out_path_of (PosixPath.join root [file_name]) = Ok out_path →
  makedirs w (PosixPath.dirname out_path) = Raise e →
  (∀ q e', makedirs w q = Raise e' → e' = e) →
  whole_run st = Raise e.
Proof.
  intros Hin Hw Hacc Hout Hmk Hsame. unfold run.
  destruct (negb (path_exists w output_dir)).
  - destruct (makedirs w output_dir) as [[]|e'] eqn:Hfirst.
    2:{ cbn [bind]. f_equal. by eapply Hsame. }
    cbn [bind].
    rewrite (RunFacts.for_each_raise (λ rf, file_step rf.1 rf.2) walked
               (root, file_name) e); [done|done| |].
    + intros s. cbn [fst snd].
      rewrite (RunFacts.step_accepted _ _ _ _ _ _ _ _ _ _ _ _ _ Hacc).
      cbv zeta. rewrite Hout. cbn [bind]. by rewrite Hmk.
    + intros [r f] s e' Hy Hr. cbn [fst snd] in Hr.
      apply RunFacts.step_raise in Hr as (_ & [Hr|(out & _ & Hr)]);
        [|by eapply Hsame].
      destruct (SkipFacts.out_path_ok w input_dir output_dir
                  (PosixPath.join r [f])) as [out Ho]; [|congruence].
      unfold PosixPath.join. cbn [fold_left].
      apply PathMore.join_step_keeps. exact (walked_roots r f Hin Hy).
  - cbn [bind].
    rewrite (RunFacts.for_each_raise (λ rf, file_step rf.1 rf.2) walked
               (root, file_name) e); [done|done| |].
    + intros s. cbn [fst snd].
      rewrite (RunFacts.step_accepted _ _ _ _ _ _ _ _ _ _ _ _ _ Hacc).
      cbv zeta. rewrite Hout. cbn [bind]. by rewrite Hmk.
    + intros [r f] s e' Hy Hr. cbn [fst snd] in Hr.
      apply RunFacts.step_raise in Hr as (_ & [Hr|(out & _ & Hr)]);
        [|by eapply Hsame].
      destruct (SkipFacts.out_path_ok w input_dir output_dir
                  (PosixPath.join r [f])) as [out Ho]; [|congruence].
      unfold PosixPath.join. cbn [fold_left].
      apply PathMore.join_step_keeps. exact (walked_roots r f Hin Hy).
Qed.

(** When the walk finds nothing to convert, the run only logs its two
    INFO records. *)
Lemma run_nothing (st : state) :
  (∀ root file_name,
     (root, file_name) ∈ walked →
     skip_hidden = true ∧ startswith file_name (lit ".") = true
     ∨ lower U (PosixPath.splitext file_name).2
         ∉ Files2Text.allowed_extensions) →
  whole_run st
  = let! st :=
      if negb (path_exists w output_dir)
      then let! _ := makedirs w output_dir in Ok (add_dir st output_dir)
      else Ok st in
    Ok (add_log st [starting; complete]).
Proof.
  intros Hnone. unfold run.
  destruct (if negb (path_exists w output_dir)
            then let! _ := makedirs w output_dir in Ok (add_dir st output_dir)
            else Ok st) as [st0|e]; [cbn [bind]|done].
  rewrite RunFacts.for_each_skip.
  - cbn [bind]. unfold add_log. cbn. by rewrite <- app_assoc.
  - intros [root f] s Hw. cbn [fst snd].
    apply (RunFacts.step_filtered U w extract clean no_text message
             input_dir output_dir max_file_size skip_hidden root f s).
    exact (Hnone root f Hw).
Qed.

End Run.
End ConvertFacts.

(** ** Hidden entries *)

Module HiddenFacts.
Import Py.

#[local] Arguments Py.startswith : simpl never.
#[local] Arguments Py.lit : simpl never.
#[local] Arguments PosixPath.join : simpl never.

Lemma visible_walk_files (t : tree) :
  ∀ top,
    filter (λ rf : text * text, startswith rf.2 (lit ".") = false)
      (walk_files true top t)
    = walk_files false top (visible t).
Proof.
  induction t as [subdirs files IH] using WalkFacts.tree_rect'.
  intros top. cbn [walk_files visible]. rewrite filter_app. f_equal.
  - induction files as [|f files IHf]; [done|].
    rewrite fmap_cons, !filter_cons. cbn [snd].
    destruct (decide (startswith f (lit ".") = false)); cbn; by rewrite IHf.
  - clear files. induction subdirs as [|[d sub] subdirs IHs]; [done|].
    apply Forall_cons in IH as [IHsub IH]. cbn [snd] in IHsub.
    cbn [andb]. destruct (startswith d (lit ".")); [by apply IHs|].
    rewrite filter_app, IHsub. f_equal. by apply IHs.
Qed.

Section Step.
Context (U : UnicodeData) (w : World)
        (extract : text → text * list log_record)
        (clean : text → text) (no_text : text → bool) (message : string)
        (input_dir output_dir : text) (max_file_size : N).

Local Abbreviation file_step :=
  (step U w extract clean no_text message input_dir output_dir
     max_file_size).

Lemma step_hidden (root file_name : text) (st : state) :
  startswith file_name (lit ".") = true →
  file_step true root file_name st = Ok st.
Proof. intros H. unfold step. by rewrite H. Qed.

Lemma step_not_hidden (root file_name : text) (st : state) :
  startswith file_name (lit ".") = false →
  file_step true root file_name st = file_step false root file_name st.
Proof. intros H. unfold step. by rewrite H. Qed.

Lemma for_each_visible (top : text) (t : tree) (st : state) :
  for_each (λ rf, file_step true rf.1 rf.2) (walk_files true top t) st
  = for_each (λ rf, file_step false rf.1 rf.2)
      (walk_files false top (visible t)) st.
Proof.
  rewrite (RunFacts.for_each_filter _
             (λ rf : text * text, startswith rf.2 (lit ".") = false)).
  - rewrite visible_walk_files. apply RunFacts.for_each_ext.
    intros [root f] s Hin. cbn [fst snd]. apply step_not_hidden.
    rewrite <- visible_walk_files in Hin.
    by apply list_elem_of_filter in Hin as [Hin _].
  - intros [root f] s _ Hh. cbn [fst snd] in *. apply step_hidden.
    by destruct (startswith f (lit ".")).
Qed.

End Step.
End HiddenFacts.

(** ** What one accepted file leaves *)

Module WriteFacts.
Import Py.

Section Step.
Context (U : UnicodeData) (w : World)
        (extract : text → text * list log_record)
        (clean : text → text) (no_text : text → bool) (message : string)
        (input_dir output_dir : text) (max_file_size : N)
        (skip_hidden : bool).

Local Abbreviation file_step :=
  (step U w extract clean no_text message input_dir output_dir
     max_file_size skip_hidden).

Lemma step_written (root file_name out_path : text) (st : state) :
  let full_path := PosixPath.join root [file_name] in
  let final_text := clean (extract full_path).1 in
  accepted U w max_file_size skip_hidden root file_name →
  Files2Text.out_path_of w input_dir output_dir full_path = Ok out_path →
  makedirs w (PosixPath.dirname out_path) = Ok () →
  no_text final_text = false →
  open_write w out_path = Ok () →
  write w out_path final_text = Ok () →
  file_step root file_name st
  = Ok (State (<[out_path := final_text]> (st_files st))
          ({[PosixPath.dirname out_path]} ∪ st_dirs st)
          (st_log st ++ (extract full_path).2
           ++ [LogRecord INFO "Wrote text to %s" [ArgStr out_path]])).
Proof.
  intros full_path final_text Hacc Hout Hmk Htext Hopen Hwrite.
  rewrite (RunFacts.step_accepted _ _ _ _ _ _ _ _ _ _ _ _ _ Hacc).
  cbv zeta. fold full_path. rewrite Hout. cbn [bind]. rewrite Hmk.
  cbn [bind]. f_equal. unfold step_write. subst final_text.
  destruct (extract full_path) as [raw records]. cbn [fst snd] in *.
  rewrite Htext, Hopen, Hwrite. unfold add_log, put_file, add_dir. cbn.
  by rewrite insert_insert_eq, <- app_assoc.
Qed.

Lemma step_no_text (root file_name out_path : text) (st : state) :
  let full_path := PosixPath.join root [file_name] in
  accepted U w max_file_size skip_hidden root file_name →
  Files2Text.out_path_of w input_dir output_dir full_path = Ok out_path →
  makedirs w (PosixPath.dirname out_path) = Ok () →
  no_text (clean (extract full_path).1) = true →
  file_step root file_name st
  = Ok (State (st_files st)
          ({[PosixPath.dirname out_path]} ∪ st_dirs st)
          (st_log st ++ (extract full_path).2
           ++ [LogRecord DEBUG message [ArgStr full_path]])).
Proof.
  intros full_path Hacc Hout Hmk Htext.
  rewrite (RunFacts.step_accepted _ _ _ _ _ _ _ _ _ _ _ _ _ Hacc).
  cbv zeta. fold full_path. rewrite Hout. cbn [bind]. rewrite Hmk.
  cbn [bind]. f_equal. unfold step_write.
  destruct (extract full_path) as [raw records]. cbn [fst snd] in *.
  rewrite Htext. unfold add_log, add_dir. cbn.
  by rewrite <- app_assoc.
Qed.

End Step.

(** The formats that are listed but have no reader. *)
Lemma text_extract_without_reader (U : UnicodeData) (w : World)
    (imports : Imports) (filepath : text) :
  let ext := lower U (PosixPath.splitext filepath).2 in
  (ext ∈ lit <$> [".doc"; ".rtf"] →
   Files2Text.extract_text_from_file U w imports filepath
   = ([], [LogRecord WARNING
             "Native reading not implemented for %s; consider external tools."
             [ArgStr ext]]))
  ∧ (ext ∈ lit <$> [".ppt"; ".pptx"; ".odp"] →
     Files2Text.extract_text_from_file U w imports filepath
     = ([], [LogRecord WARNING
               "Parsing for PPT/ODP not implemented in this script." []])).
Proof.
  intros ext. unfold Files2Text.extract_text_from_file. fold ext.
  split; intros Hext; apply list_elem_of_fmap in Hext as (s & Hs & Hin);
    rewrite Hs;
    repeat (apply elem_of_cons in Hin as [->|Hin]; [by vm_compute|]);
    by apply elem_of_nil in Hin.
Qed.

Lemma extract_without_reader (U : UnicodeData) (w : World)
    (imports : Imports) (filepath : text) :
  lower U (PosixPath.splitext filepath).2
    ∈ lit <$> [".doc"; ".rtf"; ".ppt"; ".pptx"; ".odp"] →
  ∀ extract,
    extract ∈ [Files2Text.extract_text_from_file;
               Files2Zip.extract_text_from_file;
               RawText2Utf8.extract_text_from_file] →
    (extract U w imports filepath).1 = []
    ∧ log_level <$> (extract U w imports filepath).2 = [WARNING].
Proof.
  intros Hext.
  assert ((Files2Text.extract_text_from_file U w imports filepath).1 = []
          ∧ log_level <$> (Files2Text.extract_text_from_file U w imports
                             filepath).2 = [WARNING]) as [H1 H2].
  { destruct (text_extract_without_reader U w imports filepath) as [Hd Hp].
    cbv zeta in Hd, Hp.
    apply list_elem_of_fmap in Hext as (s & Hs & Hin).
    repeat (apply elem_of_cons in Hin as [->|Hin];
            [first [ rewrite Hd; [done|]; rewrite Hs;
                     apply (list_elem_of_fmap_2 lit);
                     apply (bool_decide_unpack _); by vm_compute
                   | rewrite Hp; [done|]; rewrite Hs;
                     apply (list_elem_of_fmap_2 lit);
                     apply (bool_decide_unpack _); by vm_compute ]|]).
    by apply elem_of_nil in Hin. }
  intros extract Hin. rewrite !elem_of_cons in Hin.
  destruct Hin as [->|[->|[->|Hin]]]; [done| |done|by apply elem_of_nil in Hin].
  pose proof (ExtractFacts.extract_zip U w imports filepath) as (Hz1 & Hz2 & _).
  cbv zeta in Hz1, Hz2. by rewrite Hz1, Hz2.
Qed.

End WriteFacts.

Section Scripts.
Context (U : UnicodeData) (w : World) (imports : Imports)
        (input_dir output_dir : text) (max_file_size : N)
        (skip_hidden : bool).

(** The three scripts, for a statement about each of them. *)
Ltac each_script H :=
  rewrite !elem_of_cons in H;
  destruct H as [->|[->|[->|H]]]; [| | |by apply elem_of_nil in H];
  [rewrite ?RunFacts.text_run in *
  |rewrite ?RunFacts.zip_run in *
  |rewrite ?RunFacts.raw_run in *].

(** X10.  Whatever a completed run wrote, it wrote for an accepted input:
    a path whose content differs after [convert_files_to_txt] ends in
    [.txt] and is the output path of a file the walk reported (so not
    below a hidden directory when hidden entries are skipped) that is not
    hidden itself, has a listed extension and a size of at most
    [max_file_size] (a file of exactly that size is converted), and whose
    output directory and output file could be opened.  Nothing else is
    created, changed or removed. *)
Theorem written_files_come_from_accepted_inputs
    (convert : UnicodeData → World → Imports → text → text → N → bool →
               state → outcome state)
    (st st' : state) (p : text) :
  convert ∈ [Files2Text.convert_files_to_txt;
             Files2Zip.convert_files_to_txt;
             RawText2Utf8.convert_files_to_txt] →
  convert U w imports input_dir output_dir max_file_size skip_hidden st
  = Ok st' →
  st_files st' !! p ≠ st_files st !! p →
  Py.endswith p (Py.lit ".txt") = true
  ∧ ∃ t root file_name,
      scandir w input_dir = Some t
      ∧ (root, file_name) ∈ walk_files skip_hidden input_dir t
      ∧ accepted U w max_file_size skip_hidden root file_name
      ∧ Files2Text.out_path_of w input_dir output_dir
          (PosixPath.join root [file_name]) = Ok p
      ∧ makedirs w (PosixPath.dirname p) = Ok ()
      ∧ open_write w p = Ok ().
Proof.
  intros Hc Hrun Hp.
  assert (∃ root file_name,
            (root, file_name)
              ∈ match scandir w input_dir with
                | Some t => walk_files skip_hidden input_dir t
                | None => []
                end
            ∧ accepted U w max_file_size skip_hidden root file_name
            ∧ Files2Text.out_path_of w input_dir output_dir
                (PosixPath.join root [file_name]) = Ok p
            ∧ makedirs w (PosixPath.dirname p) = Ok ()
            ∧ open_write w p = Ok ())
    as (root & f & Hw & Hacc & Hout & Hmk & Hopen).
  { each_script Hc;
      by apply ConvertFacts.run_frame in Hrun as (_ & _ & Hch); apply Hch. }
  split; [by eapply PathMore.out_path_txt|].
  destruct (scandir w input_dir) as [t|]; [|by apply elem_of_nil in Hw].
  by exists t, root, f.
Qed.


(** X12.  A directory that cannot be created ends the run at once.  When
    [os.makedirs] raises for the output directory of one accepted file of
    the walk, [convert_files_to_txt] raises that exception: the files
    after it are not converted and "Conversion complete." is not logged.
    (The statement takes every failure of [os.makedirs] to raise the same
    exception, so that it does not matter which file meets it first.) *)
Theorem makedirs_failure_ends_the_run
    (convert : UnicodeData → World → Imports → text → text → N → bool →
               state → outcome state)
    (st : state) (t : tree) (root file_name out_path : text) (e : exn) :
  convert ∈ [Files2Text.convert_files_to_txt;
             Files2Zip.convert_files_to_txt;
             RawText2Utf8.convert_files_to_txt] →
  input_dir ≠ [] →
  scandir w input_dir = Some t →
  (root, file_name) ∈ walk_files skip_hidden input_dir t →
  accepted U w max_file_size skip_hidden root file_name →
  Files2Text.out_path_of w input_dir output_dir
    (PosixPath.join root [file_name]) = Ok out_path →
  makedirs w (PosixPath.dirname out_path) = Raise e →
  (∀ q e', makedirs w q = Raise e' → e' = e) →
  convert U w imports input_dir output_dir max_file_size skip_hidden st
  = Raise e.
Proof.
  intros Hc Hin Ht Hw Hacc Hout Hmk Hsame.
  each_script Hc;
    (eapply ConvertFacts.run_raise; [done| |done..]; by rewrite Ht).
Qed.

(** X13.  An input directory that cannot be listed (it does not exist, or
    is not a directory), or in which every file the walk reports is
    hidden or has no listed extension, is not an error: the run creates
    the output directory if it is missing, logs "Starting conversion" and
    "Conversion complete.", and does nothing else. *)
Theorem nothing_to_convert
    (convert : UnicodeData → World → Imports → text → text → N → bool →
               state → outcome state)
    (st : state) :
  convert ∈ [Files2Text.convert_files_to_txt;
             Files2Zip.convert_files_to_txt;
             RawText2Utf8.convert_files_to_txt] →
  (∀ t root file_name,
     scandir w input_dir = Some t →
     (root, file_name) ∈ walk_files skip_hidden input_dir t →
     skip_hidden = true ∧ Py.startswith file_name (Py.lit ".") = true
     ∨ lower U (PosixPath.splitext file_name).2
         ∉ Files2Text.allowed_extensions) →
  let records :=
    [LogRecord INFO "Starting conversion from %s to %s"
       [ArgStr input_dir; ArgStr output_dir];
     LogRecord INFO "Conversion complete." []] in
  (path_exists w output_dir = true →
   convert U w imports input_dir output_dir max_file_size skip_hidden st
   = Ok (add_log st records))
  ∧ (path_exists w output_dir = false →
     makedirs w output_dir = Ok () →
     convert U w imports input_dir output_dir max_file_size skip_hidden st
     = Ok (add_log (add_dir st output_dir) records)).
Proof.
  intros Hc Hnone records.
  assert (∀ root file_name,
            (root, file_name)
              ∈ match scandir w input_dir with
                | Some t => walk_files skip_hidden input_dir t
                | None => []
                end →
            skip_hidden = true ∧ Py.startswith file_name (Py.lit ".") = true
            ∨ lower U (PosixPath.splitext file_name).2
                ∉ Files2Text.allowed_extensions) as Hnone'.
  { intros root f Hw.
    destruct (scandir w input_dir) as [t|]; [|by apply elem_of_nil in Hw].
    by eapply Hnone. }
  each_script Hc;
    (rewrite ConvertFacts.run_nothing by exact Hnone';
     split; [intros ->; reflexivity|intros -> ->; reflexivity]).
Qed.

(** X14.  With [skip_hidden], the files and the directories whose name
    starts with a dot do not exist for the conversion: the walk does what
    a walk that skips nothing does on the tree from which they have been
    removed.  A hidden directory is not entered, so the files below it
    are not converted even when their own names are not hidden. *)
Theorem hidden_entries_are_invisible
    (walk : UnicodeData → World → Imports → text → text → N → bool →
            text → tree → state → outcome state)
    (top : text) (t : tree) (st : state) :
  walk ∈ [Files2Text.walk; Files2Zip.walk; RawText2Utf8.walk] →
  walk U w imports input_dir output_dir max_file_size true top t st
  = walk U w imports input_dir output_dir max_file_size false top
      (visible t) st.
Proof.
  intros Hw. rewrite !elem_of_cons in Hw.
  destruct Hw as [->|[->|[->|Hw]]]; [| | |by apply elem_of_nil in Hw].
  - rewrite !WalkFacts.text_walk, !RunFacts.text_step.
    apply HiddenFacts.for_each_visible.
  - rewrite !WalkFacts.zip_walk, !RunFacts.zip_step.
    apply HiddenFacts.for_each_visible.
  - rewrite !WalkFacts.raw_walk, !RunFacts.raw_step.
    apply HiddenFacts.for_each_visible.
Qed.

(** X15.  A file name without an extension (no dot after its first
    character: [README], [Makefile], [LICENSE], and also [.gitignore] or
    [.env], whose only dot is the leading one) is never converted, with
    or without [skip_hidden]: [splitext] gives it the empty extension,
    which is not listed, and the file is passed over without a log
    record. *)
Theorem file_without_extension_is_skipped
    (process : UnicodeData → World → Imports → text → text → N → bool →
               text → text → state → outcome state)
    (root file_name : text) (st : state) :
  process ∈ [Files2Text.process_file; Files2Zip.process_file;
             RawText2Utf8.process_file] →
  PosixPath.sep ∉ file_name →
  PosixPath.extsep ∉ tail file_name →
  lower U [] = [] →
  (PosixPath.splitext file_name).2 = []
  ∧ process U w imports input_dir output_dir max_file_size skip_hidden
      root file_name st = Ok st.
Proof.
  intros Hp Hsep Hdot Hlower.
  pose proof (PathMore.splitext_no_extension file_name Hsep Hdot) as Hext.
  split; [by rewrite Hext|].
  rewrite !elem_of_cons in Hp.
  destruct Hp as [->|[->|[->|Hp]]]; [| | |by apply elem_of_nil in Hp];
    [rewrite RunFacts.text_step|rewrite RunFacts.zip_step
    |rewrite RunFacts.raw_step];
    (apply RunFacts.step_filtered; right; rewrite Hext; cbn [snd];
     rewrite Hlower; apply (bool_decide_unpack _); by vm_compute).
Qed.

(** X16.  Five listed extensions have no reader: [.doc], [.rtf], [.ppt],
    [.pptx] and [.odp].  A file with one of them passes the filter and
    has its output directory created, but all the dispatcher does is log
    a WARNING and return the empty string, so the step logs a DEBUG
    record after it and writes no file: such a file can leave an empty
    directory in the output tree and never a text. *)
Theorem listed_formats_without_reader
    (process : UnicodeData → World → Imports → text → text → N → bool →
               text → text → state → outcome state)
    (root file_name out_path : text) (st : state) :
  process ∈ [Files2Text.process_file; Files2Zip.process_file;
             RawText2Utf8.process_file] →
  PosixPath.sep ∉ file_name →
  lower U (PosixPath.splitext file_name).2
    ∈ Py.lit <$> [".doc"; ".rtf"; ".ppt"; ".pptx"; ".odp"] →
  accepted U w max_file_size skip_hidden root file_name →
  Files2Text.out_path_of w input_dir output_dir
    (PosixPath.join root [file_name]) = Ok out_path →
  makedirs w (PosixPath.dirname out_path) = Ok () →
  normalize_NFC U [] = [] →
  ∃ st',
    process U w imports input_dir output_dir max_file_size skip_hidden
      root file_name st = Ok st'
    ∧ st_files st' = st_files st
    ∧ st_dirs st' = {[PosixPath.dirname out_path]} ∪ st_dirs st
    ∧ log_level <$> st_log st' = (log_level <$> st_log st) ++ [WARNING; DEBUG].
Proof.
  intros Hp Hsep Hext Hacc Hout Hmk Hnfc.
  rewrite <- (PathMore.splitext_full_path root file_name Hsep) in Hext.
  pose proof (WriteFacts.extract_without_reader U w imports _ Hext) as Hx.
  assert (Files2Zip.sanitize_text U [] = []) as Hs.
  { by rewrite SanitizerFacts.sanitize_text_unfold, Hnfc. }
  rewrite !elem_of_cons in Hp.
  destruct Hp as [->|[->|[->|Hp]]]; [| | |by apply elem_of_nil in Hp].
  - destruct (Hx Files2Text.extract_text_from_file) as [H1 H2];
      [apply list_elem_of_here|].
    eexists. rewrite RunFacts.text_step.
    rewrite (WriteFacts.step_no_text _ _ _ _ _ _ _ _ _ _ _ _ out_path)
      by (by rewrite ?H1).
    split; [reflexivity|]. cbn [st_files st_dirs st_log].
    split; [done|]. split; [done|]. by rewrite !fmap_app, H2.
  - destruct (Hx Files2Zip.extract_text_from_file) as [H1 H2];
      [apply list_elem_of_further, list_elem_of_here|].
    eexists. rewrite RunFacts.zip_step.
    rewrite (WriteFacts.step_no_text _ _ _ _ _ _ _ _ _ _ _ _ out_path)
      by (by rewrite ?H1, ?Hs).
    split; [reflexivity|]. cbn [st_files st_dirs st_log].
    split; [done|]. split; [done|]. by rewrite !fmap_app, H2.
  - destruct (Hx RawText2Utf8.extract_text_from_file) as [H1 H2];
      [do 2 apply list_elem_of_further; apply list_elem_of_here|].
    eexists. rewrite RunFacts.raw_step.
    rewrite (WriteFacts.step_no_text _ _ _ _ _ _ _ _ _ _ _ _ out_path)
      by (by rewrite ?H1, ?SanitizerFacts.sanitize_text_same, ?Hs).
    split; [reflexivity|]. cbn [st_files st_dirs st_log].
    split; [done|]. split; [done|]. by rewrite !fmap_app, H2.
Qed.

(** X17.  What a converted file holds.  For an accepted file whose
    output directory and output file can be opened and written,
    [files_2_text.py] writes the extracted text exactly as the reader
    returned it (white space at the ends and control characters
    included), provided it is not blank; [files_2_zip.py] and
    [raw_text_2_utf8.py] write the sanitised text, provided it is not
    empty.  In each case the file replaces whatever was at the output
    path, the records of the reader are followed by one INFO record, and
    the directory of the output path is recorded. *)
Theorem converted_file_holds_the_text (root file_name out_path : text)
    (st : state) :
  let full_path := PosixPath.join root [file_name] in
  let wrote text records :=
    Ok (State (<[out_path := text]> (st_files st))
          ({[PosixPath.dirname out_path]} ∪ st_dirs st)
          (st_log st ++ records
           ++ [LogRecord INFO "Wrote text to %s" [ArgStr out_path]])) in
  accepted U w max_file_size skip_hidden root file_name →
  Files2Text.out_path_of w input_dir output_dir full_path = Ok out_path →
  makedirs w (PosixPath.dirname out_path) = Ok () →
  open_write w out_path = Ok () →
  (∀ text records,
     Files2Text.extract_text_from_file U w imports full_path
     = (text, records) →
     Py.strip text ≠ [] →
     write w out_path text = Ok () →
     Files2Text.process_file U w imports input_dir output_dir max_file_size
       skip_hidden root file_name st = wrote text records)
  ∧ (∀ raw_text records,
       Files2Zip.extract_text_from_file U w imports full_path
       = (raw_text, records) →
       Files2Zip.sanitize_text U raw_text ≠ [] →
       write w out_path (Files2Zip.sanitize_text U raw_text) = Ok () →
       Files2Zip.process_file U w imports input_dir output_dir max_file_size
         skip_hidden root file_name st
       = wrote (Files2Zip.sanitize_text U raw_text) records)
  ∧ (∀ raw_text records,
       RawText2Utf8.extract_text_from_file U w imports full_path
       = (raw_text, records) →
       RawText2Utf8.sanitize_text U raw_text ≠ [] →
       write w out_path (RawText2Utf8.sanitize_text U raw_text) = Ok () →
       RawText2Utf8.process_file U w imports input_dir output_dir
         max_file_size skip_hidden root file_name st
       = wrote (RawText2Utf8.sanitize_text U raw_text) records).
Proof.
  intros full_path wrote Hacc Hout Hmk Hopen. subst wrote. cbv beta.
  split; [|split].
  - intros text records Hx Htext Hwrite. rewrite RunFacts.text_step.
    rewrite (WriteFacts.step_written _ _ _ _ _ _ _ _ _ _ _ _ out_path);
      fold full_path; rewrite ?Hx; try done.
    unfold id. cbn [fst]. by destruct (Py.strip text).
  - intros raw records Hx Htext Hwrite. rewrite RunFacts.zip_step.
    rewrite (WriteFacts.step_written _ _ _ _ _ _ _ _ _ _ _ _ out_path);
      fold full_path; rewrite ?Hx; try done.
    cbn [fst]. by destruct (Files2Zip.sanitize_text U raw).
  - intros raw records Hx Htext Hwrite. rewrite RunFacts.raw_step.
    rewrite (WriteFacts.step_written _ _ _ _ _ _ _ _ _ _ _ _ out_path);
      fold full_path; rewrite ?Hx; try done.
    cbn [fst]. by destruct (RawText2Utf8.sanitize_text U raw).
Qed.

(** X18.  Two files of one directory that differ only in their extension
    ([report.pdf] and [report.docx]) have the same output path, since the
    extension is dropped before [.txt] is appended.  Converting both
    changes that one path at most: the file written for the first is
    replaced by the file written for the second, and nothing tells. *)
Theorem same_stem_same_output
    (process : UnicodeData → World → Imports → text → text → N → bool →
               text → text → state → outcome state)
    (dirs : list text) (name1 name2 : text) (st st1 st2 : state) :
  let root := fold_left PosixPath.join_step dirs input_dir in
  process ∈ [Files2Text.process_file; Files2Zip.process_file;
             RawText2Utf8.process_file] →
  PosixPath.isabs (getcwd w) = true →
  Forall entry_name dirs →
  entry_name name1 →
  entry_name name2 →
  (PosixPath.splitext name1).1 = (PosixPath.splitext name2).1 →
  process U w imports input_dir output_dir max_file_size skip_hidden
    root name1 st = Ok st1 →
  process U w imports input_dir output_dir max_file_size skip_hidden
    root name2 st1 = Ok st2 →
  Files2Text.out_path_of w input_dir output_dir (PosixPath.join root [name1])
  = Files2Text.out_path_of w input_dir output_dir (PosixPath.join root [name2])
  ∧ ∀ p, st_files st2 !! p ≠ st_files st !! p →
         Files2Text.out_path_of w input_dir output_dir
           (PosixPath.join root [name1]) = Ok p.
Proof.
  intros root Hp Hcwd Hdirs Hn1 Hn2 Hstem H1 H2.
  assert (Files2Text.out_path_of w input_dir output_dir
            (PosixPath.join root [name1])
          = Files2Text.out_path_of w input_dir output_dir
              (PosixPath.join root [name2])) as Hsame.
  { unfold Files2Text.out_path_of, root.
    rewrite !OutputFacts.rel_path_below by done. cbn [bind].
    by rewrite !OutputFacts.base_name_below, Hstem by done. }
  split; [exact Hsame|]. intros p Hch.
  assert (∀ name s s',
            process U w imports input_dir output_dir max_file_size
              skip_hidden root name s = Ok s' →
            st_files s' !! p ≠ st_files s !! p →
            Files2Text.out_path_of w input_dir output_dir
              (PosixPath.join root [name]) = Ok p) as Hstep.
  { intros name s s' Hs Hne. rewrite !elem_of_cons in Hp.
    destruct Hp as [->|[->|[->|Hp]]]; [| | |by apply elem_of_nil in Hp];
      [rewrite RunFacts.text_step in Hs|rewrite RunFacts.zip_step in Hs
      |rewrite RunFacts.raw_step in Hs];
      by apply RunFacts.step_frame in Hs as (_ & _ & Hf);
         apply Hf in Hne as (_ & Ho & _). }
  destruct (decide (st_files st1 !! p = st_files st !! p)) as [Heq|Hne].
  - rewrite Hsame. apply (Hstep name2 st1 st2 H2). by rewrite Heq.
  - by apply (Hstep name1 st st1 H1).
Qed.

End Scripts.

(** ** The archive *)

Module ArchiveFacts.
Import Py PosixPath.

#[local] Arguments Py.startswith : simpl never.
#[local] Arguments Py.endswith : simpl never.
#[local] Arguments Py.lit : simpl never.
#[local] Arguments PosixPath.join : simpl never.

Lemma for_members_app {A}
    (body : A → list member → list member * option exn) (xs ys : list A)
    (members : list member) :
  for_members body (xs ++ ys) members
  = match for_members body xs members with
    | (members, None) => for_members body ys members
    | stopped => stopped
    end.
Proof.
  revert members. induction xs as [|x xs IH]; intros members; [done|].
  cbn. destruct (body x members) as [ms [e|]]; [done|apply IH].
Qed.

Section Walk.
Context (w : World) (z : ZipModule) (output_dir : text).

Lemma add_files_for_members (root : text) (files : list text)
    (members : list member) :
  Files2Zip.add_files w z output_dir root files members
  = for_members (λ rf, Files2Zip.add_file w z output_dir rf.1 rf.2)
      ((λ file_name, (root, file_name)) <$> files) members.
Proof.
  revert members. induction files as [|f files IH]; intros members; [done|].
  cbn. destruct (Files2Zip.add_file w z output_dir root f members)
    as [ms [e|]]; [done|apply IH].
Qed.

Lemma add_tree_for_members : ∀ (t : tree) (top : text) (members : list member),
  Files2Zip.add_tree w z output_dir top t members
  = for_members (λ rf, Files2Zip.add_file w z output_dir rf.1 rf.2)
      (walk_files false top t) members.
Proof.
  intros t. induction t as [subdirs files IH] using WalkFacts.tree_rect'.
  intros top members. cbn [Files2Zip.add_tree walk_files].
  rewrite for_members_app, add_files_for_members.
  destruct (for_members _ (_ <$> files) members) as [ms [e|]]; [done|].
  clear members. revert ms IH.
  induction subdirs as [|[d sub] subdirs IHs]; intros ms IH; [done|].
  apply Forall_cons in IH as [IHsub IH]. cbn [snd] in IHsub.
  cbn [andb]. rewrite for_members_app, <- IHsub.
  destruct (Files2Zip.add_tree w z output_dir (join top [d]) sub ms)
    as [ms' [e|]]; [done|by apply IHs].
Qed.

End Walk.

Lemma walk_files_entries : ∀ (t : tree) (top : text),
  walk_files false top t
  = (λ e : list text * text, (fold_left join_step e.1 top, e.2))
      <$> walk_entries t.
Proof.
  intros t. induction t as [subdirs files IH] using WalkFacts.tree_rect'.
  intros top. cbn [walk_files walk_entries]. rewrite fmap_app. f_equal.
  - rewrite <- list_fmap_compose. by apply list_fmap_ext.
  - clear files. induction subdirs as [|[d sub] subdirs IHs]; [done|].
    apply Forall_cons in IH as [IHsub IH]. cbn [snd] in IHsub.
    cbn [andb]. rewrite fmap_app, IHsub, <- list_fmap_compose.
    f_equal. by apply IHs.
Qed.

Lemma walk_entries_names (t : tree) :
  tree_names t →
  Forall (λ e : list text * text, Forall entry_name e.1 ∧ entry_name e.2)
    (walk_entries t).
Proof.
  induction t as [subdirs files IH] using WalkFacts.tree_rect'.
  intros [Hfiles Hdirs]. cbn [walk_entries]. apply Forall_app. split.
  - apply Forall_fmap. eapply Forall_impl; [exact Hfiles|].
    intros f Hf. by split.
  - clear Hfiles files. revert IH Hdirs.
    induction subdirs as [|[d sub] subdirs IHs]; intros IH Hdirs;
      [constructor|].
    apply Forall_cons in IH as [IHsub IH]. cbn [snd] in IHsub.
    destruct Hdirs as (Hd & Hsub & Hrest).
    apply Forall_app. split; [|by apply IHs].
    apply Forall_fmap. eapply Forall_impl; [by apply IHsub|].
    intros [ds f] [Hds Hf]. split; [by constructor|done].
Qed.

Lemma dirname_bare (d : text) : sep ∉ d → dirname d = [].
Proof.
  intros Hd. unfold dirname. by rewrite PathFacts.rfind_not_in.
Qed.

Lemma dirname_child (d child : text) (x : char) :
  last d = Some x → x ≠ sep → sep ∉ child →
  dirname (d ++ sep :: child) = d.
Proof.
  intros Hlast Hx Hchild. unfold dirname.
  assert (rfind sep (sep :: child) = 0%Z) as Hr.
  { cbn [rfind]. rewrite (PathFacts.rfind_not_in sep child Hchild).
    by rewrite N.eqb_refl. }
  rewrite PathFacts.rfind_app, Hr. cbn [Z.leb Z.compare].
  assert (upto (Z.of_nat (length d) + 0 + 1) (d ++ sep :: child)
          = d ++ [sep]) as ->.
  { unfold upto. replace (Z.to_nat (Z.of_nat (length d) + 0 + 1))
      with (length d + 1) by lia.
    by rewrite take_app_add'. }
  assert (forallb (N.eqb sep) (d ++ [sep]) = false) as ->.
  { apply not_true_is_false. rewrite forallb_forall. intros Hall.
    apply Hx. symmetry. apply N.eqb_eq, Hall, in_or_app. left.
    apply list_elem_of_In. apply last_Some in Hlast as [d' ->].
    apply elem_of_app. right. apply list_elem_of_here. }
  assert (is_empty (d ++ [sep]) = false) as -> by by destruct d.
  cbn [negb andb]. unfold rstrip_sep.
  rewrite reverse_snoc. cbn [lstrip_sep]. rewrite N.eqb_refl.
  apply last_Some in Hlast as [d' ->]. rewrite reverse_snoc.
  cbn [lstrip_sep]. rewrite (proj2 (N.eqb_neq x sep) Hx).
  by rewrite <- reverse_snoc, reverse_involutive.
Qed.

Lemma join_dir_name (d name : text) (x : char) :
  last d = Some x → x ≠ sep → startswith name [sep] = false →
  join d [name] = d ++ sep :: name.
Proof.
  intros Hlast Hx Hname. unfold join. cbn [fold_left]. unfold join_step.
  rewrite Hname, PathFacts.endswith_1, Hlast.
  rewrite (proj2 (N.eqb_neq x sep) Hx). by destruct d.
Qed.

(** Joining the names one by one is joining their rendering at once. *)
Lemma join_step_names (q : text) (ns : list text) :
  ns ≠ [] → Forall entry_name ns →
  fold_left join_step ns q = join_step q (Py.join [sep] ns).
Proof.
  destruct ns as [|n ns]; [done|]. intros _ Hns.
  apply Forall_cons in Hns as [Hn Hns]. cbn [fold_left].
  destruct (PathFacts.entry_name_last n Hn) as (x & Hx & Hne).
  rewrite PathFacts.join_names_fold; [| |done].
  2:{ unfold join_step.
      destruct (startswith n [sep]); [by exists x|].
      destruct (is_empty q || endswith q [sep]);
        exists x; (split; [|done]);
        rewrite ?app_assoc; rewrite PathFacts.last_app_nonempty; try done;
        by destruct Hn as [Hn _]. }
  rewrite PathFacts.py_join_cons.
  set (rest := concat ((λ n0, sep :: n0) <$> ns)).
  pose proof (PathFacts.entry_name_no_slash n Hn) as Hs.
  unfold join_step. rewrite Hs.
  assert (startswith (n ++ rest) [sep] = false) as ->.
  { rewrite PathFacts.startswith_1 in Hs |- *.
    destruct n; [by destruct Hn|done]. }
  destruct (is_empty q || endswith q [sep]); by rewrite <- !app_assoc.
Qed.

Lemma entry_name_txt (file_name : text) :
  entry_name file_name →
  entry_name ((splitext file_name).1 ++ lit ".txt").
Proof.
  intros (Hne & Hsep & Hcur & Hpar).
  pose proof (PathFacts.splitext_concat file_name) as Hcat.
  assert ((splitext file_name).1 ≠ []) as Hbase.
  { by apply OutputFacts.base_name_nonempty. }
  split; [|split; [|split]].
  - by destruct (splitext file_name).1.
  - intros Hin. apply elem_of_app in Hin as [Hin|Hin].
    + apply Hsep. rewrite <- Hcat. apply elem_of_app. by left.
    + revert Hin. apply (bool_decide_unpack (sep ∉ lit ".txt")).
      by vm_compute.
  - intros Heq. apply (f_equal length) in Heq.
    rewrite length_app in Heq.
    change (length (lit ".txt")) with 4 in Heq.
    change (length curdir) with 1 in Heq. lia.
  - intros Heq. apply (f_equal length) in Heq.
    rewrite length_app in Heq.
    change (length (lit ".txt")) with 4 in Heq.
    change (length pardir) with 2 in Heq. lia.
Qed.

Section Members.
Context (w : World) (z : ZipModule) (output_dir : text).
Context (Hcwd : isabs (getcwd w) = true).

(** What [zip_output_dir] does with a file it finds below [output_dir],
    through the directories [dirs]. *)
Lemma add_file_entry (dirs : list text) (file_name : text)
    (members : list member) :
  Forall entry_name dirs → entry_name file_name →
  let root := fold_left join_step dirs output_dir in
  zf_write z (join root [file_name]) (Py.join [sep] (dirs ++ [file_name]))
  = Ok () →
  Files2Zip.add_file w z output_dir root file_name members
  = if endswith file_name (lit ".txt")
    then (members ++ [Member (join root [file_name])
                        (Py.join [sep] (dirs ++ [file_name]))], None)
    else (members, None).
Proof.
  intros Hdirs Hname root Hwrite. unfold Files2Zip.add_file.
  destruct (endswith file_name (lit ".txt")); [|done].
  unfold root.
  rewrite (OutputFacts.rel_path_below w output_dir dirs file_name) by done.
  fold root. by rewrite Hwrite.
Qed.

Lemma for_members_entries (entries : list (list text * text))
    (members : list member) :
  (∀ f a, zf_write z f a = Ok ()) →
  Forall (λ e : list text * text, Forall entry_name e.1 ∧ entry_name e.2)
    entries →
  for_members (λ rf, Files2Zip.add_file w z output_dir rf.1 rf.2)
    ((λ e : list text * text, (fold_left join_step e.1 output_dir, e.2))
       <$> entries) members
  = (members
     ++ ((λ e : list text * text,
            Member (join (fold_left join_step e.1 output_dir) [e.2])
              (Py.join [sep] (e.1 ++ [e.2])))
           <$> filter (λ e : list text * text,
                         endswith e.2 (lit ".txt") = true) entries),
     None).
Proof.
  intros Hwrite Hnames. revert members.
  induction Hnames as [|[dirs f] entries [Hd Hf] _ IH]; intros members.
  - cbn. by rewrite app_nil_r.
  - rewrite fmap_cons. cbn [for_members fst snd].
    rewrite add_file_entry by done. rewrite filter_cons. cbn [snd].
    destruct (endswith f (lit ".txt")).
    + rewrite decide_True by done. rewrite IH, fmap_cons.
      by rewrite <- app_assoc.
    + rewrite decide_False by done. apply IH.
Qed.

End Members.

End ArchiveFacts.

(** X19.  Where the archive goes.  [zip_output_dir] creates the archive in
    the directory [os.path.dirname(output_dir)].  For an output directory
    given as [parent/child] that is [parent], so the archive lies beside
    the output directory; for a bare name it is the current directory;
    but for an output directory written with a trailing slash, as in the
    usage line of the script ([txt_output/]), [dirname] only drops the
    slash and the archive is created inside the output directory. *)
Theorem archive_location (w : World) (z : ZipModule)
    (output_dir zip_name : text) (log : list log_record) :
  Py.startswith zip_name [PosixPath.sep] = false →
  let created := zr_path (Files2Zip.zip_output_dir w z output_dir zip_name log) in
  (PosixPath.sep ∉ output_dir →
   ZipFile z zip_name = Ok () → created = Some zip_name)
  ∧ (∀ parent child x,
       output_dir = parent ++ PosixPath.sep :: child →
       last parent = Some x → x ≠ PosixPath.sep →
       PosixPath.sep ∉ child →
       ZipFile z (parent ++ PosixPath.sep :: zip_name) = Ok () →
       created = Some (parent ++ PosixPath.sep :: zip_name))
  ∧ (∀ x,
       last output_dir = Some PosixPath.sep →
       last (removelast output_dir) = Some x → x ≠ PosixPath.sep →
       ZipFile z (output_dir ++ zip_name) = Ok () →
       created = Some (output_dir ++ zip_name)).
Proof.
  intros Hname created.
  assert (∀ parent child x,
            output_dir = parent ++ PosixPath.sep :: child →
            last parent = Some x → x ≠ PosixPath.sep →
            PosixPath.sep ∉ child →
            ZipFile z (parent ++ PosixPath.sep :: zip_name) = Ok () →
            created = Some (parent ++ PosixPath.sep :: zip_name)) as Hchild.
  { intros parent child x -> Hlast Hx Hchild Hzip.
    unfold created, Files2Zip.zip_output_dir.
    rewrite (ArchiveFacts.dirname_child parent child x) by done.
    rewrite (ArchiveFacts.join_dir_name parent zip_name x) by done.
    rewrite Hzip. by repeat case_match. }
  split; [|split; [exact Hchild|]].
  - intros Hbare Hzip. unfold created, Files2Zip.zip_output_dir.
    rewrite ArchiveFacts.dirname_bare by done.
    assert (PosixPath.join [] [zip_name] = zip_name) as ->.
    { unfold PosixPath.join. cbn [fold_left]. unfold PosixPath.join_step.
      by rewrite Hname. }
    rewrite Hzip. by repeat case_match.
  - intros x Hsep Hlast Hx Hzip.
    apply last_Some in Hsep as [parent ->].
    rewrite removelast_last in Hlast.
    rewrite <- app_assoc in Hzip |- *.
    by apply (Hchild parent [] x); [..|apply not_elem_of_nil|].
Qed.

(** X20.  What the archive holds.  When the walk of [output_dir] and the
    archive module raise nothing, the members of the archive are exactly
    the files whose name ends in [.txt] (in lower case: the test is case
    sensitive), in the order of the walk, hidden files and the files of
    hidden directories included; each is stored under its path relative
    to [output_dir] (the directory names and the file name joined by
    slashes), so that the archive unpacks to the tree below [output_dir].
    The two INFO records are logged.  An output directory that cannot be
    listed gives an archive without members, and no error. *)
Theorem archive_members (w : World) (z : ZipModule)
    (output_dir zip_name : text) (log : list log_record) :
  PosixPath.isabs (getcwd w) = true →
  (∀ p, ZipFile z p = Ok ()) →
  (∀ f a, zf_write z f a = Ok ()) →
  (∀ p, zf_close z p = Ok ()) →
  (∀ t, scandir w output_dir = Some t → tree_names t) →
  let zip_path :=
    PosixPath.join (PosixPath.dirname output_dir) [zip_name] in
  Files2Zip.zip_output_dir w z output_dir zip_name log
  = ZipRun (Some zip_path)
      ((λ e : list text * text,
          Member
            (PosixPath.join (fold_left PosixPath.join_step e.1 output_dir)
               [e.2])
            (Py.join [PosixPath.sep] (e.1 ++ [e.2])))
         <$> filter (λ e : list text * text,
                       Py.endswith e.2 (Py.lit ".txt") = true)
               (from_option walk_entries [] (scandir w output_dir)))
      (log ++ [LogRecord INFO "Zipping all text files in %s -> %s"
                 [ArgStr output_dir; ArgStr zip_path];
               LogRecord INFO "Created zip archive at %s" [ArgStr zip_path]])
      None.
Proof.
  intros Hcwd Hzip Hwrite Hclose Hnames zip_path.
  unfold Files2Zip.zip_output_dir. fold zip_path.
  rewrite Hzip, Hclose.
  destruct (scandir w output_dir) as [t|].
  - rewrite ArchiveFacts.add_tree_for_members,
      ArchiveFacts.walk_files_entries.
    rewrite ArchiveFacts.for_members_entries;
      [|done|done|by apply ArchiveFacts.walk_entries_names, Hnames].
    cbn [app from_option]. by rewrite <- app_assoc.
  - cbn [from_option filter list_filter fmap list_fmap]. by rewrite <- app_assoc.
Qed.

(** X21.  The archive mirrors the input tree.  The text written for the
    input file [file_name], found below [input_dir] through the
    directories [dirs], lies below [output_dir] through the same
    directories, under the name of the input without its extension and
    with [.txt]; when [zip_output_dir] meets it there, it stores it under
    the relative path [dirs/base.txt]. *)
Theorem archive_mirrors_input (w : World) (z : ZipModule)
    (input_dir output_dir : text) (dirs : list text) (file_name : text)
    (members : list member) :
  PosixPath.isabs (getcwd w) = true →
  Forall entry_name dirs →
  entry_name file_name →
  let txt_name := (PosixPath.splitext file_name).1 ++ Py.lit ".txt" in
  let in_root := fold_left PosixPath.join_step dirs input_dir in
  let out_root := fold_left PosixPath.join_step dirs output_dir in
  let out_path := PosixPath.join out_root [txt_name] in
  let arc := Py.join [PosixPath.sep] (dirs ++ [txt_name]) in
  Files2Zip.out_path_of w input_dir output_dir
    (PosixPath.join in_root [file_name]) = Ok out_path
  ∧ Py.endswith txt_name (Py.lit ".txt") = true
  ∧ (zf_write z out_path arc = Ok () →
     Files2Zip.add_file w z output_dir out_root txt_name members
     = (members ++ [Member out_path arc], None)).
Proof.
  intros Hcwd Hdirs Hname txt_name in_root out_root out_path arc.
  pose proof (ArchiveFacts.entry_name_txt file_name Hname) as Htxt.
  fold txt_name in Htxt.
  assert (Py.endswith txt_name (Py.lit ".txt") = true) as Hend.
  { apply PathMore.endswith_app. }
  split; [|split; [exact Hend|]].
  - change (Files2Zip.out_path_of w input_dir output_dir)
      with (Files2Text.out_path_of w input_dir output_dir).
    unfold Files2Text.out_path_of, in_root.
    rewrite (OutputFacts.rel_path_below w input_dir dirs file_name) by done.
    cbn [bind]. rewrite OutputFacts.base_name_below by done. f_equal.
    transitivity (fold_left PosixPath.join_step (dirs ++ [txt_name])
                    output_dir); [|by rewrite fold_left_app].
    rewrite ArchiveFacts.join_step_names;
      [|by destruct dirs|by apply Forall_app; split; [|constructor]].
    unfold PosixPath.join. cbn [fold_left]. f_equal. unfold txt_name.
    by rewrite !PathFacts.py_join_snoc, <- app_assoc.
  - intros Hwrite.
    rewrite (ArchiveFacts.add_file_entry w z output_dir Hcwd dirs txt_name)
      by done.
    by rewrite Hend.
Qed.

(** ** The statements above on the sample environments *)

Lemma read_ipynb_string_source_witness :
  open_read Office.world (Py.lit "docs/nb.ipynb") = Ok Office.notebook_source
  ∧ Files2Text._read_ipynb Office.world (Py.lit "docs/nb.ipynb")
    = (Py.lit "# Title" ++ [Py.LF] ++ Py.lit "a = 1" ++ [Py.LF]
       ++ Py.lit "b = 2", []).
Proof.
  split; [reflexivity|].
  refine (proj1 (read_ipynb_string_source Office.world
            (Py.lit "docs/nb.ipynb") Office.notebook_source
            [(Py.lit "cells", _)] _
            [Py.lit "# Title"; Py.lit "a = 1" ++ [Py.LF] ++ Py.lit "b = 2"]
            _ _ _ _)).
  - reflexivity.
  - reflexivity.
  - reflexivity.
  - constructor; [|constructor; [|constructor]].
    + eexists. split; [reflexivity|]. by left.
    + eexists. split; [reflexivity|]. right.
      by exists [Py.lit "a = 1" ++ [Py.LF]; Py.lit "b = 2"].
Defined.

Lemma extract_unknown_extension_witness :
  (lower Sample.unicode (PosixPath.splitext (Py.lit "root/photo.JPG")).2
     ∉ Files2Text.allowed_extensions)
  ∧ Files2Zip.extract_text_from_file Sample.unicode Sample.world
      Sample.all_imports (Py.lit "root/photo.JPG") = ([], []).
Proof.
  assert (lower Sample.unicode (PosixPath.splitext (Py.lit "root/photo.JPG")).2
            ∉ Files2Text.allowed_extensions) as H.
  { apply (bool_decide_unpack _). by vm_compute. }
  split; [exact H|].
  exact (proj1 (proj2 (extract_unknown_extension Sample.unicode Sample.world
                         Sample.all_imports (Py.lit "root/photo.JPG") H))).
Defined.

Lemma written_files_come_from_accepted_inputs_witness :
  ∃ st',
    Files2Zip.convert_files_to_txt Sample.unicode Sample.world
      Sample.all_imports (Py.lit "root") (Py.lit "out/") 5242880 true
      Sample.empty_state = Ok st'
    ∧ st_files st' !! Py.lit "out/hello.txt"
      = Some (Py.lit "hello" ++ [Py.LF] ++ Py.lit "world")
    ∧ Py.endswith (Py.lit "out/hello.txt") (Py.lit ".txt") = true.
Proof.
  destruct (Files2Zip.convert_files_to_txt Sample.unicode Sample.world
              Sample.all_imports (Py.lit "root") (Py.lit "out/") 5242880 true
              Sample.empty_state) as [st'|e] eqn:Hrun;
    [|by vm_compute in Hrun].
  exists st'. split; [done|].
  assert (st_files st' !! Py.lit "out/hello.txt"
          = Some (Py.lit "hello" ++ [Py.LF] ++ Py.lit "world")) as Hfile.
  { vm_compute in Hrun. injection Hrun as <-. by vm_compute. }
  split; [exact Hfile|].
  refine (proj1 (written_files_come_from_accepted_inputs Sample.unicode
            Sample.world Sample.all_imports (Py.lit "root") (Py.lit "out/")
            5242880 true Files2Zip.convert_files_to_txt Sample.empty_state st'
            (Py.lit "out/hello.txt") _ Hrun _)).
  - apply list_elem_of_further, list_elem_of_here.
  - by rewrite Hfile.
Defined.


Lemma makedirs_failure_ends_the_run_witness :
  makedirs Office.world (Py.lit "out/locked") = Office.EACCES
  ∧ RawText2Utf8.convert_files_to_txt Sample.unicode Office.world
      Sample.all_imports (Py.lit "docs") (Py.lit "out") 5242880 true
      Sample.empty_state = Office.EACCES.
Proof.
  split; [reflexivity|].
  apply (makedirs_failure_ends_the_run Sample.unicode Office.world
           Sample.all_imports (Py.lit "docs") (Py.lit "out") 5242880 true
           RawText2Utf8.convert_files_to_txt Sample.empty_state
           (Dir [(Py.lit "locked",
                  Dir [] [Py.lit "blank.txt"; Py.lit "memo.txt"])]
                [Py.lit "a.txt"; Py.lit "nb.ipynb"])
           (Py.lit "docs/locked") (Py.lit "memo.txt")
           (Py.lit "out/locked/memo.txt")).
  - do 2 apply list_elem_of_further. apply list_elem_of_here.
  - discriminate.
  - reflexivity.
  - apply (bool_decide_unpack _). by vm_compute.
  - split; [reflexivity|]. split.
    + apply (bool_decide_unpack _). by vm_compute.
    + exists 10%N. split; [reflexivity|]. by vm_compute.
  - reflexivity.
  - reflexivity.
  - intros q e'. unfold Office.world. cbn [makedirs].
    case_bool_decide; [|done]. by intros [= <-].
Defined.

Lemma nothing_to_convert_witness :
  path_exists Office.world (Py.lit "out") = true
  ∧ Files2Text.convert_files_to_txt Sample.unicode Office.world
      Sample.all_imports (Py.lit "plain") (Py.lit "out") 5242880 true
      Sample.empty_state
    = Ok (State ∅ ∅
            [LogRecord INFO "Starting conversion from %s to %s"
               [ArgStr (Py.lit "plain"); ArgStr (Py.lit "out")];
             LogRecord INFO "Conversion complete." []]).
Proof.
  split; [reflexivity|].
  refine (proj1 (nothing_to_convert Sample.unicode Office.world
            Sample.all_imports (Py.lit "plain") (Py.lit "out") 5242880 true
            Files2Text.convert_files_to_txt Sample.empty_state _ _) _).
  - apply list_elem_of_here.
  - intros t root f [= <-] Hin. vm_compute in Hin.
    repeat (apply elem_of_cons in Hin as [[= -> ->]|Hin];
            [first [ left; split; reflexivity
                   | right; apply (bool_decide_unpack _); by vm_compute ]|]).
    by apply elem_of_nil in Hin.
  - reflexivity.
Defined.

Lemma hidden_entries_are_invisible_witness :
  visible (Dir [(Py.lit ".git", Dir [] [Py.lit "notes.txt"])]
             [Py.lit "README"; Py.lit "photo.jpg"; Py.lit ".env"])
  = Dir [] [Py.lit "README"; Py.lit "photo.jpg"]
  ∧ Files2Zip.walk Sample.unicode Office.world Sample.all_imports
      (Py.lit "plain") (Py.lit "out") 5242880 true (Py.lit "plain")
      (Dir [(Py.lit ".git", Dir [] [Py.lit "notes.txt"])]
         [Py.lit "README"; Py.lit "photo.jpg"; Py.lit ".env"])
      Sample.empty_state
    = Files2Zip.walk Sample.unicode Office.world Sample.all_imports
        (Py.lit "plain") (Py.lit "out") 5242880 false (Py.lit "plain")
        (visible (Dir [(Py.lit ".git", Dir [] [Py.lit "notes.txt"])]
                    [Py.lit "README"; Py.lit "photo.jpg"; Py.lit ".env"]))
        Sample.empty_state.
Proof.
  split; [by vm_compute|].
  apply (hidden_entries_are_invisible Sample.unicode Office.world
           Sample.all_imports (Py.lit "plain") (Py.lit "out") 5242880
           Files2Zip.walk).
  apply list_elem_of_further, list_elem_of_here.
Defined.

Lemma file_without_extension_is_skipped_witness :
  (PosixPath.splitext (Py.lit ".gitignore")).2 = []
  ∧ Files2Zip.process_file Sample.unicode Sample.world Sample.all_imports
      (Py.lit "root") (Py.lit "out") 5242880 false
      (Py.lit "root") (Py.lit ".gitignore") Sample.empty_state
    = Ok Sample.empty_state.
Proof.
  apply (file_without_extension_is_skipped Sample.unicode Sample.world
           Sample.all_imports (Py.lit "root") (Py.lit "out") 5242880 false
           Files2Zip.process_file).
  - apply list_elem_of_further, list_elem_of_here.
  - apply (bool_decide_unpack _). by vm_compute.
  - apply (bool_decide_unpack _). by vm_compute.
  - reflexivity.
Defined.

Lemma listed_formats_without_reader_witness :
  ∃ st',
    Files2Zip.process_file Sample.unicode Sample.world Sample.all_imports
      (Py.lit "root") (Py.lit "out") 5242880 true
      (Py.lit "root/talks") (Py.lit "slides.PPTX") Sample.empty_state
    = Ok st'
    ∧ st_files st' = st_files Sample.empty_state
    ∧ st_dirs st' = {[Py.lit "out/talks"]} ∪ st_dirs Sample.empty_state
    ∧ log_level <$> st_log st'
      = (log_level <$> st_log Sample.empty_state) ++ [WARNING; DEBUG].
Proof.
  apply (listed_formats_without_reader Sample.unicode Sample.world
           Sample.all_imports (Py.lit "root") (Py.lit "out") 5242880 true
           Files2Zip.process_file (Py.lit "root/talks")
           (Py.lit "slides.PPTX") (Py.lit "out/talks/slides.txt")).
  - apply list_elem_of_further, list_elem_of_here.
  - apply (bool_decide_unpack _). by vm_compute.
  - apply (bool_decide_unpack _). by vm_compute.
  - split; [reflexivity|]. split.
    + apply (bool_decide_unpack _). by vm_compute.
    + exists 100%N. split; [reflexivity|]. by vm_compute.
  - reflexivity.
  - reflexivity.
  - reflexivity.
Defined.

Lemma converted_file_holds_the_text_witness :
  Files2Text.process_file Sample.unicode Sample.world Sample.all_imports
    (Py.lit "root") (Py.lit "out") 5242880 true
    (Py.lit "root") (Py.lit "nul.txt") Sample.empty_state
  = Ok (State {[Py.lit "out/nul.txt" := [0%N]]} {[Py.lit "out"]}
          [LogRecord INFO "Wrote text to %s" [ArgStr (Py.lit "out/nul.txt")]]).
Proof.
  refine (eq_trans
            (proj1 (converted_file_holds_the_text Sample.unicode Sample.world
               Sample.all_imports (Py.lit "root") (Py.lit "out") 5242880 true
               (Py.lit "root") (Py.lit "nul.txt") (Py.lit "out/nul.txt")
               Sample.empty_state _ _ _ _) [0%N] [] _ _ _) _).
  - split; [reflexivity|]. split.
    + apply (bool_decide_unpack _). by vm_compute.
    + exists 100%N. split; [reflexivity|]. by vm_compute.
  - reflexivity.
  - reflexivity.
  - reflexivity.
  - reflexivity.
  - discriminate.
  - reflexivity.
  - by vm_compute.
Defined.

Lemma same_stem_same_output_witness :
  Files2Text.out_path_of Sample.world (Py.lit "root") (Py.lit "out")
    (PosixPath.join (Py.lit "root/sub") [Py.lit "doc.PDF"])
  = Files2Text.out_path_of Sample.world (Py.lit "root") (Py.lit "out")
      (PosixPath.join (Py.lit "root/sub") [Py.lit "doc.docx"]).
Proof.
  destruct (Files2Zip.process_file Sample.unicode Sample.world
              Sample.all_imports (Py.lit "root") (Py.lit "out") 5242880 true
              (Py.lit "root/sub") (Py.lit "doc.PDF") Sample.empty_state)
    as [st1|e] eqn:H1; [|by vm_compute in H1].
  destruct (Files2Zip.process_file Sample.unicode Sample.world
              Sample.all_imports (Py.lit "root") (Py.lit "out") 5242880 true
              (Py.lit "root/sub") (Py.lit "doc.docx") st1)
    as [st2|e] eqn:H2.
  2:{ vm_compute in H1. injection H1 as <-. by vm_compute in H2. }
  refine (proj1 (same_stem_same_output Sample.unicode Sample.world
            Sample.all_imports (Py.lit "root") (Py.lit "out") 5242880 true
            Files2Zip.process_file [Py.lit "sub"] (Py.lit "doc.PDF")
            (Py.lit "doc.docx") Sample.empty_state st1 st2 _ _ _ _ _ _ H1 H2)).
  - apply list_elem_of_further, list_elem_of_here.
  - reflexivity.
  - constructor; [|constructor]. unfold entry_name.
    apply (bool_decide_unpack _). by vm_compute.
  - unfold entry_name. apply (bool_decide_unpack _). by vm_compute.
  - unfold entry_name. apply (bool_decide_unpack _). by vm_compute.
  - by vm_compute.
Defined.

Lemma archive_location_witness :
  Py.startswith (Py.lit "my.zip") [PosixPath.sep] = false
  ∧ zr_path (Files2Zip.zip_output_dir Sample.world Office.zipfile
               (Py.lit "txt_output/") (Py.lit "my.zip") [])
    = Some (Py.lit "txt_output/my.zip")
  ∧ zr_path (Files2Zip.zip_output_dir Sample.world Office.zipfile
               (Py.lit "txt_output") (Py.lit "my.zip") [])
    = Some (Py.lit "my.zip").
Proof.
  split; [reflexivity|]. split.
  - refine (proj2 (proj2 (archive_location Sample.world Office.zipfile
              (Py.lit "txt_output/") (Py.lit "my.zip") [] _)) 116%N _ _ _ _);
      [reflexivity|reflexivity|reflexivity|discriminate|reflexivity].
  - refine (proj1 (archive_location Sample.world Office.zipfile
              (Py.lit "txt_output") (Py.lit "my.zip") [] _) _ _);
      [reflexivity| |reflexivity].
    apply (bool_decide_unpack _). by vm_compute.
Defined.

Lemma archive_members_witness :
  PosixPath.isabs (getcwd Office.world) = true
  ∧ zr_members (Files2Zip.zip_output_dir Office.world Office.zipfile
                  (Py.lit "out") (Py.lit "all.zip") [])
    = [Member (Py.lit "out/hello.txt") (Py.lit "hello.txt");
       Member (Py.lit "out/sub/doc.txt") (Py.lit "sub/doc.txt");
       Member (Py.lit "out/.cache/x.txt") (Py.lit ".cache/x.txt")].
Proof.
  split; [reflexivity|].
  rewrite (archive_members Office.world Office.zipfile (Py.lit "out")
             (Py.lit "all.zip") []).
  - by vm_compute.
  - reflexivity.
  - reflexivity.
  - reflexivity.
  - reflexivity.
  - intros t [= <-]. cbn [tree_names]. unfold entry_name.
    repeat split; try discriminate;
      try (apply (bool_decide_unpack _); by vm_compute).
    all: repeat constructor; try discriminate;
      try (apply (bool_decide_unpack _); by vm_compute).
Defined.

Lemma archive_mirrors_input_witness :
  PosixPath.isabs (getcwd Sample.world) = true
  ∧ Files2Zip.out_path_of Sample.world (Py.lit "root") (Py.lit "out")
      (Py.lit "root/sub/doc.PDF") = Ok (Py.lit "out/sub/doc.txt")
  ∧ Files2Zip.add_file Sample.world Office.zipfile (Py.lit "out")
      (Py.lit "out/sub") (Py.lit "doc.txt") []
    = ([Member (Py.lit "out/sub/doc.txt") (Py.lit "sub/doc.txt")], None).
Proof.
  split; [reflexivity|].
  assert (Forall entry_name [Py.lit "sub"]) as Hdirs.
  { constructor; [|constructor]. unfold entry_name.
    apply (bool_decide_unpack _). by vm_compute. }
  assert (entry_name (Py.lit "doc.PDF")) as Hname.
  { unfold entry_name. apply (bool_decide_unpack _). by vm_compute. }
  split.
  - exact (proj1 (archive_mirrors_input Sample.world Office.zipfile
                    (Py.lit "root") (Py.lit "out") [Py.lit "sub"]
                    (Py.lit "doc.PDF") [] eq_refl Hdirs Hname)).
  - exact (proj2 (proj2 (archive_mirrors_input Sample.world Office.zipfile
                    (Py.lit "root") (Py.lit "out") [Py.lit "sub"]
                    (Py.lit "doc.PDF") [] eq_refl Hdirs Hname)) eq_refl).
Defined.

(** X22.  The readers other than the two PDF readers are all or nothing.
    When the file cannot be opened or loaded, or when any paragraph of a
    [.docx] or [.odt] document, or any row of any sheet of a workbook,
    raises while it is read, what was read before is discarded: the
    reader returns the empty string and logs exactly one ERROR record
    with the path and the exception. *)
Theorem readers_are_all_or_nothing (w : World) (filepath : text) :
  (∀ e, open_read w filepath = Raise e →
     Files2Text._read_plaintext w filepath
     = ([], [LogRecord ERROR "Error reading plaintext file %s: %s"
               [ArgStr filepath; ArgExn e]]))
  ∧ ((∃ e, docx_Document w filepath = Raise e)
     ∨ (∃ doc e, docx_Document w filepath = Ok doc ∧ Raise e ∈ doc) →
     ∃ e', Files2Text._read_docx w filepath
           = ([], [LogRecord ERROR "Error reading DOCX %s: %s"
                     [ArgStr filepath; ArgExn e']]))
  ∧ ((∃ e, odf_load w filepath = Raise e)
     ∨ (∃ doc e, odf_load w filepath = Ok doc ∧ Raise e ∈ doc) →
     ∃ e', Files2Text._read_odt w filepath
           = ([], [LogRecord ERROR "Error reading ODT %s: %s"
                     [ArgStr filepath; ArgExn e']]))
  ∧ ((∃ e, load_workbook w filepath = Raise e)
     ∨ (∃ wb name e, load_workbook w filepath = Ok wb
                     ∧ name ∈ sheetnames wb ∧ Raise e ∈ iter_rows wb name) →
     ∃ e', Files2Text._read_excel w filepath
           = ([], [LogRecord ERROR "Error reading Excel file %s: %s"
                     [ArgStr filepath; ArgExn e']]))
  ∧ Files2Zip._read_plaintext w filepath = Files2Text._read_plaintext w filepath
  ∧ Files2Zip._read_docx w filepath = Files2Text._read_docx w filepath
  ∧ Files2Zip._read_odt w filepath = Files2Text._read_odt w filepath
  ∧ Files2Zip._read_excel w filepath = Files2Text._read_excel w filepath
  ∧ RawText2Utf8._read_plaintext w filepath
    = Files2Text._read_plaintext w filepath
  ∧ RawText2Utf8._read_docx w filepath = Files2Text._read_docx w filepath
  ∧ RawText2Utf8._read_odt w filepath = Files2Text._read_odt w filepath
  ∧ RawText2Utf8._read_excel w filepath = Files2Text._read_excel w filepath.
Proof.
  split; [|split; [|split; [|split; [|done]]]].
  - intros e. apply ExtractFacts.read_plaintext_raise.
  - apply ExtractFacts.read_docx_raise.
  - apply ExtractFacts.read_odt_raise.
  - apply ExtractFacts.read_excel_raise.
Qed.

Module ArchiveFailure.
Import Py PosixPath.

Section Members.
Context (w : World) (z : ZipModule) (output_dir : text).
Context (Hcwd : isabs (getcwd w) = true).


End Members.
End ArchiveFailure.


